(** * carteira_digital-back-end: the transaction engine

    A shallow embedding of [src/transactions/transactions.service.ts]
    (class [TransactionsService]: [deposit], [transfer],
    [reverseTransaction], [getHistory], [getBalance]) over the tables
    declared in [prisma/migrations/20241113000000_init/migration.sql].

    - The three tables are lists of rows, in insertion order.
    - A [DECIMAL(10,2)] column holds a count of hundredths, as [Z], of
      magnitude below [10 ^ 10]. Every write goes through
      [column_value]: the store rounds the decimal numeral it is sent to
      hundredths, halves away from zero, and refuses a value the column
      cannot hold ([ValueOutOfRange], Prisma's P2020); an increment or
      decrement is computed by the store, exactly, before the rounding.
    - A JavaScript [number] is kept behind the interface [JsNumber]; the
      service is written once against it and run on two implementations:
      [ExactCents] (ideal arithmetic) and [Binary64] (IEEE 754 doubles,
      from the Standard Library's [SpecFloat]; the numeral sent for a
      double is the shortest one that reads back as that double).
    - [prisma.$transaction(fn)] runs [fn] on the store and keeps the
      resulting store only if [fn] returns; a throw restores the store.
    - A new row gets its key and its [created_at] from the store and its
      [processedAt] from the service's clock: three parameters of each
      operation.

    Around it: the CPF validator ([common/validators/cpf.validator.ts])
    and the CPF helpers of [prisma/seed.ts], [HttpExceptionFilter], and
    [AuthService] with [JwtStrategy.validate], where bcrypt and the JWT
    service are parameters and the [VARCHAR] columns of ["users"] refuse
    a value that is too long ([ValueTooLong], Prisma's P2000). *)

From Stdlib Require Import ZArith List String Ascii Bool Lia.
From Stdlib Require Import Permutation Sorted Mergesort Orders.
From Stdlib Require Import Floats.SpecFloat.
Import ListNotations.

Local Open Scope string_scope.
Local Open Scope Z_scope.

(* ================================================================== *)
(** ** Data model (migration.sql) *)
(* ================================================================== *)

(** [CREATE TYPE "TransactionType"]. *)
Inductive TransactionType := DEPOSIT | TRANSFER | REVERSAL.

(** [CREATE TYPE "TransactionStatus"]. *)
Inductive TransactionStatus := PENDING | COMPLETED | REVERSED | FAILED.

Definition TransactionType_eqb (a b : TransactionType) : bool :=
  match a, b with
  | DEPOSIT, DEPOSIT | TRANSFER, TRANSFER | REVERSAL, REVERSAL => true
  | _, _ => false
  end.

Definition TransactionStatus_eqb (a b : TransactionStatus) : bool :=
  match a, b with
  | PENDING, PENDING | COMPLETED, COMPLETED
  | REVERSED, REVERSED | FAILED, FAILED => true
  | _, _ => false
  end.

(** A [DECIMAL(10,2)] value, counted in hundredths. *)
(** A [DECIMAL(10,2)] value, counted in hundredths. The column holds at
    most eight digits before the point: see [fits_column]. *)
Definition Decimal := Z.

(** Row of ["users"] (the columns the service reads). *)
Record User := mkUser {
  user_id : string;
  user_name : string;
  user_cpf : string
}.

(** Row of ["wallets"]. *)
Record Wallet := mkWallet {
  wallet_id : string;
  wallet_balance : Decimal;
  wallet_userId : string
}.

(** Row of ["transactions"]; [to_wallet_id] is [NOT NULL], the other
    references are nullable. Timestamps are milliseconds. *)
Record Transaction := mkTransaction {
  tx_id : string;
  tx_type : TransactionType;
  tx_amount : Decimal;
  tx_status : TransactionStatus;
  tx_description : option string;
  tx_fromWalletId : option string;
  tx_toWalletId : string;
  tx_reversedTransactionId : option string;
  tx_createdAt : Z;
  tx_processedAt : option Z
}.

Record Store := mkStore {
  users : list User;
  wallets : list Wallet;
  transactions : list Transaction
}.

(* ================================================================== *)
(** ** Decimal numerals and the two-digit column *)
(* ================================================================== *)

(** A decimal numeral: [dec_mant * 10 ^ dec_exp]. The client writes a
    [number] to the database as a numeral; the database computes on
    numerals exactly and rounds what it stores in a column. *)
Record Dec := mkDec {
  dec_mant : Z;
  dec_exp : Z
}.

Definition dec_of_hundredths (h : Z) : Dec := mkDec h (-2).

Definition dec_opp (d : Dec) : Dec := mkDec (- dec_mant d) (dec_exp d).

(** Exact sum of two numerals. *)
Definition dec_add (x y : Dec) : Dec :=
  let e := Z.min (dec_exp x) (dec_exp y) in
  mkDec (dec_mant x * 10 ^ (dec_exp x - e)
         + dec_mant y * 10 ^ (dec_exp y - e)) e.

(** [n / d] rounded to the nearest integer, halves away from zero
    ([0 < d]): the rounding of [numeric]. *)
Definition round_half_away (n d : Z) : Z :=
  Z.sgn n * ((2 * Z.abs n + d) / (2 * d)).

(** The count of hundredths a scale-2 column makes of a numeral. *)
Definition round_to_hundredths (d : Dec) : Z :=
  if 0 <=? dec_exp d + 2
  then dec_mant d * 10 ^ (dec_exp d + 2)
  else round_half_away (dec_mant d) (10 ^ (- (dec_exp d + 2))).

(** [DECIMAL(10,2)] holds the values of magnitude at most 99999999.99. *)
Definition fits_column (h : Z) : bool := Z.abs h <? 10 ^ 10.

(** The numeral is a whole number of hundredths. *)
Definition whole_hundredths (d : Dec) : bool :=
  (0 <=? dec_exp d + 2)
  || (dec_mant d mod 10 ^ (- (dec_exp d + 2)) =? 0).

(* ================================================================== *)
(** ** JavaScript numbers *)
(* ================================================================== *)

(** What the service needs from [number] and from the conversions at the
    column boundary: [toNumber] is [Decimal.toNumber()]; [numeral] is the
    numeral the client sends for a [number] ([None] for a number that
    has none: NaN and the infinities); [toFixed2] is
    [Number.prototype.toFixed(2)]. *)
Class JsNumber := {
  number : Type;
  num_add : number -> number -> number;
  num_sub : number -> number -> number;
  num_ltb : number -> number -> bool;
  toNumber : Decimal -> number;
  numeral : number -> option Dec;
  toFixed2 : number -> string
}.

(** The hundredths a scale-2 column makes of a [number], whether or not
    they fit the column ([0] for a number without numeral, which no
    column takes: see [column_value]). *)
Definition ofNumber {N : JsNumber} (n : number) : Decimal :=
  match numeral n with
  | Some d => round_to_hundredths d
  | None => 0
  end.

(** The number is the amount of [a] hundredths, no more digits. *)
Definition amount_in_cents {N : JsNumber} (n : number) (a : Decimal)
  : bool :=
  match numeral n with
  | Some d => whole_hundredths d && (round_to_hundredths d =? a)
  | None => false
  end.

(** The number reaches a column as [h] hundredths. *)
Definition coerces_to {N : JsNumber} (n : number) (h : Decimal) : bool :=
  match numeral n with
  | Some d => round_to_hundredths d =? h
  | None => false
  end.

(** *** Decimal digits *)

Definition digit_char (d : Z) : ascii :=
  ascii_of_nat (48 + Z.to_nat d).

Fixpoint digits_fuel (fuel : nat) (n : Z) (acc : string) : string :=
  match fuel with
  | O => acc
  | S fuel' =>
      let acc' := String (digit_char (n mod 10)) acc in
      if n / 10 =? 0 then acc' else digits_fuel fuel' (n / 10) acc'
  end.

(** Decimal numeral of a non-negative integer. *)
Definition Z_digits (n : Z) : string :=
  digits_fuel (S (Z.to_nat (Z.log2 n))) n EmptyString.

Definition pad2 (n : Z) : string :=
  if n <? 10 then String "0" (Z_digits n) else Z_digits n.

(** [h] hundredths (non-negative) written with two fractional digits. *)
Definition fixed2_of_hundredths (h : Z) : string :=
  Z_digits (h / 100) ++ "." ++ pad2 (h mod 100).

(** *** Ideal arithmetic: a number is an exact count of hundredths. *)

Definition ExactCents : JsNumber := {|
  number := Z;
  num_add := Z.add;
  num_sub := Z.sub;
  num_ltb := Z.ltb;
  toNumber := fun d => d;
  numeral := fun n => Some (dec_of_hundredths n);
  toFixed2 := fun n =>
    if n <? 0 then "-" ++ fixed2_of_hundredths (- n)
    else fixed2_of_hundredths n
|}.

(** *** IEEE 754 binary64, the arithmetic JavaScript runs. *)

Definition prec64 : Z := 53.
Definition emax64 : Z := 1024.

Definition b64_of_Z (z : Z) : spec_float :=
  binary_normalize prec64 emax64 z 0 false.

(** [Decimal.toNumber()]: the double nearest to [d / 100]. Both operands
    are exact doubles for a ten-digit column, and IEEE division rounds
    the quotient correctly. *)
Definition b64_toNumber (d : Decimal) : spec_float :=
  SFdiv prec64 emax64 (b64_of_Z d) (b64_of_Z 100).

(** [|x| * 100] rounded to the nearest integer, halves upwards. *)
Definition b64_abs_hundredths (x : spec_float) : Z :=
  match x with
  | S754_finite _ m e =>
      if 0 <=? e then Zpos m * 2 ^ e * 100
      else (2 * Zpos m * 100 + 2 ^ (- e)) / (2 * 2 ^ (- e))
  | _ => 0
  end.

Definition b64_negative (x : spec_float) : bool :=
  match x with
  | S754_finite s _ _ => s
  | S754_infinity s => s
  | _ => false
  end.

(** The numeral [String(x)] of a positive double [m * 2 ^ e]
    (Number::toString): of the decimals [s * 10 ^ q] that are read back
    as this double, one with the fewest digits, and among those the
    nearest (the even [s] on a tie).

    In units of [2 ^ (e - 2)] the double is [V = 4 m]; the reals read
    back as it lie between [L] and [H], the midpoints to its
    neighbours, and the midpoints themselves are read back as it when
    [m] is even. The search goes down from an exponent [q] no candidate
    can exceed; at each [q] the two multiples of [10 ^ q] around the
    double are tried. At [q = min e 0] the double itself is a multiple,
    so the search ends there at the latest. *)
Fixpoint b64_shortest_from (fuel : nat) (V L H : Z) (inclusive : bool)
  (p2 q : Z) : Dec :=
  let A := 10 ^ Z.max q 0 * 2 ^ Z.max (- p2) 0 in
  let B := 2 ^ Z.max p2 0 * 10 ^ Z.max (- q) 0 in
  let s1 := V * B / A in
  let s2 := s1 + 1 in
  let inside (s : Z) :=
    if inclusive then (L * B <=? s * A) && (s * A <=? H * B)
    else (L * B <? s * A) && (s * A <? H * B) in
  match inside s1, inside s2 with
  | true, true =>
      let below := V * B - s1 * A in
      let above := s2 * A - V * B in
      if below <? above then mkDec s1 q
      else if above <? below then mkDec s2 q
      else if Z.even s1 then mkDec s1 q else mkDec s2 q
  | true, false => mkDec s1 q
  | false, true => mkDec s2 q
  | false, false =>
      match fuel with
      | O => mkDec s1 q
      | S fuel' => b64_shortest_from fuel' V L H inclusive p2 (q - 1)
      end
  end.

Definition b64_shortest (m : positive) (e : Z) : Dec :=
  let M := Zpos m in
  let narrow := (M =? 2 ^ 52) && (-1074 <? e) in
  let L := 4 * M - (if narrow then 1 else 2) in
  let H := 4 * M + 2 in
  let bits := Z.log2 M + 1 + e in
  let q := bits * 30103 / 100000 + 2 in
  b64_shortest_from (Z.to_nat (q - Z.min e 0)) (4 * M) L H (Z.even M)
    (e - 2) q.

(** The numeral the client sends for a double: [JSON.stringify] writes
    [String(x)], and has nothing to write for NaN and the infinities. *)
Definition b64_numeral (x : spec_float) : option Dec :=
  match x with
  | S754_zero _ => Some (mkDec 0 0)
  | S754_finite s m e =>
      Some (if s then dec_opp (b64_shortest m e) else b64_shortest m e)
  | _ => None
  end.

(** [x.toFixed(2)] for [|x| < 1e21] (fixed notation): the hundredths
    nearest to the double's exact value, the larger on a tie. *)
Definition b64_toFixed2 (x : spec_float) : string :=
  match x with
  | S754_nan => "NaN"
  | S754_infinity s => if s then "-Infinity" else "Infinity"
  | _ =>
      (if b64_negative x then "-" else EmptyString)
        ++ fixed2_of_hundredths (b64_abs_hundredths x)
  end.

Definition Binary64 : JsNumber := {|
  number := spec_float;
  num_add := SFadd prec64 emax64;
  num_sub := SFsub prec64 emax64;
  num_ltb := SFltb;
  toNumber := b64_toNumber;
  numeral := b64_numeral;
  toFixed2 := b64_toFixed2
|}.

(** The exact value of a finite double equals [h] hundredths. *)
Definition b64_is_hundredths (x : spec_float) (h : Z) : bool :=
  match x with
  | S754_zero _ => h =? 0
  | S754_finite s m e =>
      let v := if s then Zneg m else Zpos m in
      if 0 <=? e then v * 2 ^ e * 100 =? h
      else v * 100 =? h * 2 ^ (- e)
  | _ => false
  end.

(** The double nearest to [n / 1000]: what the request parser makes of
    a numeral with three fractional digits. *)
Definition b64_thousandths (n : Z) : spec_float :=
  SFdiv prec64 emax64 (b64_of_Z n) (b64_of_Z 1000).


(* ================================================================== *)
(** ** The store behind the Prisma client *)
(* ================================================================== *)

(** What the service can throw. The first three are the Nest exceptions
    it raises itself; [TypeError] is the runtime's (a property read on
    [null]). The others are the client's: [RecordNotFound] is P2025,
    raised by [update] when no row matches [where];
    [ValueOutOfRange] is P2020, raised when a value does not fit its
    column; [InvalidValue] is its refusal of a number that has no
    numeral. *)
Inductive Exception :=
| NotFoundException (message : string)
| BadRequestException (message : string)
| ForbiddenException (message : string)
| TypeError (message : string)
| RecordNotFound (model : string)
| ValueOutOfRange (column : string)
| InvalidValue (column : string).

Inductive Result (A : Type) :=
| Return (a : A)
| Throw (e : Exception).
Arguments Return {A} a.
Arguments Throw {A} e.

(** What a [DECIMAL(10,2)] column makes of a numeral sent to it: the
    numeral rounded to hundredths, if that fits. *)
Definition column_value (column : string) (value : option Dec)
  : Result Decimal :=
  match value with
  | None => Throw (InvalidValue column)
  | Some d =>
      let h := round_to_hundredths d in
      if fits_column h then Return h else Throw (ValueOutOfRange column)
  end.

(** [x === y] for [x : string | null | undefined] and [y : string]. *)
Definition opt_string_eqb (x : option string) (y : string) : bool :=
  match x with
  | Some x' => String.eqb x' y
  | None => false
  end.

(** [!x] for a string: only the empty string is falsy. *)
Definition falsy (x : string) : bool := String.eqb x EmptyString.

(** [x || dflt] for an optional string. *)
Definition or_default (x : option string) (dflt : string) : string :=
  match x with
  | Some x' => if falsy x' then dflt else x'
  | None => dflt
  end.

(** [`${x}`] for [x : string | null]. *)
Definition interpolate (x : option string) : string :=
  match x with
  | Some x' => x'
  | None => "null"
  end.

(** [findUnique({ where: { id } })] and its siblings. *)
Definition findUserById (s : Store) (id : string) : option User :=
  find (fun u => String.eqb (user_id u) id) (users s).

Definition findUserByCpf (s : Store) (cpf : string) : option User :=
  find (fun u => String.eqb (user_cpf u) cpf) (users s).

Definition findWalletByUserId (s : Store) (userId : string)
  : option Wallet :=
  find (fun w => String.eqb (wallet_userId w) userId) (wallets s).

Definition findWalletById (s : Store) (id : string) : option Wallet :=
  find (fun w => String.eqb (wallet_id w) id) (wallets s).

Definition findTransactionById (s : Store) (id : string)
  : option Transaction :=
  find (fun t => String.eqb (tx_id t) id) (transactions s).

(** [wallet?.user.id] under [include: { user: true }]: the included user
    is the row [wallets_user_id_fkey] points to, so its id is the
    wallet's [user_id]; without a wallet the chain is [undefined]. *)
Definition walletOwnerId (s : Store) (walletId : option string)
  : option string :=
  match walletId with
  | Some id => option_map wallet_userId (findWalletById s id)
  | None => None
  end.

(** [wallet?.user?.name] under the same include. *)
Definition walletOwnerName (s : Store) (walletId : option string)
  : option string :=
  match walletOwnerId s walletId with
  | Some uid => option_map user_name (findUserById s uid)
  | None => None
  end.

Definition set_balance (w : Wallet) (b : Decimal) : Wallet :=
  mkWallet (wallet_id w) b (wallet_userId w).

Definition set_status (t : Transaction) (st : TransactionStatus)
  : Transaction :=
  mkTransaction (tx_id t) (tx_type t) (tx_amount t) st (tx_description t)
    (tx_fromWalletId t) (tx_toWalletId t) (tx_reversedTransactionId t)
    (tx_createdAt t) (tx_processedAt t).

Definition updateWalletRow (id : string) (f : Decimal -> Decimal)
  (w : Wallet) : Wallet :=
  if String.eqb (wallet_id w) id
  then set_balance w (f (wallet_balance w)) else w.

Definition updateWalletRows (id : string) (f : Decimal -> Decimal)
  (ws : list Wallet) : list Wallet :=
  map (updateWalletRow id f) ws.

Definition updateStatusRow (id : string) (st : TransactionStatus)
  (t : Transaction) : Transaction :=
  if String.eqb (tx_id t) id then set_status t st else t.

Definition updateStatusRows (id : string) (st : TransactionStatus)
  (ts : list Transaction) : list Transaction :=
  map (updateStatusRow id st) ts.

(** [orderBy: { createdAt: 'desc' }]: the rows merge-sorted, newest
    first; the store fixes no order among rows created at the same
    instant. *)
Module CreatedAtDesc <: TotalLeBool.

Definition t := Transaction.

Definition leb (x y : t) : bool := tx_createdAt y <=? tx_createdAt x.

Lemma leb_total : forall x y, leb x y = true \/ leb y x = true.
Proof.
  intros x y. unfold leb.
  destruct (Z.leb_spec (tx_createdAt y) (tx_createdAt x)); [now left|].
  right. apply Z.leb_le. lia.
Qed.

End CreatedAtDesc.

Module ByCreatedAtDesc := Sort CreatedAtDesc.

(** The [where] of [getHistory]:
    [OR: [{ fromWalletId: id }, { toWalletId: id }]]. *)
Definition involvesWallet (id : string) (t : Transaction) : bool :=
  opt_string_eqb (tx_fromWalletId t) id || String.eqb (tx_toWalletId t) id.

Definition findManyTransactions (s : Store) (walletId : string)
  : list Transaction :=
  ByCreatedAtDesc.sort (filter (involvesWallet walletId) (transactions s)).

(** *** The interactive transaction *)

(** A callback of [$transaction]: it reads and writes the store through
    the client [tx], and returns or throws. *)
Definition Tx (A : Type) : Type := Store -> Result (A * Store).

Definition ret {A} (a : A) : Tx A := fun s => Return (a, s).

Definition throw {A} (e : Exception) : Tx A := fun _ => Throw e.

Definition bind {A B} (m : Tx A) (k : A -> Tx B) : Tx B :=
  fun s =>
    match m s with
    | Return (a, s') => k a s'
    | Throw e => Throw e
    end.

Notation "x <- m ;; k" := (bind m (fun x => k))
  (at level 61, m at next level, right associativity).
Notation "m ;;; k" := (bind m (fun _ => k))
  (at level 61, right associativity).

(** [prisma.$transaction(fn)]: commit when [fn] returns, roll back when
    it throws. *)
Definition prisma_transaction {A} (fn : Tx A) (s : Store)
  : Result A * Store :=
  match fn s with
  | Return (a, s') => (Return a, s')
  | Throw e => (Throw e, s)
  end.

Definition tx_wallet_findByUserId (userId : string) : Tx (option Wallet) :=
  fun s => Return (findWalletByUserId s userId, s).

Definition tx_wallet_findById (id : string) : Tx (option Wallet) :=
  fun s => Return (findWalletById s id, s).

(** [tx.transaction.update({ where: { id }, data: { status } })]. *)
Definition tx_transaction_updateStatus (id : string)
  (st : TransactionStatus) : Tx unit :=
  fun s =>
    match findTransactionById s id with
    | Some _ =>
        Return (tt, mkStore (users s) (wallets s)
                      (updateStatusRows id st (transactions s)))
    | None => Throw (RecordNotFound "Transaction")
    end.

(** [tx.transaction.create({ data })]: the row is appended and returned.
    Its [id] and [created_at] come from the store. *)
Definition tx_transaction_create (row : Transaction) : Tx Transaction :=
  fun s =>
    Return (row, mkStore (users s) (wallets s) (transactions s ++ [row])).

(* ================================================================== *)
(** ** TransactionsService *)
(* ================================================================== *)

Definition is_digit (c : ascii) : bool :=
  let n := nat_of_ascii c in (48 <=? n)%nat && (n <=? 57)%nat.

(** [cpf.replace(/[^\d]/g, '')]. *)
Fixpoint removeNonDigits (s : string) : string :=
  match s with
  | EmptyString => EmptyString
  | String c rest =>
      if is_digit c then String c (removeNonDigits rest)
      else removeNonDigits rest
  end.

Inductive Direction := received | sent.

Section Service.

Context {N : JsNumber}.

(** [data: { balance: n }], [{ balance: { increment: n } }] and
    [{ balance: { decrement: n } }]. *)
Inductive BalanceData :=
| balance_set (n : number)
| balance_increment (n : number)
| balance_decrement (n : number).

(** The numeral the database is to store for [data] on a row holding
    [b]: the one sent, or the exact sum or difference of the stored
    value and the one sent, which the database computes itself. *)
Definition balance_sent (data : BalanceData) (b : Decimal) : option Dec :=
  match data with
  | balance_set n => numeral n
  | balance_increment n =>
      option_map (dec_add (dec_of_hundredths b)) (numeral n)
  | balance_decrement n =>
      option_map (fun d => dec_add (dec_of_hundredths b) (dec_opp d))
        (numeral n)
  end.

(** The balance the column holds after [data], or the error. *)
Definition new_balance (data : BalanceData) (b : Decimal)
  : Result Decimal :=
  column_value "balance" (balance_sent data b).

(** [tx.wallet.update({ where: { id }, data: { balance } })]. *)
Definition tx_wallet_update (id : string) (data : BalanceData)
  : Tx unit :=
  fun s =>
    match findWalletById s id with
    | Some w =>
        match new_balance data (wallet_balance w) with
        | Return b =>
            Return (tt, mkStore (users s)
                          (updateWalletRows id (fun _ => b) (wallets s))
                          (transactions s))
        | Throw e => Throw e
        end
    | None => Throw (RecordNotFound "Wallet")
    end.

(** The [amount] of [tx.transaction.create], a [number], as its column
    takes it. *)
Definition tx_amount_column (amount : number) : Tx Decimal :=
  fun s =>
    match column_value "amount" (numeral amount) with
    | Return a => Return (a, s)
    | Throw e => Throw e
    end.

(** [dto/deposit.dto.ts]. *)
Record DepositDto := mkDepositDto {
  deposit_amount : number;
  deposit_description : option string
}.

(** [dto/transfer.dto.ts]. *)
Record TransferDto := mkTransferDto {
  transfer_recipientCpf : string;
  transfer_amount : number;
  transfer_description : option string
}.

(** [{ ...transaction, amount: transaction.amount.toNumber(),
       newBalance, previousBalance }]. *)
Record DepositResult := mkDepositResult {
  dr_transaction : Transaction;
  dr_amount : number;
  dr_newBalance : number;
  dr_previousBalance : number
}.

Record TransferResult := mkTransferResult {
  tr_transaction : Transaction;
  tr_amount : number;
  tr_newBalance : number;
  tr_previousBalance : number;
  tr_recipient_id : string;
  tr_recipient_name : string
}.

Record ReverseResult := mkReverseResult {
  rr_message : string;
  rr_reversalTransaction : Transaction;
  rr_amount : number;
  rr_newBalance : number
}.

Record HistoryEntry := mkHistoryEntry {
  h_id : string;
  h_type : TransactionType;
  h_amount : number;
  h_status : TransactionStatus;
  h_description : option string;
  h_createdAt : Z;
  h_processedAt : option Z;
  h_direction : Direction;
  (** [null], or [{ id, name }] with either field possibly undefined *)
  h_otherParty : option (option string * option string)
}.

Record BalanceResult := mkBalanceResult {
  br_balance : number;
  br_walletId : string
}.

(** *** deposit *)

(** The callback [deposit] hands to [$transaction]. [newId] and
    [createdAt] stand for the key and the [created_at] the store gives
    the new row, [now] for the [new Date()] the service writes to
    [processedAt]. *)
Definition deposit_unit (userId : string) (dto : DepositDto)
  (newId : string) (createdAt now : Z) : Tx DepositResult :=
  let amount := deposit_amount dto in
  let description := deposit_description dto in
  wallet <- tx_wallet_findByUserId userId ;;
  match wallet with
  | None => throw (NotFoundException "Carteira não encontrada")
  | Some wallet =>
      let previousBalance := toNumber (wallet_balance wallet) in
      let newBalance := num_add previousBalance amount in
      tx_wallet_update (wallet_id wallet) (balance_set newBalance) ;;;
      stored <- tx_amount_column amount ;;
      transaction <-
        tx_transaction_create
          (mkTransaction newId DEPOSIT stored COMPLETED
             (Some (or_default description "Depósito"))
             None (wallet_id wallet) None createdAt (Some now)) ;;
      ret (mkDepositResult transaction (toNumber (tx_amount transaction))
             newBalance previousBalance)
  end.

Definition deposit (userId : string) (dto : DepositDto)
  (newId : string) (createdAt now : Z) (s : Store)
  : Result DepositResult * Store :=
  prisma_transaction (deposit_unit userId dto newId createdAt now) s.

(** *** transfer *)

(** Everything [transfer] does before [$transaction]: it yields the
    recipient [toUser]. *)
Definition transfer_prechecks (userId : string) (dto : TransferDto)
  (s : Store) : Result User :=
  let cleanCpf := removeNonDigits (transfer_recipientCpf dto) in
  match findUserById s userId with
  | None => Throw (NotFoundException "Usuário remetente não encontrado")
  | Some fromUser =>
      if String.eqb (user_cpf fromUser) cleanCpf
      then Throw (BadRequestException
                    "Não é possível transferir para si mesmo")
      else
        match findUserByCpf s cleanCpf with
        | None => Throw (NotFoundException "Destinatário não encontrado")
        | Some toUser =>
            match findWalletByUserId s (user_id toUser) with
            | None =>
                Throw (NotFoundException "Destinatário não encontrado")
            | Some _ => Return toUser
            end
        end
  end.

(** The callback [transfer] hands to [$transaction]. The recipient's
    wallet is fetched and then used without a null test: [toWallet.id]
    on [null] is a [TypeError], raised after the sender's update. *)
Definition transfer_unit (userId : string) (toUser : User)
  (dto : TransferDto) (newId : string) (createdAt now : Z)
  : Tx TransferResult :=
  let amount := transfer_amount dto in
  let description := transfer_description dto in
  let toUserId := user_id toUser in
  fromWallet <- tx_wallet_findByUserId userId ;;
  match fromWallet with
  | None => throw (NotFoundException "Carteira não encontrada")
  | Some fromWallet =>
      toWallet <- tx_wallet_findByUserId toUserId ;;
      let currentBalance := toNumber (wallet_balance fromWallet) in
      if num_ltb currentBalance amount
      then throw (BadRequestException
                    ("Saldo insuficiente. Disponível: R$ "
                       ++ toFixed2 currentBalance))
      else
        let previousBalance := currentBalance in
        let newBalance := num_sub currentBalance amount in
        tx_wallet_update (wallet_id fromWallet) (balance_set newBalance) ;;;
        match toWallet with
        | None =>
            throw (TypeError
                     "Cannot read properties of null (reading 'id')")
        | Some toWallet =>
            tx_wallet_update (wallet_id toWallet)
              (balance_increment amount) ;;;
            stored <- tx_amount_column amount ;;
            transaction <-
              tx_transaction_create
                (mkTransaction newId TRANSFER stored COMPLETED
                   (Some (or_default description "Transferência"))
                   (Some (wallet_id fromWallet)) (wallet_id toWallet)
                   None createdAt (Some now)) ;;
            ret (mkTransferResult transaction
                   (toNumber (tx_amount transaction))
                   newBalance previousBalance
                   (user_id toUser) (user_name toUser))
        end
  end.

(** [transfer] with the pre-checks reading the store as it was at [pre]
    and the atomic unit running on [s]: another request may have
    committed in between. *)
Definition transfer_interleaved (pre : Store) (userId : string)
  (dto : TransferDto) (newId : string) (createdAt now : Z) (s : Store)
  : Result TransferResult * Store :=
  match transfer_prechecks userId dto pre with
  | Throw e => (Throw e, s)
  | Return toUser =>
      prisma_transaction
        (transfer_unit userId toUser dto newId createdAt now) s
  end.

(** [transfer] with nothing in between. *)
Definition transfer (userId : string) (dto : TransferDto)
  (newId : string) (createdAt now : Z) (s : Store)
  : Result TransferResult * Store :=
  transfer_interleaved s userId dto newId createdAt now s.

(** *** reverseTransaction *)

(** The wallet updates of the reversal, by type of the original. *)
Definition reverse_balances (transaction : Transaction) (amount : number)
  : Tx unit :=
  match tx_type transaction with
  | DEPOSIT =>
      if falsy (tx_toWalletId transaction)
      then throw (BadRequestException
             "Transação de depósito inválida: toWalletId não encontrado")
      else tx_wallet_update (tx_toWalletId transaction)
             (balance_decrement amount)
  | TRANSFER =>
      match tx_fromWalletId transaction with
      | Some fromWalletId =>
          if falsy fromWalletId || falsy (tx_toWalletId transaction)
          then throw (BadRequestException
      "Transação de transferência inválida: wallet IDs não encontrados")
          else
            toWallet <- tx_wallet_findById (tx_toWalletId transaction) ;;
            match toWallet with
            | None => throw (NotFoundException
                               "Carteira do destinatário não encontrada")
            | Some toWallet =>
                if num_ltb (toNumber (wallet_balance toWallet)) amount
                then throw (BadRequestException
                  "Destinatário não tem saldo suficiente para reversão")
                else
                  tx_wallet_update fromWalletId
                    (balance_increment amount) ;;;
                  tx_wallet_update (tx_toWalletId transaction)
                    (balance_decrement amount)
            end
      | None => throw (BadRequestException
      "Transação de transferência inválida: wallet IDs não encontrados")
      end
  | REVERSAL => ret tt
  end.

(** The callback [reverseTransaction] hands to [$transaction];
    [transaction] is the row read before it. The amount of the new row
    is the [Decimal] of the old one, which fits the column it was read
    from. *)
Definition reverse_unit (userId transactionId : string)
  (transaction : Transaction) (newId : string) (createdAt now : Z)
  : Tx ReverseResult :=
  let amount := toNumber (tx_amount transaction) in
  reverse_balances transaction amount ;;;
  tx_transaction_updateStatus transactionId REVERSED ;;;
  let reversalFromWalletId :=
    match tx_type transaction with
    | DEPOSIT => None
    | _ => Some (tx_toWalletId transaction)
    end in
  let reversalToWalletId :=
    match tx_type transaction with
    | DEPOSIT => Some (tx_toWalletId transaction)
    | _ => tx_fromWalletId transaction
    end in
  match reversalToWalletId with
  | None => throw (BadRequestException
      "Não é possível criar reversão: wallet de destino não encontrado")
  | Some reversalTo =>
      if falsy reversalTo
      then throw (BadRequestException
      "Não é possível criar reversão: wallet de destino não encontrado")
      else
        reversalTransaction <-
          tx_transaction_create
            (mkTransaction newId REVERSAL (tx_amount transaction) COMPLETED
               (Some ("Estorno: "
                        ++ interpolate (tx_description transaction)))
               reversalFromWalletId reversalTo
               (Some (tx_id transaction)) createdAt (Some now)) ;;
        updatedWallet <- tx_wallet_findByUserId userId ;;
        match updatedWallet with
        | None => throw (NotFoundException
                           "Carteira não encontrada após reversão")
        | Some updatedWallet =>
            ret (mkReverseResult "Transação revertida com sucesso"
                   reversalTransaction
                   (toNumber (tx_amount reversalTransaction))
                   (toNumber (wallet_balance updatedWallet)))
        end
  end.

Definition isOwner (s : Store) (transaction : Transaction)
  (userId : string) : bool :=
  opt_string_eqb
    (walletOwnerId s (Some (tx_toWalletId transaction))) userId
  || opt_string_eqb
       (walletOwnerId s (tx_fromWalletId transaction)) userId.

(** [reverseTransaction] with its first lines (the lookup of the
    transaction and the three guards) reading the store as it was at
    [pre], and the atomic unit running on [s]. *)
Definition reverseTransaction_interleaved (pre : Store)
  (userId transactionId : string) (newId : string) (createdAt now : Z)
  (s : Store) : Result ReverseResult * Store :=
  match findTransactionById pre transactionId with
  | None => (Throw (NotFoundException "Transação não encontrada"), s)
  | Some transaction =>
      if negb (isOwner pre transaction userId)
      then (Throw (ForbiddenException
              "Você não tem permissão para reverter esta transação"), s)
      else if TransactionStatus_eqb (tx_status transaction) REVERSED
      then (Throw (BadRequestException "Esta transação já foi revertida"),
            s)
      else if TransactionType_eqb (tx_type transaction) REVERSAL
      then (Throw (BadRequestException
                     "Reversões não podem ser revertidas"), s)
      else
        prisma_transaction
          (reverse_unit userId transactionId transaction newId createdAt
             now) s
  end.

(** [reverseTransaction] with nothing in between. *)
Definition reverseTransaction (userId transactionId : string)
  (newId : string) (createdAt now : Z) (s : Store)
  : Result ReverseResult * Store :=
  reverseTransaction_interleaved s userId transactionId newId createdAt
    now s.

(** *** getHistory and getBalance *)

(** One element of [transactions.map((t) => ...)]. *)
Definition historyEntry (s : Store) (wallet : Wallet) (t : Transaction)
  : HistoryEntry :=
  let incoming := String.eqb (tx_toWalletId t) (wallet_id wallet) in
  mkHistoryEntry (tx_id t) (tx_type t) (toNumber (tx_amount t))
    (tx_status t) (tx_description t) (tx_createdAt t) (tx_processedAt t)
    (if incoming then received else sent)
    (if TransactionType_eqb (tx_type t) TRANSFER
     then Some
            (if incoming
             then walletOwnerId s (tx_fromWalletId t)
             else walletOwnerId s (Some (tx_toWalletId t)),
             if incoming
             then walletOwnerName s (tx_fromWalletId t)
             else walletOwnerName s (Some (tx_toWalletId t)))
     else None).

Definition getHistory (userId : string) (s : Store)
  : Result (list HistoryEntry) :=
  match findWalletByUserId s userId with
  | None => Throw (NotFoundException "Carteira não encontrada")
  | Some wallet =>
      Return (map (historyEntry s wallet)
                (findManyTransactions s (wallet_id wallet)))
  end.

Definition getBalance (userId : string) (s : Store)
  : Result BalanceResult :=
  match findWalletByUserId s userId with
  | None => Throw (NotFoundException "Carteira não encontrada")
  | Some wallet =>
      Return (mkBalanceResult (toNumber (wallet_balance wallet))
                (wallet_id wallet))
  end.

End Service.

(* ================================================================== *)
(** ** Vocabulary of the statements *)
(* ================================================================== *)

(** The row [deposit] creates, with the amount as the column took it. *)
Definition deposit_row (wallet : Wallet) (description : option string)
  (amount : Decimal) (newId : string) (createdAt now : Z) : Transaction :=
  mkTransaction newId DEPOSIT amount COMPLETED
    (Some (or_default description "Depósito"))
    None (wallet_id wallet) None createdAt (Some now).

(** The row [transfer] creates. *)
Definition transfer_row (fromWallet toWallet : Wallet)
  (description : option string) (amount : Decimal) (newId : string)
  (createdAt now : Z) : Transaction :=
  mkTransaction newId TRANSFER amount COMPLETED
    (Some (or_default description "Transferência"))
    (Some (wallet_id fromWallet)) (wallet_id toWallet) None createdAt
    (Some now).

(** The row a reversal of [t] creates, from [from] to [to]. *)
Definition reversal_row (newId : string) (createdAt now : Z)
  (t : Transaction) (from : option string) (to : string) : Transaction :=
  mkTransaction newId REVERSAL (tx_amount t) COMPLETED
    (Some ("Estorno: " ++ interpolate (tx_description t)))
    from to (Some (tx_id t)) createdAt (Some now).

(** The store with the balances of two wallets replaced and a row
    appended. *)
Definition with_balances (s : Store) (id1 : string) (b1 : Decimal)
  (id2 : string) (b2 : Decimal) (rows : list Transaction) : Store :=
  mkStore (users s)
    (updateWalletRows id2 (fun _ => b2)
       (updateWalletRows id1 (fun _ => b1) (wallets s)))
    rows.

(** The store with the balance of one wallet replaced. *)
Definition with_balance (s : Store) (id : string) (b : Decimal)
  (rows : list Transaction) : Store :=
  mkStore (users s) (updateWalletRows id (fun _ => b) (wallets s)) rows.

(** In [s'] the row of [t] is REVERSED and otherwise as [t] has it. *)
Definition marked_reversed (s' : Store) (t : Transaction) : Prop :=
  exists t',
    findTransactionById s' (tx_id t) = Some t'
    /\ tx_status t' = REVERSED
    /\ tx_type t' = tx_type t
    /\ tx_amount t' = tx_amount t
    /\ tx_description t' = tx_description t
    /\ tx_fromWalletId t' = tx_fromWalletId t
    /\ tx_toWalletId t' = tx_toWalletId t
    /\ tx_reversedTransactionId t' = tx_reversedTransactionId t
    /\ tx_createdAt t' = tx_createdAt t
    /\ tx_processedAt t' = tx_processedAt t.

Section Vocabulary.

Context {N : JsNumber}.



(** The row of [id] in [s'] is REVERSED. *)
Definition status_reversed (s' : Store) (id : string) : Prop :=
  exists t',
    findTransactionById s' id = Some t' /\ tx_status t' = REVERSED.


(** The ledger after a reversal of [t] returned [r]: [t] is REVERSED, no
    other row changed, and the row of [r] was appended: a COMPLETED
    REVERSAL from [from] to [to] that points back to [t] and carries its
    amount. *)
Definition reversal_recorded (s s' : Store) (t : Transaction)
  (r : ReverseResult) (from : option string) (to : string) : Prop :=
  marked_reversed s' t
  /\ transactions s'
     = (updateStatusRows (tx_id t) REVERSED (transactions s)
          ++ [rr_reversalTransaction r])%list
  /\ tx_type (rr_reversalTransaction r) = REVERSAL
  /\ tx_status (rr_reversalTransaction r) = COMPLETED
  /\ tx_fromWalletId (rr_reversalTransaction r) = from
  /\ tx_toWalletId (rr_reversalTransaction r) = to
  /\ tx_reversedTransactionId (rr_reversalTransaction r) = Some (tx_id t)
  /\ tx_amount (rr_reversalTransaction r) = tx_amount t.

(** [newBalance] is the balance of the acting user's wallet in [s']. *)
Definition reports_own_balance (s' : Store) (userId : string)
  (r : ReverseResult) : Prop :=
  exists uw,
    findWalletByUserId s' userId = Some uw
    /\ rr_newBalance r = toNumber (wallet_balance uw).

(** A reversed deposit: the destination wallet [w] now holds [b]. *)
Definition deposit_reversed (s s' : Store) (t : Transaction) (w : Wallet)
  (b : Decimal) (userId : string) (r : ReverseResult) : Prop :=
  findWalletById s' (tx_toWalletId t) = Some (set_balance w b)
  /\ (forall id, id <> tx_toWalletId t ->
                 findWalletById s' id = findWalletById s id)
  /\ reversal_recorded s s' t r None (tx_toWalletId t)
  /\ reports_own_balance s' userId r.

(** A reversed transfer out of wallet [f]: the source [wf] now holds
    [bf] and the destination [wt] holds [bt]. *)
Definition transfer_reversed (s s' : Store) (t : Transaction) (f : string)
  (wf wt : Wallet) (bf bt : Decimal) (userId : string)
  (r : ReverseResult) : Prop :=
  findWalletById s' f = Some (set_balance wf bf)
  /\ findWalletById s' (tx_toWalletId t) = Some (set_balance wt bt)
  /\ (forall id, id <> f -> id <> tx_toWalletId t ->
                 findWalletById s' id = findWalletById s id)
  /\ reversal_recorded s s' t r (Some (tx_toWalletId t)) f
  /\ reports_own_balance s' userId r.

End Vocabulary.

(** The store [s] with the status of row [id] overwritten. *)
Definition with_status (s : Store) (id : string) (st : TransactionStatus)
  : Store :=
  mkStore (users s) (wallets s) (updateStatusRows id st (transactions s)).

(* ================================================================== *)
(** ** Sample data (after [prisma/seed.ts] and the tests) *)
(* ================================================================== *)

Definition ana : User := mkUser "user-1" "Ana Souza" "12345678900".
Definition bruno : User := mkUser "user-2" "Bruno Lima" "98765432100".
Definition carla : User := mkUser "user-3" "Carla Menezes" "11144477735".

(** Ana holds 200.00, Bruno 120.00, Carla owes 50.00. *)
Definition seed_store : Store :=
  mkStore [ana; bruno; carla]
    [mkWallet "wallet-1" 20000 "user-1";
     mkWallet "wallet-2" 12000 "user-2";
     mkWallet "wallet-3" (-5000) "user-3"]
    [].

(** [seed_store] once Bruno's wallet row is gone. *)
Definition seed_store_wallet2_gone : Store :=
  mkStore [ana; bruno; carla]
    [mkWallet "wallet-1" 20000 "user-1";
     mkWallet "wallet-3" (-5000) "user-3"]
    [].

(** The scenario of the end-to-end test: Ana deposits 100.50 and sends
    50.00 to Bruno. *)
Definition empty_wallets : Store :=
  mkStore [ana; bruno]
    [mkWallet "wallet-1" 0 "user-1"; mkWallet "wallet-2" 0 "user-2"] [].

Definition tx_dep : Transaction :=
  mkTransaction "tx-dep" DEPOSIT 10050 COMPLETED (Some "Depósito")
    None "wallet-1" None 1 (Some 1).

Definition tx_transfer : Transaction :=
  mkTransaction "tx-transfer" TRANSFER 5000 COMPLETED
    (Some "Transferência teste") (Some "wallet-1") "wallet-2" None
    2 (Some 2).

Definition scenario_store : Store :=
  mkStore [ana; bruno]
    [mkWallet "wallet-1" 5050 "user-1"; mkWallet "wallet-2" 5000 "user-2"]
    [tx_dep; tx_transfer].

(** The same ledger with neither operation completed. *)
Definition pending_store : Store :=
  mkStore [ana; bruno]
    [mkWallet "wallet-1" 5050 "user-1"; mkWallet "wallet-2" 5000 "user-2"]
    [set_status tx_dep PENDING; set_status tx_transfer FAILED].

(** The ledger after Ana reversed her transfer. *)
Definition reversed_store : Store :=
  mkStore [ana; bruno]
    [mkWallet "wallet-1" 10050 "user-1"; mkWallet "wallet-2" 0 "user-2"]
    [tx_dep; set_status tx_transfer REVERSED;
     mkTransaction "tx-rev" REVERSAL 5000 COMPLETED
       (Some "Estorno: Transferência teste") (Some "wallet-2") "wallet-1"
       (Some "tx-transfer") 3 (Some 3)].



(** The scenario with a column near its bound: Ana has since deposited
    99999949.49 and holds 99999999.99. *)
Definition tx_fill : Transaction :=
  mkTransaction "tx-fill" DEPOSIT 9999994949 COMPLETED (Some "Depósito")
    None "wallet-1" None 3 (Some 3).

Definition full_store : Store :=
  mkStore [ana; bruno]
    [mkWallet "wallet-1" 9999999999 "user-1";
     mkWallet "wallet-2" 5000 "user-2"]
    [tx_dep; tx_transfer; tx_fill].

(** Bruno deposited 60000000.00 and passed his 60000120.00 on to Ana,
    deposited 60000000.00 again and passed it on to Carla, and reversed
    the first deposit: he owes 60000000.00, and the second deposit is
    still COMPLETED. *)
Definition tx_d1 : Transaction :=
  mkTransaction "tx-d1" DEPOSIT 6000000000 REVERSED (Some "Depósito")
    None "wallet-2" None 1 (Some 1).

Definition tx_t1 : Transaction :=
  mkTransaction "tx-t1" TRANSFER 6000012000 COMPLETED
    (Some "Transferência") (Some "wallet-2") "wallet-1" None 2 (Some 2).

Definition tx_d2 : Transaction :=
  mkTransaction "tx-d2" DEPOSIT 6000000000 COMPLETED (Some "Depósito")
    None "wallet-2" None 3 (Some 3).

Definition tx_t2 : Transaction :=
  mkTransaction "tx-t2" TRANSFER 6000000000 COMPLETED
    (Some "Transferência") (Some "wallet-2") "wallet-3" None 4 (Some 4).

Definition tx_r1 : Transaction :=
  mkTransaction "tx-r1" REVERSAL 6000000000 COMPLETED
    (Some "Estorno: Depósito") None "wallet-2" (Some "tx-d1") 5 (Some 5).

Definition indebted_store : Store :=
  mkStore [ana; bruno; carla]
    [mkWallet "wallet-1" 6000032000 "user-1";
     mkWallet "wallet-2" (-6000000000) "user-2";
     mkWallet "wallet-3" 5999995000 "user-3"]
    [tx_d1; tx_t1; tx_d2; tx_t2; tx_r1].
(* ================================================================== *)
(** ** CPF numbers *)
(* ================================================================== *)

(** [parseInt(c)] for a decimal digit [c]. *)
Definition digit_value (c : ascii) : Z := Z.of_nat (nat_of_ascii c) - 48.

(** [parseInt(cpf.charAt(i))]. Past the end [charAt] is the empty string
    and [parseInt] is [NaN]; the validator only reads the eleven
    characters it has counted. *)
Definition parseInt_charAt (cpf : string) (i : nat) : Z :=
  match String.get i cpf with
  | Some c => digit_value c
  | None => 0
  end.

(** [for (let i = 0; i < n; i++) sum += parseInt(cpf.charAt(i)) * (w - i)]
    from [sum = 0]. *)
Definition weighted_sum (cpf : string) (n : nat) (w : Z) : Z :=
  fold_left (fun sum i => sum + parseInt_charAt cpf i * (w - Z.of_nat i))
    (seq 0 n) 0.

(** [digit = 11 - (sum % 11); if (digit >= 10) digit = 0]. *)
Definition check_digit (sum : Z) : Z :=
  let digit := 11 - sum mod 11 in
  if 10 <=? digit then 0 else digit.

(** [/^(\d)\1{10}$/.test(cpf)]. *)
Definition all_same_digit (cpf : string) : bool :=
  match cpf with
  | EmptyString => false
  | String c rest =>
      is_digit c && (String.length rest =? 10)%nat
      && forallb (Ascii.eqb c) (list_ascii_of_string rest)
  end.

(** A decimal digit. *)
Definition is_decimal (d : Z) : Prop := 0 <= d <= 9.

(** The characters of a string are all digits. *)
Definition all_digits (s : string) : bool :=
  forallb is_digit (list_ascii_of_string s).

Module IsCPFConstraint.

(** [common/validators/cpf.validator.ts]. *)
Definition validate (cpf : string) : bool :=
  if falsy cpf then false
  else
    let cpf := removeNonDigits cpf in
    if negb (String.length cpf =? 11)%nat then false
    else if all_same_digit cpf then false
    else
      let digit := check_digit (weighted_sum cpf 9 10) in
      if negb (digit =? parseInt_charAt cpf 9) then false
      else
        let digit := check_digit (weighted_sum cpf 10 11) in
        if negb (digit =? parseInt_charAt cpf 10) then false
        else true.

End IsCPFConstraint.

(** *** The seed's generator ([prisma/seed.ts]) *)

(** [cpf.slice(a, b)] for [a <= b] within the string. *)
Definition slice (a b : nat) (s : string) : string :=
  substring a (b - a) s.

(** [digits.join('')] for decimal digits. *)
Fixpoint join_digits (digits : list Z) : string :=
  match digits with
  | [] => EmptyString
  | d :: rest => String (digit_char d) (join_digits rest)
  end.

(** [for (let i = 0; i < n; i++) sum += digits[i] * (w - i)] over the
    whole array. *)
Definition digits_sum (digits : list Z) (w : Z) : Z :=
  fold_left (fun sum i => sum + nth i digits 0 * (w - Z.of_nat i))
    (seq 0 (List.length digits)) 0.

(** [generateValidCPF], given the nine digits it draws at random. *)
Definition generateValidCPF (random : list Z) : string :=
  let digits := random in
  let digit1 := check_digit (digits_sum digits 10) in
  let digits := (digits ++ [digit1])%list in
  let digit2 := check_digit (digits_sum digits 11) in
  let digits := (digits ++ [digit2])%list in
  let cpfString := join_digits digits in
  slice 0 3 cpfString ++ "." ++ slice 3 6 cpfString ++ "."
    ++ slice 6 9 cpfString ++ "-" ++ slice 9 11 cpfString.

Definition sanitizeCpf (cpf : string) : string := removeNonDigits cpf.

Definition formatCpf (cpf : string) : string :=
  let cleaned := sanitizeCpf cpf in
  slice 0 3 cleaned ++ "." ++ slice 3 6 cleaned ++ "."
    ++ slice 6 9 cleaned ++ "-" ++ slice 9 11 cleaned.

(* ================================================================== *)
(** ** HttpExceptionFilter *)
(* ================================================================== *)

(** A JavaScript value, as far as the filter tells values apart. An
    object is the list of the properties [in] finds on it with their
    values; an array has neither ["message"] nor ["errors"]. *)
#[local] Unset Elimination Schemes.
Inductive JsValue :=
| JsUndefined
| JsNull
| JsString (s : string)
| JsArray (items : list JsValue)
| JsObject (fields : list (string * JsValue))
| JsOther.
#[local] Set Elimination Schemes.

(** What reaches [catch(exception: unknown, ...)]: a Nest
    [HttpException] with its status and response, another [Error], or
    anything else. [stack] is [exception.stack]. *)
Inductive Thrown :=
| ThrownHttpException (status : Z) (response : JsValue)
    (stack : option string)
| ThrownError (message : string) (stack : option string)
| ThrownValue.

(** [key in x] for an object or an array. *)
Definition js_has (x : JsValue) (key : string) : bool :=
  match x with
  | JsObject fields =>
      existsb (fun kv => String.eqb (fst kv) key) fields
  | _ => false
  end.

(** [x[key]] for an object or an array. *)
Definition js_get (x : JsValue) (key : string) : JsValue :=
  match x with
  | JsObject fields =>
      match find (fun kv => String.eqb (fst kv) key) fields with
      | Some kv => snd kv
      | None => JsUndefined
      end
  | _ => JsUndefined
  end.

Module HttpExceptionFilter.

(** [string | string[]]. *)
Inductive Message :=
| One (text : string)
| Many (items : list JsValue).

Record ExceptionInfo := mkExceptionInfo {
  status : Z;
  message : Message;
  errors : JsValue
}.

Record Request := mkRequest {
  method : string;
  url : string
}.

(** The body handed to [response.json]; an absent property is [None]. *)
Record ErrorResponse := mkErrorResponse {
  body_statusCode : Z;
  body_timestamp : string;
  body_path : string;
  body_method : string;
  body_message : list JsValue;
  body_errors : option JsValue;
  body_stack : option (option string)
}.

Definition extractMessage (responseObject : JsValue) : Message :=
  if negb (js_has responseObject "message")
  then One "Erro interno do servidor"
  else
    match js_get responseObject "message" with
    | JsArray items => Many items
    | JsString text => One text
    | _ => One "Erro interno do servidor"
    end.

Definition parseExceptionResponse (exceptionResponse : JsValue)
  : Message * JsValue :=
  match exceptionResponse with
  | JsString text => (One text, JsNull)
  | JsObject _ | JsArray _ =>
      let responseObject := exceptionResponse in
      let message := extractMessage responseObject in
      let errors :=
        if js_has responseObject "errors"
        then match js_get responseObject "errors" with
             | JsUndefined | JsNull => JsNull
             | v => v
             end
        else JsNull in
      (message, errors)
  | _ => (One "Erro interno do servidor", JsNull)
  end.

Definition extractExceptionInfo (exception : Thrown) : ExceptionInfo :=
  match exception with
  | ThrownHttpException status response _ =>
      let (message, errors) := parseExceptionResponse response in
      mkExceptionInfo status message errors
  | ThrownError message _ => mkExceptionInfo 500 (One message) JsNull
  | ThrownValue => mkExceptionInfo 500 (One "Erro interno do servidor") JsNull
  end.

(** [exception instanceof Error ? exception.stack : none]. *)
Definition error_stack (exception : Thrown) : option (option string) :=
  match exception with
  | ThrownHttpException _ _ stack => Some stack
  | ThrownError _ stack => Some stack
  | ThrownValue => None
  end.

(** [catch]: the status and the body it sends. [now] is
    [new Date().toISOString()], [NODE_ENV] is [process.env.NODE_ENV]. *)
Definition catch (exception : Thrown) (request : Request) (now : string)
  (NODE_ENV : option string) : Z * ErrorResponse :=
  let info := extractExceptionInfo exception in
  let errorResponse :=
    mkErrorResponse (status info) now (url request) (method request)
      (match message info with
       | Many items => items
       | One text => [JsString text]
       end)
      (match errors info with
       | JsNull => None
       | v => Some v
       end)
      (if opt_string_eqb NODE_ENV "development"
       then error_stack exception else None) in
  (status info, errorResponse).

End HttpExceptionFilter.

(* ================================================================== *)
(** ** AuthService and JwtStrategy *)
(* ================================================================== *)

(** Row of ["users"] with the columns the transactions never read.
    [User] is this row as they see it. *)
Record UserRow := mkUserRow {
  row_id : string;
  row_name : string;
  row_email : string;
  row_password : string;
  row_cpf : string
}.

Record Database := mkDatabase {
  db_users : list UserRow;
  db_wallets : list Wallet;
  db_transactions : list Transaction
}.

Definition userOfRow (u : UserRow) : User :=
  mkUser (row_id u) (row_name u) (row_cpf u).

(** The database as [TransactionsService] reads it. *)
Definition storeOf (db : Database) : Store :=
  mkStore (map userOfRow (db_users db)) (db_wallets db)
    (db_transactions db).

(** [include: { wallet: true }] for the user [id]. *)
Definition walletOfUser (db : Database) (id : string) : option Wallet :=
  findWalletByUserId (storeOf db) id.

(** The two Nest exceptions the service raises, and the client's error
    P2000: a value too long for its column. *)
Inductive AuthException :=
| ConflictException (message : string)
| UnauthorizedException (message : string)
| ValueTooLong.

(** The number of characters of a string, the strings being UTF-8: its
    bytes that do not continue a character. *)
Definition continues_character (c : ascii) : bool :=
  let n := nat_of_ascii c in (128 <=? n)%nat && (n <? 192)%nat.

Definition char_length (s : string) : nat :=
  List.length
    (filter (fun c => negb (continues_character c))
       (list_ascii_of_string s)).

(** [users.name] and [users.email] are [VARCHAR(100)], [users.cpf] is
    [VARCHAR(11)]. *)
Definition fits_users (name email cpf : string) : bool :=
  (char_length name <=? 100)%nat && (char_length email <=? 100)%nat
  && (char_length cpf <=? 11)%nat.

Inductive AuthResult (A : Type) :=
| AuthReturn (a : A)
| AuthThrow (e : AuthException).
Arguments AuthReturn {A} a.
Arguments AuthThrow {A} e.

(** [dto/register.dto.ts] and the two fields [login] reads. *)
Record RegisterDto := mkRegisterDto {
  register_name : string;
  register_email : string;
  register_password : string;
  register_cpf : string
}.

Record LoginDto := mkLoginDto {
  login_email : string;
  login_password : string
}.

Record JwtPayload := mkJwtPayload {
  jwt_email : string;
  jwt_sub : string
}.

(** [userWithoutPassword] as [JwtStrategy.validate] returns it: the
    wallet keeps its [Decimal] balance. *)
Record AuthenticatedUser := mkAuthenticatedUser {
  au_id : string;
  au_name : string;
  au_email : string;
  au_cpf : string;
  au_wallet : option Wallet
}.

Module AuthService.

Section WithLibraries.

Context {N : JsNumber}.

(** [bcrypt.hash(password, rounds)] with the salt it draws,
    [bcrypt.compare], [jwtService.sign] and [jwtService.verify] ([None]
    when it throws). *)
Variable bcrypt_hash : string -> Z -> string -> string.
Variable bcrypt_compare : string -> string -> bool.
Variable jwt_sign : JwtPayload -> string.
Variable jwt_verify : string -> option JwtPayload.

(** [Number(process.env.BCRYPT_SALT_ROUNDS) || 10]. *)
Variable SALT_ROUNDS : Z.

(** [{ ...wallet, balance: wallet.balance.toNumber() }]. *)
Record WalletJson := mkWalletJson {
  wj_id : string;
  wj_balance : number;
  wj_userId : string
}.

(** [{ ...userWithoutPassword, wallet: ... }]. *)
Record UserJson := mkUserJson {
  uj_id : string;
  uj_name : string;
  uj_email : string;
  uj_cpf : string;
  uj_wallet : option WalletJson
}.

Record LoginResult := mkLoginResult {
  access_token : string;
  login_user : UserJson
}.

Definition userJson (user : UserRow) (wallet : option Wallet) : UserJson :=
  mkUserJson (row_id user) (row_name user) (row_email user) (row_cpf user)
    (match wallet with
     | Some w =>
         Some (mkWalletJson (wallet_id w) (toNumber (wallet_balance w))
                 (wallet_userId w))
     | None => None
     end).

(** [register]. [newUserId] and [newWalletId] stand for the generated
    keys, [salt] for the salt bcrypt draws. [user.create] writes the
    user and the wallet together, or neither when a value is too long
    for its column. *)
Definition register (registerDto : RegisterDto)
  (newUserId newWalletId salt : string) (db : Database)
  : AuthResult UserJson * Database :=
  let name := register_name registerDto in
  let email := register_email registerDto in
  let password := register_password registerDto in
  let cpf := register_cpf registerDto in
  let cleanCpf := removeNonDigits cpf in
  let existingUser :=
    find (fun u => String.eqb (row_email u) email
                   || String.eqb (row_cpf u) cleanCpf) (db_users db) in
  let conflict :=
    match existingUser with
    | Some existingUser =>
        if String.eqb (row_email existingUser) email
        then Some (ConflictException "Email já cadastrado")
        else if String.eqb (row_cpf existingUser) cleanCpf
        then Some (ConflictException "CPF já cadastrado")
        else None
    | None => None
    end in
  match conflict with
  | Some e => (AuthThrow e, db)
  | None =>
      let hashedPassword := bcrypt_hash password SALT_ROUNDS salt in
      if negb (fits_users name email cleanCpf)
      then (AuthThrow ValueTooLong, db)
      else
        let user :=
          mkUserRow newUserId name email hashedPassword cleanCpf in
        let wallet := mkWallet newWalletId 0 newUserId in
        (AuthReturn (userJson user (Some wallet)),
         mkDatabase (db_users db ++ [user]) (db_wallets db ++ [wallet])
           (db_transactions db))
  end.

Definition login (loginDto : LoginDto) (db : Database)
  : AuthResult LoginResult :=
  let email := login_email loginDto in
  let password := login_password loginDto in
  match find (fun u => String.eqb (row_email u) email) (db_users db) with
  | None => AuthThrow (UnauthorizedException "Credenciais inválidas")
  | Some user =>
      let isPasswordValid := bcrypt_compare password (row_password user) in
      if negb isPasswordValid
      then AuthThrow (UnauthorizedException "Credenciais inválidas")
      else
        let payload := mkJwtPayload (row_email user) (row_id user) in
        let access_token := jwt_sign payload in
        AuthReturn
          (mkLoginResult access_token
             (userJson user (walletOfUser db (row_id user))))
  end.

Definition validateToken (token : string) : AuthResult JwtPayload :=
  match jwt_verify token with
  | Some payload => AuthReturn payload
  | None => AuthThrow (UnauthorizedException "Token inválido")
  end.

(** [findById]: the row as it is, password included, with its wallet. *)
Definition findById (id : string) (db : Database)
  : option (UserRow * option Wallet) :=
  match find (fun u => String.eqb (row_id u) id) (db_users db) with
  | Some user => Some (user, walletOfUser db (row_id user))
  | None => None
  end.

End WithLibraries.

End AuthService.

Module JwtStrategy.

(** [validate(payload)], run on every request once the token is
    verified. *)
Definition validate (payload : JwtPayload) (db : Database)
  : AuthResult AuthenticatedUser :=
  match find (fun u => String.eqb (row_id u) (jwt_sub payload))
          (db_users db) with
  | None => AuthThrow (UnauthorizedException "Usuário não encontrado")
  | Some user =>
      AuthReturn
        (mkAuthenticatedUser (row_id user) (row_name user) (row_email user)
           (row_cpf user) (walletOfUser db (row_id user)))
  end.

End JwtStrategy.

(** The row [register] creates and the database it leaves: the user
    with the digits of the CPF and the hash, and a wallet of 0 for
    them. *)
Definition registered_user
  (bcrypt_hash : string -> Z -> string -> string) (SALT_ROUNDS : Z)
  (registerDto : RegisterDto) (newUserId salt : string) : UserRow :=
  mkUserRow newUserId (register_name registerDto)
    (register_email registerDto)
    (bcrypt_hash (register_password registerDto) SALT_ROUNDS salt)
    (removeNonDigits (register_cpf registerDto)).

Definition registered_database (user : UserRow) (newWalletId : string)
  (db : Database) : Database :=
  mkDatabase (db_users db ++ [user])
    (db_wallets db ++ [mkWallet newWalletId 0 (row_id user)])
    (db_transactions db).

(** The doubles of bcrypt and of the JWT service in
    [auth.service.spec.ts], with a hash that [compare] accepts. *)
Definition spec_bcrypt_hash (password : string) (rounds : Z) (salt : string)
  : string :=
  password ++ "-hashed".

Definition spec_bcrypt_compare (plain hashed : string) : bool :=
  String.eqb (plain ++ "-hashed") hashed.

Definition spec_jwt_sign (payload : JwtPayload) : string := "signed-token".

Definition spec_jwt_verify (token : string) : option JwtPayload :=
  if String.eqb token "signed-token"
  then Some (mkJwtPayload "dora@example.com" "user-4")
  else None.

(** The three users of the seed, with their wallets. *)
Definition seed_database : Database :=
  mkDatabase
    [mkUserRow "user-1" (user_name ana) "ana.souza@example.com"
       "SenhaSegura!1-hashed" "12345678900";
     mkUserRow "user-2" (user_name bruno) "bruno.lima@example.com"
       "SenhaSegura!1-hashed" "98765432100";
     mkUserRow "user-3" (user_name carla) "carla.menezes@example.com"
       "SenhaSegura!1-hashed" "11144477735"]
    (wallets seed_store) [].

(** Dora registers after them. *)
Definition dora_dto : RegisterDto :=
  mkRegisterDto "Dora Alves" "dora@example.com" "SenhaSegura!1"
    "529.982.247-25".

Definition dora_database : Database :=
  registered_database
    (registered_user spec_bcrypt_hash 10 dora_dto "user-4" "salt")
    "wallet-4" seed_database.


(** A registration whose name has 101 characters. *)
Definition long_name : string :=
  string_of_list_ascii (repeat "a"%char 101).

Definition long_name_dto : RegisterDto :=
  mkRegisterDto long_name "eva@example.com" "SenhaSegura!1"
    "390.533.447-05".
(* ================================================================== *)
(** ** Ledger-wide notions *)
(* ================================================================== *)

(** The money in all wallets. *)
Definition total_balance (s : Store) : Z :=
  fold_right Z.add 0 (map wallet_balance (wallets s)).

(** A row is as it was, or as it was but REVERSED. *)
Definition row_kept (t t' : Transaction) : Prop :=
  t' = t \/ t' = set_status t REVERSED.

(** The ledger [ts'] has the rows of [ts], in place and each kept, then
    possibly more rows. *)
Definition ledger_grows (ts ts' : list Transaction) : Prop :=
  exists kept added,
    ts' = (kept ++ added)%list /\ Forall2 row_kept ts kept.

(** Users untouched, every wallet still there with its id and owner,
    ledger grown. *)
Definition store_evolves (s s' : Store) : Prop :=
  users s' = users s
  /\ map wallet_id (wallets s') = map wallet_id (wallets s)
  /\ map wallet_userId (wallets s') = map wallet_userId (wallets s)
  /\ ledger_grows (transactions s) (transactions s').

(** Every return of a callback leaves an evolved store. *)
Definition tx_evolves {A} (m : Tx A) : Prop :=
  forall s a s', m s = Return (a, s') -> store_evolves s s'.


(** Every balance and every amount is one its column can hold. *)
Definition store_in_range (s : Store) : Prop :=
  Forall (fun w => fits_column (wallet_balance w) = true) (wallets s)
  /\ Forall (fun t => fits_column (tx_amount t) = true) (transactions s).

(** Every return of a callback leaves the columns in range, with a
    value that satisfies [Q]. *)
Definition tx_in_range {A} (m : Tx A) (Q : A -> Prop) : Prop :=
  forall s a s',
    store_in_range s -> m s = Return (a, s') -> store_in_range s' /\ Q a.
(* ================================================================== *)
(** ** Facts about the store *)
(* ================================================================== *)

Lemma find_map_preserving {A} (p : A -> bool) (g : A -> A) (l : list A) :
  (forall x, p (g x) = p x) ->
  find p (map g l) = option_map g (find p l).
Proof.
  intros Hp. induction l as [|x l IH]; simpl; [reflexivity|].
  rewrite Hp. destruct (p x); [reflexivity | exact IH].
Qed.

Lemma find_is_some {A} (p : A -> bool) (l : list A) (x : A) :
  In x l -> p x = true -> exists y, find p l = Some y.
Proof.
  intros Hin Hpx. destruct (find p l) as [y|] eqn:E; [now exists y|].
  rewrite (find_none p l E x Hin) in Hpx. discriminate.
Qed.

Lemma updateWalletRow_id id f w :
  wallet_id (updateWalletRow id f w) = wallet_id w.
Proof. unfold updateWalletRow. now destruct (String.eqb _ _). Qed.

Lemma updateWalletRow_userId id f w :
  wallet_userId (updateWalletRow id f w) = wallet_userId w.
Proof. unfold updateWalletRow. now destruct (String.eqb _ _). Qed.

Lemma updateWalletRow_hit f w :
  updateWalletRow (wallet_id w) f w = set_balance w (f (wallet_balance w)).
Proof. unfold updateWalletRow. now rewrite String.eqb_refl. Qed.

Lemma updateWalletRow_at id f w :
  wallet_id w = id ->
  updateWalletRow id f w = set_balance w (f (wallet_balance w)).
Proof. intros <-. apply updateWalletRow_hit. Qed.

Lemma updateWalletRow_miss id f w :
  wallet_id w <> id -> updateWalletRow id f w = w.
Proof.
  intros H. unfold updateWalletRow.
  apply String.eqb_neq in H. now rewrite H.
Qed.

Lemma updateStatusRow_id id st t :
  tx_id (updateStatusRow id st t) = tx_id t.
Proof. unfold updateStatusRow. now destruct (String.eqb _ _). Qed.

(** Lookups after a balance update: the same row, updated. *)
Lemma findWalletById_update s s' id f id' :
  wallets s' = updateWalletRows id f (wallets s) ->
  findWalletById s' id'
  = option_map (updateWalletRow id f) (findWalletById s id').
Proof.
  intros E. unfold findWalletById, updateWalletRows in *. rewrite E.
  apply find_map_preserving. intros w. now rewrite updateWalletRow_id.
Qed.

Lemma findWalletByUserId_update s s' id f u :
  wallets s' = updateWalletRows id f (wallets s) ->
  findWalletByUserId s' u
  = option_map (updateWalletRow id f) (findWalletByUserId s u).
Proof.
  intros E. unfold findWalletByUserId, updateWalletRows in *. rewrite E.
  apply find_map_preserving. intros w. now rewrite updateWalletRow_userId.
Qed.

Lemma findTransactionById_update s s' id st id' :
  transactions s' = updateStatusRows id st (transactions s) ->
  findTransactionById s' id'
  = option_map (updateStatusRow id st) (findTransactionById s id').
Proof.
  intros E. unfold findTransactionById, updateStatusRows in *. rewrite E.
  apply find_map_preserving. intros t. now rewrite updateStatusRow_id.
Qed.

(** A balance update leaves every wallet with another id as it was. *)
Lemma findWalletById_update_other s s' id f id' :
  wallets s' = updateWalletRows id f (wallets s) ->
  id' <> id ->
  findWalletById s' id' = findWalletById s id'.
Proof.
  intros E Hne. rewrite (findWalletById_update s s' id f id' E).
  destruct (findWalletById s id') as [w|] eqn:Ew; [|reflexivity].
  simpl. f_equal. apply updateWalletRow_miss.
  apply find_some in Ew. destruct Ew as [_ Ew].
  apply String.eqb_eq in Ew. congruence.
Qed.

(** A wallet found by its owner is also found by its own id. *)
Lemma findWalletByUserId_has_id s u w :
  findWalletByUserId s u = Some w ->
  exists w', findWalletById s (wallet_id w) = Some w'.
Proof.
  intros H. apply find_some in H. destruct H as [Hin _].
  apply (find_is_some _ _ w Hin). apply String.eqb_refl.
Qed.

Lemma store_eta s : mkStore (users s) (wallets s) (transactions s) = s.
Proof. now destruct s. Qed.

Lemma find_app_some {A} (p : A -> bool) (l l' : list A) (x : A) :
  find p l = Some x -> find p (l ++ l') = Some x.
Proof.
  induction l as [|y l IH]; simpl; [discriminate|].
  destruct (p y); [trivial | exact IH].
Qed.

Lemma findWalletById_ext s s' id :
  wallets s' = wallets s -> findWalletById s' id = findWalletById s id.
Proof. intros E. unfold findWalletById. now rewrite E. Qed.

Lemma findWalletByUserId_ext s s' u :
  wallets s' = wallets s ->
  findWalletByUserId s' u = findWalletByUserId s u.
Proof. intros E. unfold findWalletByUserId. now rewrite E. Qed.

Lemma findTransactionById_ext s s' id :
  transactions s' = transactions s ->
  findTransactionById s' id = findTransactionById s id.
Proof. intros E. unfold findTransactionById. now rewrite E. Qed.

Lemma findTransactionById_id s id t :
  findTransactionById s id = Some t -> tx_id t = id.
Proof.
  intros H. apply find_some in H. destruct H as [_ H].
  now apply String.eqb_eq.
Qed.

Lemma findWalletById_id s id w :
  findWalletById s id = Some w -> wallet_id w = id.
Proof.
  intros H. apply find_some in H. destruct H as [_ H].
  now apply String.eqb_eq.
Qed.

Lemma updateStatusRow_hit st t :
  updateStatusRow (tx_id t) st t = set_status t st.
Proof. unfold updateStatusRow. now rewrite String.eqb_refl. Qed.

(** Whoever passes the ownership test has a wallet. *)
Lemma walletOwnerId_has_wallet s walletId u :
  opt_string_eqb (walletOwnerId s walletId) u = true ->
  exists w, findWalletByUserId s u = Some w.
Proof.
  unfold walletOwnerId. destruct walletId as [id|]; [|discriminate].
  destruct (findWalletById s id) as [w|] eqn:E; [|discriminate].
  simpl. intros H. apply find_some in E. destruct E as [Hin _].
  exact (find_is_some _ _ w Hin H).
Qed.

Lemma updateStatusRows_twice id st st' ts :
  updateStatusRows id st (updateStatusRows id st' ts)
  = updateStatusRows id st ts.
Proof.
  unfold updateStatusRows. rewrite map_map. apply map_ext.
  intros t. unfold updateStatusRow at 2.
  destruct (String.eqb (tx_id t) id) eqn:E; [|reflexivity].
  unfold updateStatusRow. simpl. now rewrite E.
Qed.


(* ================================================================== *)
(** ** The column and whole hundredths *)
(* ================================================================== *)

Lemma round_half_away_multiple k d :
  0 < d -> round_half_away (k * d) d = k.
Proof.
  intros Hd. unfold round_half_away.
  rewrite Z.abs_mul, (Z.abs_eq d) by lia.
  replace (2 * (Z.abs k * d) + d) with (Z.abs k * (2 * d) + d) by ring.
  rewrite Z.div_add_l by lia.
  rewrite (Z.div_small d (2 * d)) by lia.
  rewrite Z.add_0_r, Z.sgn_mul, (Z.sgn_pos d) by lia.
  rewrite Z.mul_1_r. rewrite Z.mul_comm. apply Z.abs_sgn.
Qed.

(** A whole number of hundredths added to a stored value: the column
    holds the sum of the two. *)
Lemma round_sum_whole b d :
  whole_hundredths d = true ->
  round_to_hundredths (dec_add (dec_of_hundredths b) d)
  = b + round_to_hundredths d.
Proof.
  destruct d as [m e]. unfold whole_hundredths, round_to_hundredths, dec_add,
    dec_of_hundredths. cbn [dec_mant dec_exp].
  destruct (Z.leb_spec 0 (e + 2)) as [He|He]; cbn [orb].
  - intros _. rewrite Z.min_l by lia.
    replace (-2 - -2) with 0 by lia. replace (e - -2) with (e + 2) by lia.
    replace (-2 + 2) with 0 by lia. cbn [Z.leb Z.compare].
    change (10 ^ 0) with 1. lia.
  - intros Hm. apply Z.eqb_eq in Hm.
    set (k := - (e + 2)) in *. assert (Hk : 0 < k) by lia.
    assert (Hp : 0 < 10 ^ k) by (apply Z.pow_pos_nonneg; lia).
    rewrite Z.min_r by lia.
    replace (e - e) with 0 by lia. replace (-2 - e) with k by lia.
    change (10 ^ 0) with 1. rewrite Z.mul_1_r.
    destruct (Z.leb_spec 0 (e + 2)) as [He'|_]; [lia|].
    fold k.
    apply Z.mod_divide in Hm; [|lia]. destruct Hm as [q ->].
    replace (b * 10 ^ k + q * 10 ^ k) with ((b + q) * 10 ^ k) by ring.
    now rewrite !round_half_away_multiple by exact Hp.
Qed.

Lemma whole_hundredths_opp d :
  whole_hundredths (dec_opp d) = whole_hundredths d.
Proof.
  destruct d as [m e]. unfold whole_hundredths, dec_opp.
  cbn [dec_mant dec_exp].
  destruct (Z.leb_spec 0 (e + 2)) as [He|He]; [reflexivity|]. cbn [orb].
  destruct (Z.eqb_spec (m mod 10 ^ (- (e + 2))) 0) as [E|E];
    destruct (Z.eqb_spec ((- m) mod 10 ^ (- (e + 2))) 0) as [E'|E'];
    try reflexivity; exfalso.
  - apply E'. apply Z.mod_opp_l_z; [|exact E].
    apply Z.pow_nonzero; lia.
  - apply E. rewrite <- (Z.opp_involutive m).
    apply Z.mod_opp_l_z; [|exact E'].
    apply Z.pow_nonzero; lia.
Qed.

Lemma round_half_away_opp n d :
  round_half_away (- n) d = - round_half_away n d.
Proof.
  unfold round_half_away. rewrite Z.sgn_opp, Z.abs_opp. ring.
Qed.

Lemma round_to_hundredths_opp d :
  round_to_hundredths (dec_opp d) = - round_to_hundredths d.
Proof.
  destruct d as [m e]. unfold round_to_hundredths, dec_opp.
  cbn [dec_mant dec_exp].
  destruct (0 <=? e + 2); [ring|]. apply round_half_away_opp.
Qed.

Section Columns.

Context {N : JsNumber}.

Lemma amount_in_cents_numeral n a :
  amount_in_cents n a = true ->
  exists d, numeral n = Some d
            /\ whole_hundredths d = true
            /\ round_to_hundredths d = a.
Proof.
  unfold amount_in_cents. destruct (numeral n) as [d|]; [|discriminate].
  intros H. apply andb_true_iff in H. destruct H as [Hw Ha].
  apply Z.eqb_eq in Ha. now exists d.
Qed.

Lemma amount_in_cents_ofNumber n a :
  amount_in_cents n a = true -> ofNumber n = a.
Proof.
  intros H. destruct (amount_in_cents_numeral n a H) as (d & E & _ & Ha).
  unfold ofNumber. now rewrite E.
Qed.

(** A value that reached a column is [ofNumber] of what was sent, and
    fits. *)
Lemma column_value_returned column n b :
  column_value column (numeral n) = Return b ->
  b = ofNumber n /\ fits_column b = true.
Proof.
  unfold column_value, ofNumber.
  destruct (numeral n) as [d|]; [|discriminate].
  destruct (fits_column (round_to_hundredths d)) eqn:E; [|discriminate].
  intros H. injection H as <-. now split.
Qed.

Lemma column_value_cents column n a :
  amount_in_cents n a = true ->
  fits_column a = true ->
  column_value column (numeral n) = Return a.
Proof.
  intros H Hf. destruct (amount_in_cents_numeral n a H) as (d & E & _ & Ha).
  unfold column_value. now rewrite E, Ha, Hf.
Qed.

Lemma coerces_to_ofNumber n h :
  coerces_to n h = true -> ofNumber n = h.
Proof.
  unfold coerces_to, ofNumber. destruct (numeral n); [|discriminate].
  apply Z.eqb_eq.
Qed.

Lemma column_value_coerces column n h :
  coerces_to n h = true ->
  fits_column h = true ->
  column_value column (numeral n) = Return h.
Proof.
  unfold coerces_to, column_value.
  destruct (numeral n) as [d|]; [|discriminate].
  intros E Hf. apply Z.eqb_eq in E. cbv zeta. now rewrite E, Hf.
Qed.

Lemma new_balance_set n b :
  new_balance (balance_set n) b = column_value "balance" (numeral n).
Proof. reflexivity. Qed.

(** An increment or decrement by a whole number of hundredths. *)
Lemma new_balance_increment_cents n a b :
  amount_in_cents n a = true ->
  fits_column (b + a) = true ->
  new_balance (balance_increment n) b = Return (b + a).
Proof.
  intros H Hf. destruct (amount_in_cents_numeral n a H) as (d & E & Hw & Ha).
  unfold new_balance, balance_sent, column_value. rewrite E.
  cbn [option_map]. rewrite (round_sum_whole b d Hw), Ha. now rewrite Hf.
Qed.

Lemma new_balance_decrement_cents n a b :
  amount_in_cents n a = true ->
  fits_column (b - a) = true ->
  new_balance (balance_decrement n) b = Return (b - a).
Proof.
  intros H Hf. destruct (amount_in_cents_numeral n a H) as (d & E & Hw & Ha).
  unfold new_balance, balance_sent, column_value. rewrite E.
  cbn [option_map].
  rewrite (round_sum_whole b (dec_opp d))
    by (now rewrite whole_hundredths_opp).
  rewrite round_to_hundredths_opp, Ha.
  replace (b + - a) with (b - a) by lia. now rewrite Hf.
Qed.

(** What an increment or decrement by a whole number of hundredths
    has stored, when it has stored something. *)
Lemma new_balance_increment_returned n a b b' :
  amount_in_cents n a = true ->
  new_balance (balance_increment n) b = Return b' ->
  b' = b + a.
Proof.
  intros H. destruct (amount_in_cents_numeral n a H) as (d & E & Hw & Ha).
  unfold new_balance, balance_sent, column_value. rewrite E.
  cbn [option_map]. rewrite (round_sum_whole b d Hw), Ha.
  destruct (fits_column (b + a)); [|discriminate].
  now intros [= <-].
Qed.

Lemma new_balance_decrement_returned n a b b' :
  amount_in_cents n a = true ->
  new_balance (balance_decrement n) b = Return b' ->
  b' = b - a.
Proof.
  intros H. destruct (amount_in_cents_numeral n a H) as (d & E & Hw & Ha).
  unfold new_balance, balance_sent, column_value. rewrite E.
  cbn [option_map].
  rewrite (round_sum_whole b (dec_opp d))
    by (now rewrite whole_hundredths_opp).
  rewrite round_to_hundredths_opp, Ha.
  replace (b + - a) with (b - a) by lia.
  destruct (fits_column (b - a)); [|discriminate].
  now intros [= <-].
Qed.

(** A balance that reached the column fits it. *)
Lemma new_balance_fits data b b' :
  new_balance data b = Return b' -> fits_column b' = true.
Proof.
  unfold new_balance, column_value.
  destruct (balance_sent data b) as [d|]; [|discriminate].
  destruct (fits_column (round_to_hundredths d)) eqn:E; [|discriminate].
  now intros [= <-].
Qed.

End Columns.

(* ================================================================== *)
(** ** What each operation computes *)
(* ================================================================== *)

Section Runs.

Context {N : JsNumber}.

Lemma tx_wallet_update_run s id data w b :
  findWalletById s id = Some w ->
  new_balance data (wallet_balance w) = Return b ->
  tx_wallet_update id data s
  = Return (tt, with_balance s id b (transactions s)).
Proof. intros H Hb. unfold tx_wallet_update. now rewrite H, Hb. Qed.

Lemma tx_wallet_update_throw s id data w e :
  findWalletById s id = Some w ->
  new_balance data (wallet_balance w) = Throw e ->
  tx_wallet_update id data s = Throw e.
Proof. intros H Hb. unfold tx_wallet_update. now rewrite H, Hb. Qed.

Lemma tx_transaction_updateStatus_run s id st t :
  findTransactionById s id = Some t ->
  tx_transaction_updateStatus id st s
  = Return (tt, mkStore (users s) (wallets s)
                  (updateStatusRows id st (transactions s))).
Proof. intros H. unfold tx_transaction_updateStatus. now rewrite H. Qed.

(** The wallets after the balance of the wallet of [userId] was
    replaced. *)
Lemma wallets_after_set s s' userId wallet b :
  findWalletByUserId s userId = Some wallet ->
  wallets s' = updateWalletRows (wallet_id wallet) (fun _ => b)
                 (wallets s) ->
  findWalletByUserId s' userId = Some (set_balance wallet b)
  /\ forall id, id <> wallet_id wallet ->
                findWalletById s' id = findWalletById s id.
Proof.
  intros Hw Hs'. split.
  - rewrite (findWalletByUserId_update s s' _ _ _ Hs'), Hw.
    cbn [option_map]. now rewrite updateWalletRow_hit.
  - intros id Hid.
    exact (findWalletById_update_other s s' _ _ _ Hs' Hid).
Qed.

(** *** deposit *)

(** A deposit into the wallet of [userId]: it returns when the new
    balance and the amount reach their columns, and throws what the
    first of the two columns throws otherwise. *)
Lemma deposit_outcome userId dto newId createdAt now s wallet :
  findWalletByUserId s userId = Some wallet ->
  let B := toNumber (wallet_balance wallet) in
  let A := deposit_amount dto in
  deposit userId dto newId createdAt now s
  = match column_value "balance" (numeral (num_add B A)) with
    | Throw e => (Throw e, s)
    | Return b =>
        match column_value "amount" (numeral A) with
        | Throw e => (Throw e, s)
        | Return a =>
            let row :=
              deposit_row wallet (deposit_description dto) a newId
                createdAt now in
            (Return (mkDepositResult row (toNumber a) (num_add B A) B),
             with_balance s (wallet_id wallet) b
               (transactions s ++ [row]))
        end
    end.
Proof.
  intros Hw B A.
  destruct (findWalletByUserId_has_id _ _ _ Hw) as [w' Hid].
  unfold deposit, prisma_transaction, deposit_unit, bind,
    tx_wallet_findByUserId.
  rewrite Hw. unfold tx_wallet_update. rewrite Hid, new_balance_set.
  fold B A.
  destruct (column_value "balance" (numeral (num_add B A))) as [b|e];
    [|reflexivity].
  unfold tx_amount_column.
  destruct (column_value "amount" (numeral A)) as [a|e]; reflexivity.
Qed.

Lemma deposit_no_wallet userId dto newId createdAt now s :
  findWalletByUserId s userId = None ->
  deposit userId dto newId createdAt now s
  = (Throw (NotFoundException "Carteira não encontrada"), s).
Proof.
  intros Hw.
  unfold deposit, prisma_transaction, deposit_unit, bind,
    tx_wallet_findByUserId.
  now rewrite Hw.
Qed.

End Runs.

Section TransferRuns.

Context {N : JsNumber}.

Variables (userId : string) (dto : TransferDto) (newId : string).
Variables (createdAt now : Z).
Variable s : Store.
Variables (toUser : User) (fromWallet toWallet : Wallet).

Hypothesis prechecks_pass : transfer_prechecks userId dto s = Return toUser.
Hypothesis sender_wallet : findWalletByUserId s userId = Some fromWallet.
Hypothesis recipient_wallet :
  findWalletByUserId s (user_id toUser) = Some toWallet.

Let B1 : number := toNumber (wallet_balance fromWallet).
Let A : number := transfer_amount dto.


Hypothesis recipient_by_id :
  findWalletById s (wallet_id toWallet) = Some toWallet.
Hypothesis distinct_wallets : wallet_id fromWallet <> wallet_id toWallet.

(** A funded transfer: it returns when the sender's new balance, the
    recipient's and the amount reach their columns, and throws what the
    first of the three columns throws otherwise. *)
Lemma transfer_outcome :
  num_ltb B1 A = false ->
  transfer userId dto newId createdAt now s
  = match column_value "balance" (numeral (num_sub B1 A)) with
    | Throw e => (Throw e, s)
    | Return b1 =>
        match new_balance (balance_increment A) (wallet_balance toWallet)
        with
        | Throw e => (Throw e, s)
        | Return b2 =>
            match column_value "amount" (numeral A) with
            | Throw e => (Throw e, s)
            | Return a =>
                let row :=
                  transfer_row fromWallet toWallet
                    (transfer_description dto) a newId createdAt now in
                (Return
                   (mkTransferResult row (toNumber a) (num_sub B1 A) B1
                      (user_id toUser) (user_name toUser)),
                 with_balances s (wallet_id fromWallet) b1
                   (wallet_id toWallet) b2 (transactions s ++ [row]))
            end
        end
    end.
Proof.
  intros Hlt.
  destruct (findWalletByUserId_has_id _ _ _ sender_wallet) as [w1 Hid1].
  unfold transfer, transfer_interleaved. rewrite prechecks_pass.
  unfold prisma_transaction, transfer_unit, bind, tx_wallet_findByUserId.
  rewrite sender_wallet, recipient_wallet.
  fold B1 A. rewrite Hlt.
  unfold tx_wallet_update at 1. rewrite Hid1, new_balance_set.
  destruct (column_value "balance" (numeral (num_sub B1 A))) as [b1|e];
    [|reflexivity].
  unfold tx_wallet_update.
  erewrite findWalletById_update by reflexivity.
  rewrite recipient_by_id. cbn [option_map].
  rewrite (updateWalletRow_miss (wallet_id fromWallet)) by congruence.
  destruct (new_balance (balance_increment A) (wallet_balance toWallet))
    as [b2|e]; [|reflexivity].
  unfold tx_amount_column.
  destruct (column_value "amount" (numeral A)) as [a|e]; reflexivity.
Qed.

(** The wallets in the store a transfer commits. *)
Lemma with_balances_wallets b1 b2 rows :
  let s' := with_balances s (wallet_id fromWallet) b1
              (wallet_id toWallet) b2 rows in
  findWalletByUserId s' userId = Some (set_balance fromWallet b1)
  /\ findWalletByUserId s' (user_id toUser)
     = Some (set_balance toWallet b2)
  /\ forall id, id <> wallet_id fromWallet -> id <> wallet_id toWallet ->
                findWalletById s' id = findWalletById s id.
Proof.
  intros s'.
  set (s1 := with_balance s (wallet_id fromWallet) b1 (transactions s)).
  assert (E1 : wallets s1
               = updateWalletRows (wallet_id fromWallet) (fun _ => b1)
                   (wallets s))
    by reflexivity.
  assert (E2 : wallets s'
               = updateWalletRows (wallet_id toWallet) (fun _ => b2)
                   (wallets s1))
    by reflexivity.
  split; [|split].
  - rewrite (findWalletByUserId_update _ _ _ _ _ E2).
    rewrite (findWalletByUserId_update _ _ _ _ _ E1).
    rewrite sender_wallet. cbn [option_map].
    rewrite updateWalletRow_hit.
    now rewrite updateWalletRow_miss by exact distinct_wallets.
  - rewrite (findWalletByUserId_update _ _ _ _ _ E2).
    rewrite (findWalletByUserId_update _ _ _ _ _ E1).
    rewrite recipient_wallet. cbn [option_map].
    rewrite (updateWalletRow_miss (wallet_id fromWallet)) by congruence.
    now rewrite updateWalletRow_hit.
  - intros id H1 H2.
    rewrite (findWalletById_update_other _ _ _ _ _ E2 H2).
    exact (findWalletById_update_other _ _ _ _ _ E1 H1).
Qed.

End TransferRuns.

(** *** reverseTransaction *)

Section ReversalRuns.

Context {N : JsNumber}.

Lemma isOwner_has_wallet s t u :
  isOwner s t u = true -> exists w, findWalletByUserId s u = Some w.
Proof.
  unfold isOwner. intros H. apply orb_true_iff in H.
  destruct H as [H|H]; exact (walletOwnerId_has_wallet _ _ _ H).
Qed.

Variables (userId transactionId newId : string) (createdAt now : Z).
Variable s : Store.
Variable t : Transaction.

Hypothesis target : findTransactionById s transactionId = Some t.
Hypothesis authorized : isOwner s t userId = true.
Hypothesis not_reversed : TransactionStatus_eqb (tx_status t) REVERSED = false.

(** The amount as the unit reads it: [transaction.amount.toNumber()]. *)
Let A : number := toNumber (tx_amount t).

Lemma reverse_guards_pass :
  TransactionType_eqb (tx_type t) REVERSAL = false ->
  reverseTransaction userId transactionId newId createdAt now s
  = prisma_transaction
      (reverse_unit userId transactionId t newId createdAt now) s.
Proof.
  intros Hty. unfold reverseTransaction, reverseTransaction_interleaved.
  now rewrite target, authorized, not_reversed, Hty.
Qed.

(** The tail of the unit, once the balances are updated in [s1]. *)
Lemma reverse_tail_run (s1 : Store) (from : option string) (to : string)
  (uw : Wallet) :
  transactions s1 = transactions s ->
  users s1 = users s ->
  findWalletByUserId s1 userId = Some uw ->
  falsy to = false ->
  (tx_transaction_updateStatus transactionId REVERSED ;;;
   reversalTransaction <-
     tx_transaction_create (reversal_row newId createdAt now t from to) ;;
   updatedWallet <- tx_wallet_findByUserId userId ;;
   match updatedWallet with
   | None => throw (NotFoundException
                      "Carteira não encontrada após reversão")
   | Some updatedWallet =>
       ret (mkReverseResult "Transação revertida com sucesso"
              reversalTransaction
              (toNumber (tx_amount reversalTransaction))
              (toNumber (wallet_balance updatedWallet)))
   end) s1
  = Return
      (mkReverseResult "Transação revertida com sucesso"
         (reversal_row newId createdAt now t from to) A
         (toNumber (wallet_balance uw)),
       mkStore (users s) (wallets s1)
         (updateStatusRows transactionId REVERSED (transactions s)
            ++ [reversal_row newId createdAt now t from to])).
Proof.
  intros Hts Hus Huw Hto.
  unfold bind.
  erewrite tx_transaction_updateStatus_run
    by (rewrite (findTransactionById_ext s s1) by exact Hts; exact target).
  unfold tx_transaction_create, tx_wallet_findByUserId. simpl.
  rewrite (findWalletByUserId_ext s1) by reflexivity.
  rewrite Huw, Hts, Hus. reflexivity.
Qed.

(** Reversal of a deposit: it returns when the wallet's new balance
    reaches the column, and throws what the column throws otherwise. No
    test of the balance comes before. *)
Lemma reverse_deposit_outcome (w uw : Wallet) :
  tx_type t = DEPOSIT ->
  falsy (tx_toWalletId t) = false ->
  findWalletById s (tx_toWalletId t) = Some w ->
  findWalletByUserId s userId = Some uw ->
  reverseTransaction userId transactionId newId createdAt now s
  = match new_balance (balance_decrement A) (wallet_balance w) with
    | Throw e => (Throw e, s)
    | Return b =>
        let row :=
          reversal_row newId createdAt now t None (tx_toWalletId t) in
        (Return
           (mkReverseResult "Transação revertida com sucesso" row A
              (toNumber
                 (wallet_balance
                    (updateWalletRow (tx_toWalletId t) (fun _ => b) uw)))),
         with_balance s (tx_toWalletId t) b
           (updateStatusRows transactionId REVERSED (transactions s)
              ++ [row]))
    end.
Proof.
  intros Hty Hto Hw Huw.
  rewrite reverse_guards_pass by now rewrite Hty.
  unfold prisma_transaction, reverse_unit.
  unfold bind at 1. unfold reverse_balances. rewrite Hty, Hto.
  unfold tx_wallet_update. rewrite Hw. fold A.
  destruct (new_balance (balance_decrement A) (wallet_balance w)) as [b|e];
    [|reflexivity].
  cbv iota beta zeta.
  fold (reversal_row newId createdAt now t None (tx_toWalletId t)).
  match goal with
  | |- context [bind _ _ ?s1] =>
      rewrite (reverse_tail_run s1 None (tx_toWalletId t)
                 (updateWalletRow (tx_toWalletId t) (fun _ => b) uw)
                 eq_refl eq_refl); [reflexivity | | exact Hto]
  end.
  erewrite findWalletByUserId_update by reflexivity.
  now rewrite Huw.
Qed.

(** Reversal of a transfer out of wallet [f]: refused when the
    destination holds less than the amount; otherwise it returns when
    the two new balances reach the column, and throws what the first of
    them throws otherwise. *)
Lemma reverse_transfer_outcome (f : string) (wf wt uw : Wallet) :
  tx_type t = TRANSFER ->
  tx_fromWalletId t = Some f ->
  falsy f = false ->
  falsy (tx_toWalletId t) = false ->
  f <> tx_toWalletId t ->
  findWalletById s f = Some wf ->
  findWalletById s (tx_toWalletId t) = Some wt ->
  findWalletByUserId s userId = Some uw ->
  reverseTransaction userId transactionId newId createdAt now s
  = if num_ltb (toNumber (wallet_balance wt)) A
    then (Throw (BadRequestException
                   "Destinatário não tem saldo suficiente para reversão"),
          s)
    else
      match new_balance (balance_increment A) (wallet_balance wf) with
      | Throw e => (Throw e, s)
      | Return bf =>
          match new_balance (balance_decrement A) (wallet_balance wt) with
          | Throw e => (Throw e, s)
          | Return bt =>
              let row :=
                reversal_row newId createdAt now t
                  (Some (tx_toWalletId t)) f in
              (Return
                 (mkReverseResult "Transação revertida com sucesso" row A
                    (toNumber
                       (wallet_balance
                          (updateWalletRow (tx_toWalletId t) (fun _ => bt)
                             (updateWalletRow f (fun _ => bf) uw))))),
               with_balances s f bf (tx_toWalletId t) bt
                 (updateStatusRows transactionId REVERSED (transactions s)
                    ++ [row]))
          end
      end.
Proof.
  intros Hty Hfrom Hf Hto Hne Hwf Hwt Huw.
  rewrite reverse_guards_pass by now rewrite Hty.
  unfold prisma_transaction, reverse_unit.
  unfold bind at 1. unfold reverse_balances. rewrite Hty, Hfrom, Hf, Hto.
  cbv iota beta zeta. cbn [orb].
  unfold bind at 1. unfold tx_wallet_findById at 1. rewrite Hwt.
  fold A. destruct (num_ltb (toNumber (wallet_balance wt)) A);
    [reflexivity|].
  unfold bind at 1. unfold tx_wallet_update at 1. rewrite Hwf.
  destruct (new_balance (balance_increment A) (wallet_balance wf))
    as [bf|e]; [|reflexivity].
  set (s1 := mkStore (users s)
               (updateWalletRows f (fun _ => bf) (wallets s))
               (transactions s)).
  assert (Hwt1 : findWalletById s1 (tx_toWalletId t) = Some wt).
  { rewrite (findWalletById_update s s1 f (fun _ => bf)) by reflexivity.
    rewrite Hwt. cbn [option_map].
    rewrite updateWalletRow_miss; [reflexivity|].
    rewrite (findWalletById_id _ _ _ Hwt). congruence. }
  unfold tx_wallet_update. rewrite Hwt1.
  destruct (new_balance (balance_decrement A) (wallet_balance wt))
    as [bt|e]; [|reflexivity].
  cbv iota beta zeta.
  fold (reversal_row newId createdAt now t (Some (tx_toWalletId t)) f).
  match goal with
  | |- context [bind _ _ ?s2] =>
      rewrite (reverse_tail_run s2 (Some (tx_toWalletId t)) f
                 (updateWalletRow (tx_toWalletId t) (fun _ => bt)
                    (updateWalletRow f (fun _ => bf) uw))
                 eq_refl eq_refl); [reflexivity | | exact Hf]
  end.
  rewrite (findWalletByUserId_update s1 _ (tx_toWalletId t)
             (fun _ => bt)) by reflexivity.
  rewrite (findWalletByUserId_update s s1 f (fun _ => bf))
    by reflexivity.
  now rewrite Huw.
Qed.

End ReversalRuns.

Section ReversalOutcomes.

Context {N : JsNumber}.

Variables (userId transactionId newId : string) (createdAt now : Z).
Variable s : Store.
Variable t : Transaction.

Hypothesis target : findTransactionById s transactionId = Some t.
Hypothesis authorized : isOwner s t userId = true.
Hypothesis not_reversed : TransactionStatus_eqb (tx_status t) REVERSED = false.

Let A : number := toNumber (tx_amount t).

Lemma marked_reversed_intro us ws' added :
  marked_reversed
    (mkStore us ws'
       (updateStatusRows transactionId REVERSED (transactions s) ++ added))
    t.
Proof.
  pose proof (findTransactionById_id _ _ _ target) as Hid.
  exists (set_status t REVERSED). split; [|now repeat split].
  rewrite Hid. unfold findTransactionById in *. cbn [transactions].
  apply find_app_some. unfold updateStatusRows.
  rewrite find_map_preserving
    by (intros x; now rewrite updateStatusRow_id).
  rewrite target. simpl. rewrite <- Hid at 1.
  now rewrite updateStatusRow_hit.
Qed.

Lemma reversal_recorded_intro ws' from to uwb :
  reversal_recorded s
    (mkStore (users s) ws'
       (updateStatusRows transactionId REVERSED (transactions s)
          ++ [reversal_row newId createdAt now t from to]))
    t
    (mkReverseResult "Transação revertida com sucesso"
       (reversal_row newId createdAt now t from to) A uwb)
    from to.
Proof.
  pose proof (findTransactionById_id _ _ _ target) as Hid.
  unfold reversal_recorded.
  split; [apply marked_reversed_intro|].
  split; [now rewrite Hid | repeat split].
Qed.

(** A reversal of a deposit whose new balance [b] reaches the column. *)
Lemma reverse_deposit_returns (w : Wallet) (b : Decimal) :
  tx_type t = DEPOSIT ->
  falsy (tx_toWalletId t) = false ->
  findWalletById s (tx_toWalletId t) = Some w ->
  new_balance (balance_decrement A) (wallet_balance w) = Return b ->
  exists r s',
    reverseTransaction userId transactionId newId createdAt now s
    = (Return r, s')
    /\ deposit_reversed s s' t w b userId r.
Proof.
  intros Hty Hto Hw Hb.
  destruct (isOwner_has_wallet _ _ _ authorized) as [uw Huw].
  eexists. eexists.
  split.
  { rewrite (reverse_deposit_outcome _ _ _ _ _ _ _ target authorized
               not_reversed w uw Hty Hto Hw Huw).
    fold A. rewrite Hb. reflexivity. }
  unfold deposit_reversed, with_balance. split; [|split; [|split]].
  - rewrite (findWalletById_update s _ (tx_toWalletId t) (fun _ => b))
      by reflexivity.
    rewrite Hw. cbn [option_map].
    now rewrite (updateWalletRow_at _ _ _ (findWalletById_id _ _ _ Hw)).
  - intros id Hid.
    now apply (findWalletById_update_other s _ (tx_toWalletId t)
                 (fun _ => b)).
  - apply reversal_recorded_intro.
  - eexists. split; [|reflexivity]. cbn [rr_newBalance].
    rewrite (findWalletByUserId_update s _ (tx_toWalletId t)
               (fun _ => b)) by reflexivity.
    now rewrite Huw.
Qed.

Lemma reverse_deposit_throws (w : Wallet) (e : Exception) :
  tx_type t = DEPOSIT ->
  falsy (tx_toWalletId t) = false ->
  findWalletById s (tx_toWalletId t) = Some w ->
  new_balance (balance_decrement A) (wallet_balance w) = Throw e ->
  reverseTransaction userId transactionId newId createdAt now s
  = (Throw e, s).
Proof.
  intros Hty Hto Hw Hb.
  destruct (isOwner_has_wallet _ _ _ authorized) as [uw Huw].
  rewrite (reverse_deposit_outcome _ _ _ _ _ _ _ target authorized
             not_reversed w uw Hty Hto Hw Huw).
  fold A. now rewrite Hb.
Qed.

Section OfTransfer.

Variables (f : string) (wf wt : Wallet).

Hypothesis is_transfer : tx_type t = TRANSFER.
Hypothesis source : tx_fromWalletId t = Some f.
Hypothesis source_nonempty : falsy f = false.
Hypothesis destination_nonempty : falsy (tx_toWalletId t) = false.
Hypothesis distinct : f <> tx_toWalletId t.
Hypothesis source_wallet : findWalletById s f = Some wf.
Hypothesis destination_wallet :
  findWalletById s (tx_toWalletId t) = Some wt.

Lemma reverse_transfer_insufficient :
  num_ltb (toNumber (wallet_balance wt)) A = true ->
  reverseTransaction userId transactionId newId createdAt now s
  = (Throw (BadRequestException
              "Destinatário não tem saldo suficiente para reversão"), s).
Proof.
  intros Hlt.
  destruct (isOwner_has_wallet _ _ _ authorized) as [uw Huw].
  rewrite (reverse_transfer_outcome _ _ _ _ _ _ _ target authorized
             not_reversed f wf wt uw is_transfer source source_nonempty
             destination_nonempty distinct source_wallet
             destination_wallet Huw).
  fold A. now rewrite Hlt.
Qed.

(** A reversal of a funded transfer whose new balances [bf] and [bt]
    reach the column. *)
Lemma reverse_transfer_returns (bf bt : Decimal) :
  num_ltb (toNumber (wallet_balance wt)) A = false ->
  new_balance (balance_increment A) (wallet_balance wf) = Return bf ->
  new_balance (balance_decrement A) (wallet_balance wt) = Return bt ->
  exists r s',
    reverseTransaction userId transactionId newId createdAt now s
    = (Return r, s')
    /\ transfer_reversed s s' t f wf wt bf bt userId r.
Proof.
  intros Hlt Hbf Hbt.
  destruct (isOwner_has_wallet _ _ _ authorized) as [uw Huw].
  eexists. eexists.
  split.
  { rewrite (reverse_transfer_outcome _ _ _ _ _ _ _ target authorized
               not_reversed f wf wt uw is_transfer source source_nonempty
               destination_nonempty distinct source_wallet
               destination_wallet Huw).
    fold A. rewrite Hlt, Hbf, Hbt. reflexivity. }
  set (s1 := mkStore (users s)
               (updateWalletRows f (fun _ => bf) (wallets s))
               (transactions s)).
  pose proof (findWalletById_id _ _ _ source_wallet) as Hidf.
  pose proof (findWalletById_id _ _ _ destination_wallet) as Hidt.
  unfold transfer_reversed, with_balances.
  split; [|split; [|split; [|split]]].
  - rewrite (findWalletById_update s1 _ (tx_toWalletId t) (fun _ => bt))
      by reflexivity.
    rewrite (findWalletById_update s s1 f (fun _ => bf)) by reflexivity.
    rewrite source_wallet. cbn [option_map].
    rewrite (updateWalletRow_at f _ _ Hidf).
    now rewrite updateWalletRow_miss by (simpl; congruence).
  - rewrite (findWalletById_update s1 _ (tx_toWalletId t) (fun _ => bt))
      by reflexivity.
    rewrite (findWalletById_update s s1 f (fun _ => bf)) by reflexivity.
    rewrite destination_wallet. cbn [option_map].
    rewrite (updateWalletRow_miss f) by congruence.
    now rewrite (updateWalletRow_at _ _ _ Hidt).
  - intros id H1 H2.
    rewrite (findWalletById_update_other s1 _ (tx_toWalletId t)
               (fun _ => bt)) by (reflexivity || exact H2).
    now apply (findWalletById_update_other s s1 f (fun _ => bf)).
  - apply reversal_recorded_intro.
  - eexists. split; [|reflexivity]. cbn [rr_newBalance].
    rewrite (findWalletByUserId_update s1 _ (tx_toWalletId t)
               (fun _ => bt)) by reflexivity.
    rewrite (findWalletByUserId_update s s1 f (fun _ => bf))
      by reflexivity.
    now rewrite Huw.
Qed.

(** A reversal of a funded transfer one of whose new balances does not
    reach the column. *)
Lemma reverse_transfer_throws (e : Exception) :
  num_ltb (toNumber (wallet_balance wt)) A = false ->
  new_balance (balance_increment A) (wallet_balance wf) = Throw e
  \/ (exists bf,
         new_balance (balance_increment A) (wallet_balance wf) = Return bf)
     /\ new_balance (balance_decrement A) (wallet_balance wt) = Throw e ->
  reverseTransaction userId transactionId newId createdAt now s
  = (Throw e, s).
Proof.
  intros Hlt H.
  destruct (isOwner_has_wallet _ _ _ authorized) as [uw Huw].
  rewrite (reverse_transfer_outcome _ _ _ _ _ _ _ target authorized
             not_reversed f wf wt uw is_transfer source source_nonempty
             destination_nonempty distinct source_wallet
             destination_wallet Huw).
  fold A. rewrite Hlt.
  destruct H as [H | [[bf Hbf] H]]; [now rewrite H|].
  now rewrite Hbf, H.
Qed.

End OfTransfer.

End ReversalOutcomes.

Section ReversalTwice.

Context {N : JsNumber}.

(** The balance updates of a reversal keep the transactions table and
    the owner of every wallet. *)
Lemma tx_wallet_update_frame id data s s1 :
  tx_wallet_update id data s = Return (tt, s1) ->
  transactions s1 = transactions s
  /\ forall x, walletOwnerId s1 x = walletOwnerId s x.
Proof.
  unfold tx_wallet_update.
  destruct (findWalletById s id) as [w|]; [|discriminate].
  destruct (new_balance data (wallet_balance w)) as [b|]; [|discriminate].
  intros H. injection H as <-. split; [reflexivity|].
  intros [x|]; [|reflexivity]. unfold walletOwnerId.
  rewrite (findWalletById_update s _ id (fun _ => b)) by reflexivity.
  destruct (findWalletById s x); [|reflexivity].
  simpl. now rewrite updateWalletRow_userId.
Qed.

Lemma reverse_balances_frame t amount s s1 :
  reverse_balances t amount s = Return (tt, s1) ->
  transactions s1 = transactions s
  /\ forall x, walletOwnerId s1 x = walletOwnerId s x.
Proof.
  unfold reverse_balances. destruct (tx_type t).
  - destruct (falsy (tx_toWalletId t)); [discriminate|].
    apply tx_wallet_update_frame.
  - destruct (tx_fromWalletId t) as [f|]; [|discriminate].
    destruct (falsy f || falsy (tx_toWalletId t)); [discriminate|].
    unfold bind, tx_wallet_findById.
    destruct (findWalletById s (tx_toWalletId t)) as [wt|]; [|discriminate].
    destruct (num_ltb _ _); [discriminate|].
    destruct (tx_wallet_update f (balance_increment amount) s)
      as [[[] s0]|] eqn:E0; [|discriminate].
    intros E1.
    apply tx_wallet_update_frame in E0. destruct E0 as [Ht0 Ho0].
    apply tx_wallet_update_frame in E1. destruct E1 as [Ht1 Ho1].
    split; [congruence|]. intros x. now rewrite Ho1.
  - intros H. injection H as <-. now split.
Qed.

(** What a reversal that returned has done to its target. *)
Lemma reverseTransaction_returned userId transactionId newId createdAt now
  s r s' :
  reverseTransaction userId transactionId newId createdAt now s
  = (Return r, s') ->
  exists t,
    findTransactionById s transactionId = Some t
    /\ isOwner s t userId = true
    /\ findTransactionById s' transactionId = Some (set_status t REVERSED)
    /\ isOwner s' (set_status t REVERSED) userId = true.
Proof.
  unfold reverseTransaction, reverseTransaction_interleaved.
  destruct (findTransactionById s transactionId) as [t|] eqn:Ht;
    [|discriminate].
  destruct (isOwner s t userId) eqn:Hown; [|discriminate]. simpl negb.
  destruct (TransactionStatus_eqb (tx_status t) REVERSED); [discriminate|].
  destruct (TransactionType_eqb (tx_type t) REVERSAL); [discriminate|].
  unfold prisma_transaction, reverse_unit. unfold bind at 1.
  destruct (reverse_balances t (toNumber (tx_amount t)) s)
    as [[[] s1]|] eqn:Hb; [|discriminate].
  apply reverse_balances_frame in Hb. destruct Hb as [Hts Hown1].
  unfold bind at 1. unfold tx_transaction_updateStatus at 1.
  destruct (findTransactionById s1 transactionId); [|discriminate].
  match goal with
  | |- context [match ?o with Some _ => _ | None => throw _ end] =>
      destruct o as [reversalTo|]; [|discriminate]
  end.
  destruct (falsy reversalTo); [discriminate|].
  unfold bind, tx_transaction_create, tx_wallet_findByUserId.
  match goal with
  | |- context [findWalletByUserId ?s2 userId] =>
      destruct (findWalletByUserId s2 userId); [|discriminate]
  end.
  unfold ret. intros H. injection H as _ <-.
  exists t. split; [reflexivity|]. split; [exact Hown|].
  pose proof (findTransactionById_id _ _ _ Ht) as Hid.
  split.
  - unfold findTransactionById in *. cbn [transactions].
    apply find_app_some. unfold updateStatusRows.
    rewrite find_map_preserving
      by (intros x; now rewrite updateStatusRow_id).
    rewrite Hts, Ht. simpl. rewrite <- Hid at 1.
    now rewrite updateStatusRow_hit.
  - rewrite <- Hown. unfold isOwner. cbn [set_status tx_toWalletId
      tx_fromWalletId].
    assert (Hsame : forall x y,
               walletOwnerId (mkStore (users s1) (wallets s1) y) x
               = walletOwnerId s x).
    { intros x y. rewrite <- Hown1. now destruct x. }
    now rewrite !Hsame.
Qed.

End ReversalTwice.

Lemma updateStatusRow_at id st t :
  tx_id t = id -> updateStatusRow id st t = set_status t st.
Proof. intros <-. apply updateStatusRow_hit. Qed.

Section ReversalStatus.

Context {N : JsNumber}.

(** A result with the transactions table of its store replaced. *)
Let retable {A} (ts : list Transaction) (res : Result (A * Store))
  : Result (A * Store) :=
  match res with
  | Return (a, s1) => Return (a, mkStore (users s1) (wallets s1) ts)
  | Throw e => Throw e
  end.

(** The balance updates neither read nor write the transactions. *)
Lemma reverse_balances_retable t amount us ws ts ts' :
  reverse_balances t amount (mkStore us ws ts')
  = retable ts' (reverse_balances t amount (mkStore us ws ts)).
Proof.
  unfold reverse_balances, retable. destruct (tx_type t).
  - destruct (falsy (tx_toWalletId t)); [reflexivity|].
    unfold tx_wallet_update, findWalletById.
    cbv beta iota delta [wallets users transactions].
    destruct (find _ ws) as [w|]; [|reflexivity].
    now destruct (new_balance _ (wallet_balance w)).
  - destruct (tx_fromWalletId t) as [f|]; [|reflexivity].
    destruct (falsy f || falsy (tx_toWalletId t)); [reflexivity|].
    unfold bind, tx_wallet_findById, tx_wallet_update, findWalletById.
    cbv beta iota delta [wallets users transactions].
    destruct (find _ ws) as [wt|]; [|reflexivity].
    destruct (num_ltb _ _); [reflexivity|].
    destruct (find (fun w => String.eqb (wallet_id w) f) ws) as [wf|];
      [|reflexivity].
    destruct (new_balance _ (wallet_balance wf)); [|reflexivity].
    cbv beta iota delta [wallets users transactions].
    destruct (find _ (updateWalletRows f _ ws)) as [w2|]; [|reflexivity].
    now destruct (new_balance _ (wallet_balance w2)).
  - reflexivity.
Qed.

Lemma reverse_balances_shape t amount s s1 :
  reverse_balances t amount s = Return (tt, s1) ->
  transactions s1 = transactions s.
Proof. intros H. now apply reverse_balances_frame in H. Qed.

(** The unit on the row marked [st] in the store marked [st] commits
    what it commits on the original row and store. *)
Lemma reverse_unit_status userId transactionId newId createdAt now s t st :
  findTransactionById s transactionId = Some t ->
  prisma_transaction
    (reverse_unit userId transactionId (set_status t st) newId createdAt
       now)
    (with_status s transactionId st)
  = match prisma_transaction
            (reverse_unit userId transactionId t newId createdAt now) s
    with
    | (Return r, s') => (Return r, s')
    | (Throw e, _) => (Throw e, with_status s transactionId st)
    end.
Proof.
  intros Ht.
  unfold prisma_transaction, reverse_unit, bind.
  change (reverse_balances (set_status t st))
    with (reverse_balances t).
  cbn [set_status tx_amount tx_type tx_toWalletId tx_fromWalletId
       tx_description tx_id].
  unfold with_status at 1.
  rewrite (reverse_balances_retable t _ (users s) (wallets s)
             (transactions s)).
  rewrite store_eta.
  destruct (reverse_balances t (toNumber (tx_amount t)) s)
    as [[[] s1]|] eqn:Hb; [|reflexivity].
  pose proof (reverse_balances_shape _ _ _ _ Hb) as Hts.
  unfold retable, tx_transaction_updateStatus.
  rewrite (findTransactionById_ext s s1 _ Hts), Ht.
  erewrite (findTransactionById_update s _ transactionId st)
    by reflexivity.
  rewrite Ht. cbn [option_map users wallets transactions].
  rewrite updateStatusRows_twice, Hts.
  match goal with
  | |- match ?X with Return _ => _ | Throw _ => _ end = _ =>
      destruct X as [[r0 s']|e]; reflexivity
  end.
Qed.

(** The guards and the unit together: marking the target COMPLETED
    changes neither what a reversal returns nor what it commits. *)
Lemma reverseTransaction_status userId transactionId newId createdAt now
  s t :
  findTransactionById s transactionId = Some t ->
  tx_status t = PENDING \/ tx_status t = FAILED ->
  reverseTransaction userId transactionId newId createdAt now
    (with_status s transactionId COMPLETED)
  = match reverseTransaction userId transactionId newId createdAt now s
    with
    | (Return r, s') => (Return r, s')
    | (Throw e, _) => (Throw e, with_status s transactionId COMPLETED)
    end.
Proof.
  intros Ht Hst. unfold reverseTransaction, reverseTransaction_interleaved.
  rewrite (findTransactionById_update s _ transactionId COMPLETED)
    by reflexivity.
  rewrite Ht. cbn [option_map].
  rewrite (updateStatusRow_at _ _ _ (findTransactionById_id _ _ _ Ht)).
  change (isOwner (with_status s transactionId COMPLETED)
            (set_status t COMPLETED) userId)
    with (isOwner s t userId).
  destruct (isOwner s t userId); [|reflexivity]. cbn [negb].
  cbn [set_status tx_status tx_type].
  assert (Hnr : TransactionStatus_eqb (tx_status t) REVERSED = false)
    by (destruct Hst as [-> | ->]; reflexivity).
  rewrite Hnr. cbn [TransactionStatus_eqb].
  destruct (TransactionType_eqb (tx_type t) REVERSAL); [reflexivity|].
  now apply reverse_unit_status.
Qed.

End ReversalStatus.

(** *** getHistory *)


Lemma createdAtDesc_transitive :
  forall x y z,
    CreatedAtDesc.leb x y = true -> CreatedAtDesc.leb y z = true ->
    CreatedAtDesc.leb x z = true.
Proof.
  unfold CreatedAtDesc.leb. intros x y z H1 H2.
  apply Z.leb_le in H1, H2. apply Z.leb_le. lia.
Qed.

(** [findMany] returns exactly the rows that match, newest first. *)
Lemma findManyTransactions_spec s id :
  Permutation (findManyTransactions s id)
    (filter (involvesWallet id) (transactions s))
  /\ StronglySorted (fun a b => tx_createdAt b <= tx_createdAt a)
       (findManyTransactions s id).
Proof.
  unfold findManyTransactions. split.
  - apply Permutation_sym, ByCreatedAtDesc.Permuted_sort.
  - pose proof (ByCreatedAtDesc.StronglySorted_sort
                  (filter (involvesWallet id) (transactions s))) as H.
    assert (Htr : Relations_1.Transitive
                    (fun x y => is_true (CreatedAtDesc.leb x y))).
    { intros x y z. apply createdAtDesc_transitive. }
    specialize (H Htr).
    induction H as [|a l Hl IH Ha]; [constructor|].
    constructor; [exact IH|].
    eapply Forall_impl; [|exact Ha].
    intros b Hb. now apply Z.leb_le.
Qed.

(* ================================================================== *)
(** ** Properties of the transaction engine *)
(* ================================================================== *)

(** Stored amounts up to 10.00 read into a double and sent back are
    the same hundredths. *)
Lemma b64_round_trip_small (h : Z) :
  0 <= h <= 1000 ->
  amount_in_cents (N := Binary64) (b64_toNumber h) h = true.
Proof.
  intros Hh.
  assert (Hall : forallb
                   (fun k => amount_in_cents (N := Binary64)
                               (b64_toNumber (Z.of_nat k)) (Z.of_nat k))
                   (seq 0 (Z.to_nat 1001)) = true)
    by (vm_compute; reflexivity).
  rewrite forallb_forall in Hall.
  specialize (Hall (Z.to_nat h)).
  rewrite Z2Nat.id in Hall by lia.
  apply Hall. apply in_seq. lia.
Qed.

(** Numerals of some doubles, as [String(x)] prints them:
    0.30000000000000004 for 0.1 + 0.2, 1.005, 100.5, 1e21, 5e-324 and
    1.7976931348623157e308; and what the column makes of the first
    three. *)
Example b64_numeral_examples :
  b64_numeral (SFadd prec64 emax64 (b64_toNumber 10) (b64_toNumber 20))
  = Some (mkDec 30000000000000004 (-17))
  /\ b64_numeral (b64_thousandths 1005) = Some (mkDec 1005 (-3))
  /\ b64_numeral (b64_toNumber 10050) = Some (mkDec 1005 (-1))
  /\ b64_numeral (b64_of_Z (10 ^ 21)) = Some (mkDec 1 21)
  /\ b64_numeral (S754_finite false 1 (-1074)) = Some (mkDec 5 (-324))
  /\ b64_numeral (S754_finite false 9007199254740991 971)
     = Some (mkDec 17976931348623157 292)
  /\ ofNumber (N := Binary64)
       (SFadd prec64 emax64 (b64_toNumber 10) (b64_toNumber 20)) = 30
  /\ ofNumber (N := Binary64) (b64_thousandths 1005) = 101
  /\ ofNumber (N := Binary64) (b64_toNumber 10050) = 10050.
Proof. repeat split; vm_compute; reflexivity. Qed.


Section Deposit.

Context {N : JsNumber}.

Variables (userId : string) (dto : DepositDto) (newId : string).
Variables (createdAt now : Z) (s : Store).


End Deposit.



(** The unit test "deve realizar depósito compensando saldo negativo",
    on doubles: -50 + 100. *)
Example deposit_unit_test :
  let r := fst (deposit (N := Binary64) "user-3"
                  (mkDepositDto (N := Binary64) (b64_of_Z 100) None)
                  "tx-dep" 1 1 seed_store) in
  match r with
  | Return r =>
      dr_newBalance r = b64_of_Z 50
      /\ dr_previousBalance r = b64_of_Z (-50)
  | Throw _ => False
  end.
Proof. vm_compute. split; reflexivity. Qed.

Section Transfer.

Context {N : JsNumber}.

Variables (userId : string) (dto : TransferDto) (newId : string).
Variables (createdAt now : Z).
Variable s : Store.
Variables (toUser : User) (fromWallet toWallet : Wallet).

(** The recipient resolved by the pre-checks, and the two wallets the
    atomic unit fetches; wallet ids are keys. *)
Hypothesis prechecks_pass : transfer_prechecks userId dto s = Return toUser.
Hypothesis sender_wallet : findWalletByUserId s userId = Some fromWallet.
Hypothesis recipient_wallet :
  findWalletByUserId s (user_id toUser) = Some toWallet.
Hypothesis recipient_by_id :
  findWalletById s (wallet_id toWallet) = Some toWallet.
Hypothesis distinct_wallets : wallet_id fromWallet <> wallet_id toWallet.

Let B1 : number := toNumber (wallet_balance fromWallet).
Let A : number := transfer_amount dto.


End Transfer.



(** Ana holds 200.00 and tries to send 500.00. *)
Example transfer_insufficient_message :
  transfer (N := ExactCents) "user-1"
    (mkTransferDto (N := ExactCents) "987.654.321-00" 50000 None)
    "tx-transfer" 2 2 seed_store
  = (Throw (BadRequestException
              "Saldo insuficiente. Disponível: R$ 200.00"), seed_store).
Proof. reflexivity. Qed.

(** The scenario store is what the service produces. *)
Example scenario_store_reached :
  snd (transfer (N := ExactCents) "user-1"
         (mkTransferDto (N := ExactCents) "987.654.321-00" 5000
            (Some "Transferência teste")) "tx-transfer" 2 2
         (snd (deposit (N := ExactCents) "user-1"
                 (mkDepositDto (N := ExactCents) 10050 None) "tx-dep" 1 1
                 empty_wallets)))
  = scenario_store.
Proof. reflexivity. Qed.

(** C7 (the code departs from it). The pre-checks see Bruno's wallet; it
    is gone when the atomic unit runs. Ana's transfer of 50.00 then ends
    in a [TypeError], and her transfer of 500.00 in the
    insufficient-funds BadRequest: neither is NotFound. *)
Theorem transfer_recipient_wallet_vanished :
  transfer_interleaved (N := ExactCents) seed_store "user-1"
    (mkTransferDto (N := ExactCents) "987.654.321-00" 5000 None)
    "tx-transfer" 2 2 seed_store_wallet2_gone
  = (Throw (TypeError "Cannot read properties of null (reading 'id')"),
     seed_store_wallet2_gone)
  /\ transfer_interleaved (N := ExactCents) seed_store "user-1"
       (mkTransferDto (N := ExactCents) "987.654.321-00" 50000 None)
       "tx-transfer" 2 2 seed_store_wallet2_gone
     = (Throw (BadRequestException
                 "Saldo insuficiente. Disponível: R$ 200.00"),
        seed_store_wallet2_gone).
Proof. split; reflexivity. Qed.

Section ReversalTheorems.

Context {N : JsNumber}.

Variables (userId transactionId newId : string) (createdAt now : Z).
Variable s : Store.
Variable t : Transaction.

Lemma marked_reversed_status s' :
  findTransactionById s transactionId = Some t ->
  marked_reversed s' t -> status_reversed s' transactionId.
Proof.
  intros Ht (t' & H & Hst & _).
  rewrite (findTransactionById_id _ _ _ Ht) in H.
  now exists t'.
Qed.

(** C6, as the code has it. Reversing a COMPLETED DEPOSIT of [A] makes
    no comparison of the destination wallet's balance [B] with [A]: the
    store subtracts [A] from [B], and the reversal returns whenever the
    balance column accepts the result: the wallet then holds it, the
    deposit's status is REVERSED, and a COMPLETED REVERSAL row with no
    source, the deposit's destination as destination, and a reference to
    the deposit is appended. When the column refuses the result the
    reversal throws what the column throws and the store is untouched.
    For a stored amount [a] that reads back as [a], the wallet holds
    exactly [B - a], negative or not, whenever that is within the range
    of the column. *)
Theorem deposit_reversal_unconditional (w : Wallet) :
  findTransactionById s transactionId = Some t ->
  isOwner s t userId = true ->
  tx_status t = COMPLETED ->
  tx_type t = DEPOSIT ->
  falsy (tx_toWalletId t) = false ->
  findWalletById s (tx_toWalletId t) = Some w ->
  let A := toNumber (tx_amount t) in
  (forall b,
      new_balance (balance_decrement A) (wallet_balance w) = Return b ->
      exists r s',
        reverseTransaction userId transactionId newId createdAt now s
        = (Return r, s')
        /\ deposit_reversed s s' t w b userId r
        /\ status_reversed s' transactionId)
  /\ (forall e,
         new_balance (balance_decrement A) (wallet_balance w) = Throw e ->
         reverseTransaction userId transactionId newId createdAt now s
         = (Throw e, s))
  /\ (amount_in_cents A (tx_amount t) = true ->
      fits_column (wallet_balance w - tx_amount t) = true ->
      exists r s',
        reverseTransaction userId transactionId newId createdAt now s
        = (Return r, s')
        /\ deposit_reversed s s' t w (wallet_balance w - tx_amount t)
             userId r
        /\ status_reversed s' transactionId).
Proof.
  intros Ht Hown Hst Hty Hto Hw A.
  assert (Hnr : TransactionStatus_eqb (tx_status t) REVERSED = false)
    by now rewrite Hst.
  assert (Hreturns : forall b,
             new_balance (balance_decrement A) (wallet_balance w)
             = Return b ->
             exists r s',
               reverseTransaction userId transactionId newId createdAt
                 now s
               = (Return r, s')
               /\ deposit_reversed s s' t w b userId r
               /\ status_reversed s' transactionId).
  { intros b Hb.
    destruct (reverse_deposit_returns userId transactionId newId
                createdAt now s t Ht Hown Hnr w b Hty Hto Hw Hb)
      as (r & s' & H & Hrev).
    exists r, s'. split; [exact H|]. split; [exact Hrev|].
    apply marked_reversed_status; [exact Ht|]. apply Hrev. }
  split; [exact Hreturns|]. split.
  - intros e He.
    exact (reverse_deposit_throws userId transactionId newId createdAt
             now s t Ht Hown Hnr w e Hty Hto Hw He).
  - intros Ha Hf. apply Hreturns.
    now apply new_balance_decrement_cents.
Qed.

(** C3, as the code has it. Reversing a COMPLETED TRANSFER of [A] from
    wallet [f]: when the destination wallet holds less than [A] it
    throws the insufficient-funds-for-reversal BadRequest and the store
    is untouched. Otherwise the store adds [A] to the source and
    subtracts [A] from the destination, and the reversal returns when
    the balance column accepts both results: the wallets then hold
    them, the transfer's status is REVERSED, a COMPLETED REVERSAL row
    from the old destination to the old source referring to the
    transfer is appended, and [newBalance] is the balance of the acting
    user's own wallet in the new store, whichever side of the transfer
    that user is on. When the column refuses one of the results the
    reversal throws what the column throws and the store is untouched.
    For a stored amount [a] that reads back as [a], the source gains
    exactly [a] and the destination loses exactly [a], whenever both
    results are within the range of the column. *)
Theorem transfer_reversal (f : string) (wf wt : Wallet) :
  findTransactionById s transactionId = Some t ->
  isOwner s t userId = true ->
  tx_status t = COMPLETED ->
  tx_type t = TRANSFER ->
  tx_fromWalletId t = Some f ->
  falsy f = false ->
  falsy (tx_toWalletId t) = false ->
  f <> tx_toWalletId t ->
  findWalletById s f = Some wf ->
  findWalletById s (tx_toWalletId t) = Some wt ->
  let A := toNumber (tx_amount t) in
  (num_ltb (toNumber (wallet_balance wt)) A = true ->
   reverseTransaction userId transactionId newId createdAt now s
   = (Throw (BadRequestException
               "Destinatário não tem saldo suficiente para reversão"), s))
  /\ (num_ltb (toNumber (wallet_balance wt)) A = false ->
      (forall bf bt,
          new_balance (balance_increment A) (wallet_balance wf)
          = Return bf ->
          new_balance (balance_decrement A) (wallet_balance wt)
          = Return bt ->
          exists r s',
            reverseTransaction userId transactionId newId createdAt now s
            = (Return r, s')
            /\ transfer_reversed s s' t f wf wt bf bt userId r
            /\ status_reversed s' transactionId)
      /\ (forall e,
             new_balance (balance_increment A) (wallet_balance wf)
             = Throw e
             \/ (exists bf,
                    new_balance (balance_increment A) (wallet_balance wf)
                    = Return bf)
                /\ new_balance (balance_decrement A) (wallet_balance wt)
                   = Throw e ->
             reverseTransaction userId transactionId newId createdAt now s
             = (Throw e, s))
      /\ (amount_in_cents A (tx_amount t) = true ->
          fits_column (wallet_balance wf + tx_amount t) = true ->
          fits_column (wallet_balance wt - tx_amount t) = true ->
          exists r s',
            reverseTransaction userId transactionId newId createdAt now s
            = (Return r, s')
            /\ transfer_reversed s s' t f wf wt
                 (wallet_balance wf + tx_amount t)
                 (wallet_balance wt - tx_amount t) userId r
            /\ status_reversed s' transactionId)).
Proof.
  intros Ht Hown Hst Hty Hfrom Hf Hto Hne Hwf Hwt A.
  assert (Hnr : TransactionStatus_eqb (tx_status t) REVERSED = false)
    by now rewrite Hst.
  split; intros Hlt.
  - exact (reverse_transfer_insufficient userId transactionId newId
             createdAt now s t Ht Hown Hnr f wf wt Hty Hfrom Hf Hto Hne
             Hwf Hwt Hlt).
  - assert (Hreturns : forall bf bt,
               new_balance (balance_increment A) (wallet_balance wf)
               = Return bf ->
               new_balance (balance_decrement A) (wallet_balance wt)
               = Return bt ->
               exists r s',
                 reverseTransaction userId transactionId newId createdAt
                   now s
                 = (Return r, s')
                 /\ transfer_reversed s s' t f wf wt bf bt userId r
                 /\ status_reversed s' transactionId).
    { intros bf bt Hbf Hbt.
      destruct (reverse_transfer_returns userId transactionId newId
                  createdAt now s t Ht Hown Hnr f wf wt Hty Hfrom Hf Hto
                  Hne Hwf Hwt bf bt Hlt Hbf Hbt)
        as (r & s' & H & Hrev).
      exists r, s'. split; [exact H|]. split; [exact Hrev|].
      apply marked_reversed_status; [exact Ht|]. apply Hrev. }
    split; [exact Hreturns|]. split.
    + intros e He.
      exact (reverse_transfer_throws userId transactionId newId
               createdAt now s t Ht Hown Hnr f wf wt Hty Hfrom Hf Hto Hne
               Hwf Hwt e Hlt He).
    + intros Ha Hff Hft. apply Hreturns.
      * now apply new_balance_increment_cents.
      * now apply new_balance_decrement_cents.
Qed.

(** C10. The guards of [reverseTransaction] never ask for COMPLETED: an
    authorized reversal of a transaction whose status is PENDING or
    FAILED returns and commits exactly what it would, had the row been
    COMPLETED, and throws what it would throw then. In particular, for a
    DEPOSIT or a TRANSFER the balances are updated by the transaction's
    amount (as the balance column takes the results) and the status of
    the row goes straight from PENDING or FAILED to REVERSED. *)
Theorem reversal_of_uncompleted :
  findTransactionById s transactionId = Some t ->
  isOwner s t userId = true ->
  tx_status t = PENDING \/ tx_status t = FAILED ->
  let A := toNumber (tx_amount t) in
  reverseTransaction userId transactionId newId createdAt now
    (with_status s transactionId COMPLETED)
  = match reverseTransaction userId transactionId newId createdAt now s
    with
    | (Return r, s') => (Return r, s')
    | (Throw e, _) => (Throw e, with_status s transactionId COMPLETED)
    end
  /\ (forall w b,
         tx_type t = DEPOSIT ->
         falsy (tx_toWalletId t) = false ->
         findWalletById s (tx_toWalletId t) = Some w ->
         new_balance (balance_decrement A) (wallet_balance w) = Return b ->
         exists r s',
           reverseTransaction userId transactionId newId createdAt now s
           = (Return r, s')
           /\ deposit_reversed s s' t w b userId r
           /\ status_reversed s' transactionId)
  /\ (forall f wf wt bf bt,
         tx_type t = TRANSFER ->
         tx_fromWalletId t = Some f ->
         falsy f = false ->
         falsy (tx_toWalletId t) = false ->
         f <> tx_toWalletId t ->
         findWalletById s f = Some wf ->
         findWalletById s (tx_toWalletId t) = Some wt ->
         num_ltb (toNumber (wallet_balance wt)) A = false ->
         new_balance (balance_increment A) (wallet_balance wf)
         = Return bf ->
         new_balance (balance_decrement A) (wallet_balance wt)
         = Return bt ->
         exists r s',
           reverseTransaction userId transactionId newId createdAt now s
           = (Return r, s')
           /\ transfer_reversed s s' t f wf wt bf bt userId r
           /\ status_reversed s' transactionId).
Proof.
  intros Ht Hown Hst A.
  assert (Hnr : TransactionStatus_eqb (tx_status t) REVERSED = false)
    by (destruct Hst as [-> | ->]; reflexivity).
  split; [now apply reverseTransaction_status with (t := t)|]. split.
  - intros w b Hty Hto Hw Hb.
    destruct (reverse_deposit_returns userId transactionId newId
                createdAt now s t Ht Hown Hnr w b Hty Hto Hw Hb)
      as (r & s' & H & Hrev).
    exists r, s'. split; [exact H|]. split; [exact Hrev|].
    apply marked_reversed_status; [exact Ht|]. apply Hrev.
  - intros f wf wt bf bt Hty Hfrom Hf Hto Hne Hwf Hwt Hlt Hbf Hbt.
    destruct (reverse_transfer_returns userId transactionId newId
                createdAt now s t Ht Hown Hnr f wf wt Hty Hfrom Hf Hto
                Hne Hwf Hwt bf bt Hlt Hbf Hbt)
      as (r & s' & H & Hrev).
    exists r, s'. split; [exact H|]. split; [exact Hrev|].
    apply marked_reversed_status; [exact Ht|]. apply Hrev.
Qed.

(** C5. A user who owns neither the source nor the destination wallet of
    an existing transaction cannot reverse it: the call throws Forbidden
    and the store (balances, statuses, rows) is the one it started
    from. *)
Theorem reversal_forbidden :
  findTransactionById s transactionId = Some t ->
  walletOwnerId s (Some (tx_toWalletId t)) <> Some userId ->
  walletOwnerId s (tx_fromWalletId t) <> Some userId ->
  reverseTransaction userId transactionId newId createdAt now s
  = (Throw (ForbiddenException
              "Você não tem permissão para reverter esta transação"), s).
Proof.
  intros Ht Hto Hfrom.
  unfold reverseTransaction, reverseTransaction_interleaved. rewrite Ht.
  assert (Hno : forall x, x <> Some userId ->
                          opt_string_eqb x userId = false).
  { intros [x|] Hx; [|reflexivity]. simpl.
    apply String.eqb_neq. congruence. }
  unfold isOwner. now rewrite (Hno _ Hto), (Hno _ Hfrom).
Qed.

(** C4, as the code has it. For a participant (owner of the source or
    destination wallet): a transaction already REVERSED cannot be
    reversed again, and a REVERSAL row not itself marked REVERSED cannot
    be reversed; both are BadRequests, told apart by their message, and
    both leave the store as it was. In particular, after a reversal that
    returned, the same user's second attempt is refused as already
    reversed and changes nothing. *)
Theorem reversal_guards :
  (findTransactionById s transactionId = Some t ->
   isOwner s t userId = true ->
   tx_status t = REVERSED ->
   reverseTransaction userId transactionId newId createdAt now s
   = (Throw (BadRequestException "Esta transação já foi revertida"), s))
  /\ (findTransactionById s transactionId = Some t ->
      isOwner s t userId = true ->
      tx_type t = REVERSAL ->
      tx_status t <> REVERSED ->
      reverseTransaction userId transactionId newId createdAt now s
      = (Throw (BadRequestException "Reversões não podem ser revertidas"),
         s))
  /\ (forall r s' newId' createdAt' now',
         reverseTransaction userId transactionId newId createdAt now s
         = (Return r, s') ->
         reverseTransaction userId transactionId newId' createdAt' now' s'
         = (Throw (BadRequestException "Esta transação já foi revertida"),
            s')).
Proof.
  split; [|split].
  - intros Ht Hown Hst.
    unfold reverseTransaction, reverseTransaction_interleaved.
    now rewrite Ht, Hown, Hst.
  - intros Ht Hown Hty Hst.
    unfold reverseTransaction, reverseTransaction_interleaved.
    rewrite Ht, Hown, Hty. now destruct (tx_status t).
  - intros r s' newId' createdAt' now' H.
    apply reverseTransaction_returned in H.
    destruct H as (t0 & _ & _ & Ht' & Hown').
    unfold reverseTransaction, reverseTransaction_interleaved.
    now rewrite Ht', Hown'.
Qed.

End ReversalTheorems.

(** Ana reverses her deposit of 100.50 while holding 50.50, on
    doubles. *)
Lemma deposit_reversal_unconditional_witness :
  exists r s',
    reverseTransaction (N := Binary64) "user-1" "tx-dep" "tx-rev" 3 3
      scenario_store
    = (Return r, s')
    /\ findWalletById s' "wallet-1"
       = Some (mkWallet "wallet-1" (-5000) "user-1")
    /\ status_reversed s' "tx-dep"
    /\ tx_fromWalletId (rr_reversalTransaction r) = None
    /\ tx_toWalletId (rr_reversalTransaction r) = "wallet-1"
    /\ tx_reversedTransactionId (rr_reversalTransaction r) = Some "tx-dep".
Proof.
  destruct (proj2 (proj2
              (deposit_reversal_unconditional (N := Binary64)
                 "user-1" "tx-dep" "tx-rev" 3 3 scenario_store tx_dep
                 (mkWallet "wallet-1" 5050 "user-1")
                 eq_refl eq_refl eq_refl eq_refl eq_refl eq_refl))
              eq_refl eq_refl)
    as (r & s' & H
        & (Hw & _ & (_ & _ & _ & _ & Hfrom & Hto & Href & _) & _) & Hst).
  exists r, s'. repeat split; assumption.
Defined.

(** C6 as worded fails at the bound of the column: Bruno owes
    60000000.00 and reverses his second deposit of 60000000.00. The
    store refuses a balance of -120000000.00, the reversal throws and
    nothing is written; the deposit stays COMPLETED. The store is one
    the service produces. *)
Lemma deposit_reversal_out_of_range :
  reverseTransaction (N := Binary64) "user-2" "tx-d2" "tx-r2" 6 6
    indebted_store
  = (Throw (ValueOutOfRange "balance"), indebted_store)
  /\ findTransactionById indebted_store "tx-d2" = Some tx_d2
  /\ tx_type tx_d2 = DEPOSIT
  /\ tx_status tx_d2 = COMPLETED
  /\ isOwner indebted_store tx_d2 "user-2" = true
  /\ (let deposit60 :=
        mkDepositDto (N := Binary64) (b64_of_Z 60000000) None in
      let s1 := snd (deposit (N := Binary64) "user-2" deposit60
                       "tx-d1" 1 1 seed_store) in
      let s2 := snd (transfer (N := Binary64) "user-2"
                       (mkTransferDto (N := Binary64) "123.456.789-00"
                          (b64_of_Z 60000120) None)
                       "tx-t1" 2 2 s1) in
      let s3 := snd (deposit (N := Binary64) "user-2" deposit60
                       "tx-d2" 3 3 s2) in
      let s4 := snd (transfer (N := Binary64) "user-2"
                       (mkTransferDto (N := Binary64) "111.444.777-35"
                          (b64_of_Z 60000000) None)
                       "tx-t2" 4 4 s3) in
      snd (reverseTransaction (N := Binary64) "user-2" "tx-d1" "tx-r1"
             5 5 s4)
      = indebted_store).
Proof. repeat split; reflexivity. Qed.

(** Ana, the sender, reverses her transfer, on doubles: Bruno's wallet
    is debited and [newBalance] is Ana's. *)
Lemma transfer_reversal_witness :
  exists r s',
    reverseTransaction (N := Binary64) "user-1" "tx-transfer" "tx-rev" 3 3
      scenario_store
    = (Return r, s')
    /\ findWalletById s' "wallet-1"
       = Some (mkWallet "wallet-1" 10050 "user-1")
    /\ findWalletById s' "wallet-2" = Some (mkWallet "wallet-2" 0 "user-2")
    /\ status_reversed s' "tx-transfer"
    /\ reports_own_balance (N := Binary64) s' "user-1" r.
Proof.
  destruct (proj2 (proj2
              (proj2 (transfer_reversal (N := Binary64)
                        "user-1" "tx-transfer" "tx-rev" 3 3 scenario_store
                        tx_transfer "wallet-1"
                        (mkWallet "wallet-1" 5050 "user-1")
                        (mkWallet "wallet-2" 5000 "user-2")
                        eq_refl eq_refl eq_refl eq_refl eq_refl eq_refl
                        eq_refl ltac:(discriminate) eq_refl eq_refl)
                 eq_refl))
              eq_refl eq_refl eq_refl)
    as (r & s' & H & (H1 & H2 & _ & _ & Hown) & Hst).
  exists r, s'. repeat split; assumption.
Defined.

(** C3 as worded fails at the bound of the column: Ana holds
    99999999.99 and Bruno, who holds the 50.00 she sent him, reverses
    that transfer. His balance covers the amount, yet the store refuses
    a balance of 100000049.99 for Ana: the reversal throws, no wallet
    changes and the transfer stays COMPLETED. The store is one the
    service produces. *)
Lemma transfer_reversal_out_of_range :
  reverseTransaction (N := Binary64) "user-2" "tx-transfer" "tx-rev" 4 4
    full_store
  = (Throw (ValueOutOfRange "balance"), full_store)
  /\ findTransactionById full_store "tx-transfer" = Some tx_transfer
  /\ tx_type tx_transfer = TRANSFER
  /\ tx_status tx_transfer = COMPLETED
  /\ isOwner full_store tx_transfer "user-2" = true
  /\ findWalletById full_store "wallet-2"
     = Some (mkWallet "wallet-2" 5000 "user-2")
  /\ num_ltb (JsNumber := Binary64) (b64_toNumber 5000)
       (b64_toNumber (tx_amount tx_transfer)) = false
  /\ snd (deposit (N := Binary64) "user-1"
            (mkDepositDto (N := Binary64) (b64_toNumber 9999994949) None)
            "tx-fill" 3 3 scenario_store)
     = full_store.
Proof. repeat split; reflexivity. Qed.

(** Ana reverses her deposit while it is still PENDING, on doubles. *)
Lemma reversal_of_uncompleted_witness :
  exists r s',
    reverseTransaction (N := Binary64) "user-1" "tx-dep" "tx-rev" 3 3
      pending_store
    = (Return r, s')
    /\ findTransactionById pending_store "tx-dep"
       = Some (set_status tx_dep PENDING)
    /\ findWalletById s' "wallet-1"
       = Some (mkWallet "wallet-1" (-5000) "user-1")
    /\ status_reversed s' "tx-dep".
Proof.
  destruct (proj1 (proj2
              (reversal_of_uncompleted (N := Binary64)
                 "user-1" "tx-dep" "tx-rev" 3 3 pending_store
                 (set_status tx_dep PENDING)
                 eq_refl eq_refl (or_introl eq_refl)))
              (mkWallet "wallet-1" 5050 "user-1") (-5000)
              eq_refl eq_refl eq_refl eq_refl)
    as (r & s' & H & (Hw & _) & Hst).
  exists r, s'. repeat split; assumption.
Defined.

(** The unit test: user-3 is no party to Ana's transfer. *)
Lemma reversal_forbidden_witness :
  reverseTransaction (N := ExactCents) "user-3" "tx-transfer" "tx-rev" 3 3
    scenario_store
  = (Throw (ForbiddenException
              "Você não tem permissão para reverter esta transação"),
     scenario_store).
Proof.
  apply (reversal_forbidden (N := ExactCents) "user-3" "tx-transfer"
           "tx-rev" 3 3 scenario_store tx_transfer eq_refl);
    discriminate.
Defined.

Example reversed_store_reached :
  snd (reverseTransaction (N := ExactCents) "user-1" "tx-transfer"
         "tx-rev" 3 3 scenario_store)
  = reversed_store.
Proof. reflexivity. Qed.

Lemma reversal_guards_witness :
  reverseTransaction (N := ExactCents) "user-1" "tx-transfer" "tx-new" 4 4
    reversed_store
  = (Throw (BadRequestException "Esta transação já foi revertida"),
     reversed_store)
  /\ reverseTransaction (N := ExactCents) "user-2" "tx-rev" "tx-new" 4 4
       reversed_store
     = (Throw (BadRequestException "Reversões não podem ser revertidas"),
        reversed_store).
Proof.
  split.
  - apply (proj1 (reversal_guards (N := ExactCents) "user-1" "tx-transfer"
                    "tx-new" 4 4 reversed_store
                    (set_status tx_transfer REVERSED)));
      reflexivity.
  - refine (proj1 (proj2 (reversal_guards (N := ExactCents) "user-2"
                            "tx-rev" "tx-new" 4 4 reversed_store _))
              eq_refl eq_refl eq_refl _).
    discriminate.
Defined.

(** C4 as worded fails for a user who is no party to the transaction:
    the ownership test comes first. Carla's attempts on the REVERSED
    transfer and on the REVERSAL row are both refused as Forbidden. *)
Lemma reversal_guards_follow_ownership :
  (exists t,
      findTransactionById reversed_store "tx-transfer" = Some t
      /\ tx_status t = REVERSED)
  /\ reverseTransaction (N := ExactCents) "user-3" "tx-transfer"
       "tx-new" 4 4 reversed_store
     = (Throw (ForbiddenException
                 "Você não tem permissão para reverter esta transação"),
        reversed_store)
  /\ (exists t,
         findTransactionById reversed_store "tx-rev" = Some t
         /\ tx_type t = REVERSAL)
  /\ reverseTransaction (N := ExactCents) "user-3" "tx-rev"
       "tx-new" 4 4 reversed_store
     = (Throw (ForbiddenException
                 "Você não tem permissão para reverter esta transação"),
        reversed_store).
Proof.
  split; [eexists; split; reflexivity|].
  split; [reflexivity|].
  split; [eexists; split; reflexivity|].
  reflexivity.
Qed.

Section History.

Context {N : JsNumber}.




End History.


(** Ana's history after the reversal, newest first. *)
Example getHistory_ana :
  match getHistory (N := ExactCents) "user-1" reversed_store with
  | Return es =>
      map (fun e => (h_id e, h_createdAt e, h_direction e, h_otherParty e))
        es
      = [("tx-rev", 3, received, None);
         ("tx-transfer", 2, sent,
          Some (Some "user-2", Some "Bruno Lima"));
         ("tx-dep", 1, received, None)]
  | Throw _ => False
  end.
Proof. reflexivity. Qed.




(** The end-to-end scenario on doubles: 0 + 100.5 = 100.5 and
    100.5 - 50 = 50.5, both exact, as the tests expect. *)
Example scenario_on_doubles :
  let s1 := deposit (N := Binary64) "user-1"
              (mkDepositDto (N := Binary64) (b64_toNumber 10050) None)
              "tx-dep" 1 1 empty_wallets in
  let s2 := transfer (N := Binary64) "user-1"
              (mkTransferDto (N := Binary64) "987.654.321-00"
                 (b64_of_Z 50) (Some "Transferência teste"))
              "tx-transfer" 2 2 (snd s1) in
  snd s2 = scenario_store
  /\ match fst s1, fst s2 with
     | Return r1, Return r2 =>
         b64_is_hundredths (dr_newBalance r1) 10050 = true
         /\ b64_is_hundredths (tr_newBalance r2) 5050 = true
     | _, _ => False
     end.
Proof. vm_compute. repeat split. Qed.
(* ================================================================== *)
(** ** CPF validation *)
(* ================================================================== *)

Lemma decimal_cases d :
  is_decimal d ->
  d = 0 \/ d = 1 \/ d = 2 \/ d = 3 \/ d = 4 \/ d = 5 \/ d = 6 \/ d = 7
  \/ d = 8 \/ d = 9.
Proof. unfold is_decimal. lia. Qed.

Lemma is_digit_digit_char d : is_decimal d -> is_digit (digit_char d) = true.
Proof.
  intros H. destruct (decimal_cases d H) as [-> | [-> | [-> | [-> | [-> |
    [-> | [-> | [-> | [-> | ->]]]]]]]]]; reflexivity.
Qed.

Lemma digit_value_digit_char d :
  is_decimal d -> digit_value (digit_char d) = d.
Proof.
  intros H. destruct (decimal_cases d H) as [-> | [-> | [-> | [-> | [-> |
    [-> | [-> | [-> | [-> | ->]]]]]]]]]; reflexivity.
Qed.

Lemma digit_value_decimal c : is_digit c = true -> is_decimal (digit_value c).
Proof.
  unfold is_digit, digit_value, is_decimal. intros H.
  apply andb_true_iff in H. destruct H as [H1 H2].
  apply Nat.leb_le in H1, H2. lia.
Qed.

Lemma digit_char_digit_value c :
  is_digit c = true -> digit_char (digit_value c) = c.
Proof.
  intros H. unfold is_digit in H.
  apply andb_true_iff in H. destruct H as [H1 H2].
  apply Nat.leb_le in H1, H2.
  unfold digit_char, digit_value.
  replace (48 + Z.to_nat (Z.of_nat (nat_of_ascii c) - 48))%nat
    with (nat_of_ascii c) by lia.
  apply ascii_nat_embedding.
Qed.

Lemma digit_char_eqb a b :
  is_decimal a -> is_decimal b ->
  Ascii.eqb (digit_char a) (digit_char b) = (a =? b).
Proof.
  intros Ha Hb.
  destruct (Z.eqb_spec a b) as [-> | Hne]; [apply Ascii.eqb_refl|].
  apply Ascii.eqb_neq. intros E.
  apply (f_equal digit_value) in E.
  rewrite !digit_value_digit_char in E by assumption. contradiction.
Qed.

Lemma check_digit_decimal sum : is_decimal (check_digit sum).
Proof.
  unfold check_digit, is_decimal.
  pose proof (Z.mod_pos_bound sum 11 ltac:(lia)).
  destruct (Z.leb_spec 10 (11 - sum mod 11)); lia.
Qed.

Lemma removeNonDigits_all_digits s : all_digits (removeNonDigits s) = true.
Proof.
  induction s as [|c s IH]; [reflexivity|].
  cbn [removeNonDigits]. destruct (is_digit c) eqn:E; [|exact IH].
  unfold all_digits in *. cbn [list_ascii_of_string forallb].
  now rewrite E, IH.
Qed.

Lemma removeNonDigits_fixes_digits s :
  all_digits s = true -> removeNonDigits s = s.
Proof.
  unfold all_digits. induction s as [|c s IH]; [reflexivity|].
  cbn [list_ascii_of_string forallb removeNonDigits].
  intros H. apply andb_true_iff in H. destruct H as [Hc Hs].
  now rewrite Hc, IH.
Qed.

Lemma removeNonDigits_idempotent s :
  removeNonDigits (removeNonDigits s) = removeNonDigits s.
Proof.
  apply removeNonDigits_fixes_digits, removeNonDigits_all_digits.
Qed.

Lemma validate_clean (cpf : string) :
  IsCPFConstraint.validate cpf
  = IsCPFConstraint.validate (removeNonDigits cpf).
Proof.
  unfold IsCPFConstraint.validate.
  rewrite removeNonDigits_idempotent.
  destruct cpf as [|c rest]; [reflexivity|].
  change (falsy (String c rest)) with false. cbv iota.
  destruct (removeNonDigits (String c rest)) as [|c' rest'];
    reflexivity.
Qed.

(** X1. The validator looks at the digits only: two strings with the
    same digits, whatever else they hold, are both accepted or both
    refused; so a CPF is accepted with its punctuation exactly when its
    bare digits are. *)
Theorem validate_ignores_formatting (cpf : string) :
  IsCPFConstraint.validate cpf
  = IsCPFConstraint.validate (removeNonDigits cpf)
  /\ forall other,
       removeNonDigits other = removeNonDigits cpf ->
       IsCPFConstraint.validate other = IsCPFConstraint.validate cpf.
Proof.
  split; [apply validate_clean|].
  intros other E.
  now rewrite (validate_clean other), (validate_clean cpf), E.
Qed.

Lemma all_digits_join ds :
  Forall is_decimal ds -> all_digits (join_digits ds) = true.
Proof.
  unfold all_digits. induction 1 as [|d ds Hd _ IH]; [reflexivity|].
  cbn [join_digits list_ascii_of_string forallb].
  now rewrite (is_digit_digit_char d Hd), IH.
Qed.

Lemma length_join ds : String.length (join_digits ds) = List.length ds.
Proof. induction ds as [|d ds IH]; [reflexivity|]. simpl. now rewrite IH. Qed.

Lemma same_chars_join d ds :
  is_decimal d -> Forall is_decimal ds ->
  forallb (Ascii.eqb (digit_char d)) (list_ascii_of_string (join_digits ds))
  = forallb (Z.eqb d) ds.
Proof.
  intros Hd. induction 1 as [|e ds He _ IH]; [reflexivity|].
  cbn [join_digits list_ascii_of_string forallb].
  now rewrite (digit_char_eqb d e Hd He), IH.
Qed.

(** What the validator computes on eleven digits: they are not all the
    same, and the last two are the check digits of those before. *)
Lemma validate_digits ds :
  List.length ds = 11%nat ->
  Forall is_decimal ds ->
  IsCPFConstraint.validate (join_digits ds)
  = negb (forallb (Z.eqb (hd 0 ds)) (tl ds))
    && (check_digit (digits_sum (firstn 9 ds) 10) =? nth 9 ds 0)
    && (check_digit (digits_sum (firstn 10 ds) 11) =? nth 10 ds 0).
Proof.
  intros Hlen Hds.
  destruct ds as [|d0 [|d1 [|d2 [|d3 [|d4 [|d5 [|d6 [|d7 [|d8 [|d9
    [|d10 [|]]]]]]]]]]]]; try discriminate Hlen.
  unfold IsCPFConstraint.validate.
  rewrite (removeNonDigits_fixes_digits _ (all_digits_join _ Hds)).
  assert (H0 : is_decimal d0) by now inversion Hds.
  assert (Htl : Forall is_decimal [d1; d2; d3; d4; d5; d6; d7; d8; d9; d10])
    by now inversion Hds.
  change (falsy (join_digits [d0; d1; d2; d3; d4; d5; d6; d7; d8; d9; d10]))
    with false.
  rewrite length_join. cbn [List.length Nat.eqb negb].
  cbv iota.
  unfold all_same_digit.
  cbn [join_digits]. fold (join_digits [d1; d2; d3; d4; d5; d6; d7; d8; d9; d10]).
  rewrite (is_digit_digit_char d0 H0), length_join.
  rewrite (same_chars_join d0 _ H0 Htl).
  cbn [List.length Nat.eqb andb hd tl].
  destruct (forallb (Z.eqb d0) [d1; d2; d3; d4; d5; d6; d7; d8; d9; d10]);
    [reflexivity|].
  cbn [negb andb].
  repeat match goal with
         | H : Forall _ (_ :: _) |- _ => inversion H; subst; clear H
         end.
  unfold weighted_sum, digits_sum, parseInt_charAt.
  cbn [join_digits firstn List.length seq fold_left String.get nth].
  rewrite !digit_value_digit_char by assumption.
  destruct (_ =? d9); [|reflexivity].
  cbn [negb andb].
  now destruct (_ =? d10).
Qed.

Lemma join_digit_values s :
  all_digits s = true ->
  join_digits (map digit_value (list_ascii_of_string s)) = s
  /\ Forall is_decimal (map digit_value (list_ascii_of_string s)).
Proof.
  unfold all_digits. induction s as [|c s IH]; [now split|].
  cbn [list_ascii_of_string forallb map join_digits].
  intros H. apply andb_true_iff in H. destruct H as [Hc Hs].
  destruct (IH Hs) as [E F]. split.
  - now rewrite (digit_char_digit_value c Hc), E.
  - constructor; [now apply digit_value_decimal | exact F].
Qed.

Lemma length_chars s :
  List.length (list_ascii_of_string s) = String.length s.
Proof. induction s as [|c s IH]; [reflexivity|]. simpl. now rewrite IH. Qed.

Lemma validate_eleven cpf :
  IsCPFConstraint.validate cpf = true ->
  String.length (removeNonDigits cpf) = 11%nat.
Proof.
  unfold IsCPFConstraint.validate.
  destruct (falsy cpf); [discriminate|].
  destruct (Nat.eqb_spec (String.length (removeNonDigits cpf)) 11);
    [trivial | discriminate].
Qed.

Lemma validate_true_digits (cpf : string) :
  IsCPFConstraint.validate cpf = true ->
  exists ds,
    List.length ds = 11%nat
    /\ Forall is_decimal ds
    /\ removeNonDigits cpf = join_digits ds
    /\ forallb (Z.eqb (hd 0 ds)) (tl ds) = false
    /\ nth 9 ds 0 = check_digit (digits_sum (firstn 9 ds) 10)
    /\ nth 10 ds 0 = check_digit (digits_sum (firstn 10 ds) 11).
Proof.
  intros H. pose proof (validate_eleven cpf H) as Hlen.
  rewrite validate_clean in H.
  destruct (join_digit_values _ (removeNonDigits_all_digits cpf))
    as [E F].
  set (ds := map digit_value (list_ascii_of_string (removeNonDigits cpf)))
    in *.
  assert (Hds : List.length ds = 11%nat).
  { unfold ds. now rewrite length_map, length_chars. }
  exists ds. rewrite <- E in H.
  rewrite (validate_digits ds Hds F) in H.
  apply andb_true_iff in H. destruct H as [H H10].
  apply andb_true_iff in H. destruct H as [Hsame H9].
  apply negb_true_iff in Hsame. apply Z.eqb_eq in H9, H10.
  repeat split; try assumption; now symmetry.
Qed.

(** X2. The validator accepts exactly the strings whose digits are
    eleven, not all the same, with the tenth digit the check digit of
    the first nine (weights 10 down to 2) and the eleventh the check
    digit of the first ten (weights 11 down to 2). *)
Theorem validate_spec (cpf : string) :
  IsCPFConstraint.validate cpf = true
  <-> exists ds,
        List.length ds = 11%nat
        /\ Forall is_decimal ds
        /\ removeNonDigits cpf = join_digits ds
        /\ forallb (Z.eqb (hd 0 ds)) (tl ds) = false
        /\ nth 9 ds 0 = check_digit (digits_sum (firstn 9 ds) 10)
        /\ nth 10 ds 0 = check_digit (digits_sum (firstn 10 ds) 11).
Proof.
  split; [apply validate_true_digits|].
  intros (ds & Hlen & F & E & Hsame & H9 & H10).
  rewrite validate_clean, E, (validate_digits ds Hlen F).
  rewrite Hsame, <- H9, <- H10, !Z.eqb_refl. reflexivity.
Qed.

Lemma removeNonDigits_digit c rest :
  is_digit c = true ->
  removeNonDigits (String c rest) = String c (removeNonDigits rest).
Proof. intros H. cbn [removeNonDigits]. now rewrite H. Qed.

Lemma removeNonDigits_other c rest :
  is_digit c = false ->
  removeNonDigits (String c rest) = removeNonDigits rest.
Proof. intros H. cbn [removeNonDigits]. now rewrite H. Qed.

(** Eleven digits written [ddd.ddd.ddd-dd] and cleaned again. *)
Lemma dotted_clean s :
  all_digits s = true ->
  String.length s = 11%nat ->
  removeNonDigits
    (slice 0 3 s ++ "." ++ slice 3 6 s ++ "." ++ slice 6 9 s ++ "-"
       ++ slice 9 11 s)
  = s.
Proof.
  intros Hd Hlen.
  destruct s as [|c0 [|c1 [|c2 [|c3 [|c4 [|c5 [|c6 [|c7 [|c8 [|c9
    [|c10 [|]]]]]]]]]]]]; try discriminate Hlen.
  unfold all_digits in Hd. cbn [list_ascii_of_string forallb] in Hd.
  repeat match type of Hd with
         | (_ && _) = true =>
             let H := fresh "Hc" in
             apply andb_true_iff in Hd; destruct Hd as [H Hd]
         end.
  unfold slice. cbn [substring Nat.sub String.append].
  repeat first
    [ rewrite removeNonDigits_digit by assumption
    | rewrite removeNonDigits_other by reflexivity ].
  reflexivity.
Qed.

Lemma nine_equal_check_digits d :
  is_decimal d ->
  check_digit (digits_sum [d; d; d; d; d; d; d; d; d] 10) = d
  /\ check_digit (digits_sum [d; d; d; d; d; d; d; d; d; d] 11) = d.
Proof.
  intros H. destruct (decimal_cases d H) as [-> | [-> | [-> | [-> | [-> |
    [-> | [-> | [-> | [-> | ->]]]]]]]]]; split; reflexivity.
Qed.

(** X3. The seed's generator and the validator agree: the CPF built
    from nine random digits is accepted, unless the nine digits are all
    the same (then all eleven are, and the validator refuses it). *)
Theorem generateValidCPF_validates (random : list Z) :
  List.length random = 9%nat ->
  Forall is_decimal random ->
  IsCPFConstraint.validate (generateValidCPF random)
  = negb (forallb (Z.eqb (hd 0 random)) (tl random)).
Proof.
  intros Hlen Hds.
  destruct random as [|d0 [|d1 [|d2 [|d3 [|d4 [|d5 [|d6 [|d7 [|d8 [|]]]]]]]]]];
    try discriminate Hlen.
  remember (check_digit (digits_sum [d0; d1; d2; d3; d4; d5; d6; d7; d8] 10))
    as c1 eqn:E1.
  remember (check_digit
              (digits_sum [d0; d1; d2; d3; d4; d5; d6; d7; d8; c1] 11))
    as c2 eqn:E2.
  assert (Hall : Forall is_decimal
                   ([d0; d1; d2; d3; d4; d5; d6; d7; d8] ++ [c1; c2])).
  { apply Forall_app. split; [exact Hds|].
    subst c1 c2. repeat constructor; apply check_digit_decimal. }
  cbn [app] in Hall.
  assert (Hclean : removeNonDigits
                     (generateValidCPF [d0; d1; d2; d3; d4; d5; d6; d7; d8])
                   = join_digits
                       [d0; d1; d2; d3; d4; d5; d6; d7; d8; c1; c2]).
  { unfold generateValidCPF. cbv zeta. cbn [app].
    rewrite <- E1. cbn [app]. rewrite <- E2.
    apply dotted_clean; [now apply all_digits_join|].
    now rewrite length_join. }
  rewrite validate_clean, Hclean.
  rewrite validate_digits by (reflexivity || exact Hall).
  cbn [firstn nth hd tl].
  rewrite <- E1, <- E2, !Z.eqb_refl, !andb_true_r.
  f_equal.
  change [d1; d2; d3; d4; d5; d6; d7; d8; c1; c2]
    with ([d1; d2; d3; d4; d5; d6; d7; d8] ++ [c1; c2])%list.
  rewrite forallb_app.
  destruct (forallb (Z.eqb d0) [d1; d2; d3; d4; d5; d6; d7; d8]) eqn:E;
    [|reflexivity].
  assert (Hi : forall x, In x [d1; d2; d3; d4; d5; d6; d7; d8] -> x = d0).
  { intros x Hx. symmetry. apply Z.eqb_eq.
    exact (proj1 (forallb_forall _ _) E x Hx). }
  rewrite (Hi d1), (Hi d2), (Hi d3), (Hi d4), (Hi d5), (Hi d6), (Hi d7),
    (Hi d8) in E1 by (simpl; tauto).
  assert (H0 : is_decimal d0) by now inversion Hds.
  destruct (nine_equal_check_digits d0 H0) as [F1 F2].
  rewrite F1 in E1. subst c1. rewrite (Hi d1), (Hi d2), (Hi d3), (Hi d4),
    (Hi d5), (Hi d6), (Hi d7), (Hi d8) in E2 by (simpl; tauto).
  rewrite F2 in E2. subst c2.
  cbn [forallb]. now rewrite Z.eqb_refl.
Qed.

Lemma generateValidCPF_validates_witness :
  IsCPFConstraint.validate (generateValidCPF [1; 1; 1; 4; 4; 4; 7; 7; 7])
  = true
  /\ generateValidCPF [1; 1; 1; 4; 4; 4; 7; 7; 7] = "111.444.777-35".
Proof.
  split; [|reflexivity].
  rewrite (generateValidCPF_validates [1; 1; 1; 4; 4; 4; 7; 7; 7] eq_refl).
  - reflexivity.
  - repeat constructor; unfold is_decimal; lia.
Defined.

(** X4. Writing eleven digits as [ddd.ddd.ddd-dd] and cleaning them
    again gives the digits back, so the formatted CPF is valid exactly
    when the bare one is. *)
Theorem formatCpf_round_trip (cpf : string) :
  String.length (sanitizeCpf cpf) = 11%nat ->
  sanitizeCpf (formatCpf cpf) = sanitizeCpf cpf
  /\ IsCPFConstraint.validate (formatCpf cpf)
     = IsCPFConstraint.validate cpf.
Proof.
  intros Hlen.
  assert (E : sanitizeCpf (formatCpf cpf) = sanitizeCpf cpf).
  { unfold formatCpf. cbv zeta. unfold sanitizeCpf at 1.
    apply dotted_clean; [apply removeNonDigits_all_digits | exact Hlen]. }
  split; [exact E|].
  rewrite (validate_clean (formatCpf cpf)).
  rewrite (validate_clean cpf).
  unfold sanitizeCpf in E. now rewrite E.
Qed.

Lemma formatCpf_round_trip_witness :
  sanitizeCpf (formatCpf "11144477735") = "11144477735"
  /\ IsCPFConstraint.validate (formatCpf "11144477735") = true.
Proof.
  exact (formatCpf_round_trip "11144477735" eq_refl).
Defined.

Lemma digit_char_injective a b :
  is_decimal a -> is_decimal b -> digit_char a = digit_char b -> a = b.
Proof.
  intros Ha Hb E. apply (f_equal digit_value) in E.
  now rewrite !digit_value_digit_char in E.
Qed.

(** X5. The first nine digits of a valid CPF determine the other two:
    two accepted CPFs that agree on their first nine digits have the
    same digits. *)
Theorem check_digits_determined (a b : string) :
  IsCPFConstraint.validate a = true ->
  IsCPFConstraint.validate b = true ->
  slice 0 9 (removeNonDigits a) = slice 0 9 (removeNonDigits b) ->
  removeNonDigits a = removeNonDigits b.
Proof.
  intros Ha Hb.
  apply validate_true_digits in Ha, Hb.
  destruct Ha as (ds & Hlen & F & -> & _ & H9 & H10).
  destruct Hb as (es & Hlen' & F' & -> & _ & H9' & H10').
  destruct ds as [|d0 [|d1 [|d2 [|d3 [|d4 [|d5 [|d6 [|d7 [|d8 [|d9
    [|d10 [|]]]]]]]]]]]]; try discriminate Hlen.
  destruct es as [|e0 [|e1 [|e2 [|e3 [|e4 [|e5 [|e6 [|e7 [|e8 [|e9
    [|e10 [|]]]]]]]]]]]]; try discriminate Hlen'.
  unfold slice. cbn [join_digits substring Nat.sub].
  intros E.
  repeat match goal with
         | H : Forall _ (_ :: _) |- _ => inversion H; subst; clear H
         end.
  injection E as E0 E1 E2 E3 E4 E5 E6 E7 E8.
  apply digit_char_injective in E0, E1, E2, E3, E4, E5, E6, E7, E8;
    try assumption.
  cbn [nth firstn] in H9, H10, H9', H10'.
  subst e0 e1 e2 e3 e4 e5 e6 e7 e8.
  assert (E9 : d9 = e9) by congruence.
  assert (E10 : d10 = e10) by congruence.
  now rewrite E9, E10.
Qed.

Lemma check_digits_determined_witness :
  removeNonDigits "111.444.777-35" = removeNonDigits "11144477735".
Proof.
  exact (check_digits_determined "111.444.777-35" "11144477735"
           eq_refl eq_refl eq_refl).
Defined.

(* ================================================================== *)
(** ** The pre-checks of a transfer *)
(* ================================================================== *)

Section TransferPrechecks.

Context {N : JsNumber}.

Variables (userId : string) (dto : TransferDto) (newId : string).
Variables (createdAt now : Z).
Variable s : Store.

(** X6. A transfer whose recipient CPF, cleaned of punctuation, is the
    sender's own CPF is refused as a BadRequest whatever the amount, the
    description and the wallets are; nothing is written. *)
Theorem transfer_to_self_rejected (fromUser : User) :
  findUserById s userId = Some fromUser ->
  removeNonDigits (transfer_recipientCpf dto) = user_cpf fromUser ->
  transfer userId dto newId createdAt now s
  = (Throw (BadRequestException "Não é possível transferir para si mesmo"),
     s).
Proof.
  intros Hu Hcpf.
  unfold transfer, transfer_interleaved, transfer_prechecks.
  now rewrite Hu, Hcpf, String.eqb_refl.
Qed.

(** X7. The parties of a transfer must exist: without a user row for the
    sender the transfer is NotFound before the recipient is looked at;
    with a sender, a cleaned CPF that belongs to nobody, or to a user
    without a wallet, is NotFound as recipient. Nothing is written. *)
Theorem transfer_party_not_found :
  (findUserById s userId = None ->
   transfer userId dto newId createdAt now s
   = (Throw (NotFoundException "Usuário remetente não encontrado"), s))
  /\ (forall fromUser,
         findUserById s userId = Some fromUser ->
         removeNonDigits (transfer_recipientCpf dto) <> user_cpf fromUser ->
         (findUserByCpf s (removeNonDigits (transfer_recipientCpf dto))
          = None
          \/ exists toUser,
               findUserByCpf s (removeNonDigits (transfer_recipientCpf dto))
               = Some toUser
               /\ findWalletByUserId s (user_id toUser) = None) ->
         transfer userId dto newId createdAt now s
         = (Throw (NotFoundException "Destinatário não encontrado"), s)).
Proof.
  split.
  - intros Hu.
    unfold transfer, transfer_interleaved, transfer_prechecks.
    now rewrite Hu.
  - intros fromUser Hu Hne Hto.
    unfold transfer, transfer_interleaved, transfer_prechecks.
    rewrite Hu.
    assert (E : String.eqb (user_cpf fromUser)
                  (removeNonDigits (transfer_recipientCpf dto)) = false).
    { apply String.eqb_neq. congruence. }
    rewrite E.
    destruct Hto as [Hnone | (toUser & Hsome & Hw)].
    + now rewrite Hnone.
    + now rewrite Hsome, Hw.
Qed.

End TransferPrechecks.

(** Ana tries to send money to her own CPF, written with punctuation. *)
Lemma transfer_to_self_rejected_witness :
  transfer (N := ExactCents) "user-1"
    (mkTransferDto (N := ExactCents) "123.456.789-00" 1000 None)
    "tx-transfer" 2 2 seed_store
  = (Throw (BadRequestException "Não é possível transferir para si mesmo"),
     seed_store).
Proof.
  exact (transfer_to_self_rejected (N := ExactCents) "user-1"
           (mkTransferDto (N := ExactCents) "123.456.789-00" 1000 None)
           "tx-transfer" 2 2 seed_store ana eq_refl eq_refl).
Defined.

(** Ana sends to a CPF nobody has. *)
Lemma transfer_party_not_found_witness :
  transfer (N := ExactCents) "user-1"
    (mkTransferDto (N := ExactCents) "529.982.247-25" 1000 None)
    "tx-transfer" 2 2 seed_store
  = (Throw (NotFoundException "Destinatário não encontrado"), seed_store).
Proof.
  apply (proj2 (transfer_party_not_found (N := ExactCents) "user-1"
                  (mkTransferDto (N := ExactCents) "529.982.247-25" 1000
                     None)
                  "tx-transfer" 2 2 seed_store) ana eq_refl).
  - discriminate.
  - left. reflexivity.
Defined.

(* ================================================================== *)
(** ** What no operation does *)
(* ================================================================== *)

Lemma row_kept_refl t : row_kept t t.
Proof. now left. Qed.

Lemma row_kept_trans t t' t'' :
  row_kept t t' -> row_kept t' t'' -> row_kept t t''.
Proof.
  unfold row_kept. intros [-> | ->] [-> | ->]; auto.
Qed.

Lemma Forall2_row_kept_refl ts : Forall2 row_kept ts ts.
Proof. induction ts; constructor; auto using row_kept_refl. Qed.

Lemma Forall2_row_kept_trans ts ts' ts'' :
  Forall2 row_kept ts ts' -> Forall2 row_kept ts' ts'' ->
  Forall2 row_kept ts ts''.
Proof.
  intros H. revert ts''.
  induction H as [|t t' ts ts' Ht _ IH]; intros ts'' H'.
  - inversion H'. constructor.
  - inversion H' as [|? t'' ? ts0 Ht' Hts']; subst.
    constructor; [exact (row_kept_trans _ _ _ Ht Ht') | now apply IH].
Qed.

Lemma ledger_grows_refl ts : ledger_grows ts ts.
Proof.
  exists ts, []. split; [now rewrite app_nil_r|].
  apply Forall2_row_kept_refl.
Qed.

Lemma ledger_grows_trans ts ts' ts'' :
  ledger_grows ts ts' -> ledger_grows ts' ts'' -> ledger_grows ts ts''.
Proof.
  intros (k & a & -> & Hk) (k' & a' & -> & Hk').
  apply Forall2_app_inv_l in Hk'.
  destruct Hk' as (k1 & k2 & H1 & H2 & ->).
  exists k1, (k2 ++ a')%list. split; [now rewrite app_assoc|].
  exact (Forall2_row_kept_trans _ _ _ Hk H1).
Qed.

Lemma store_evolves_refl s : store_evolves s s.
Proof. repeat split. apply ledger_grows_refl. Qed.

Lemma store_evolves_trans s s' s'' :
  store_evolves s s' -> store_evolves s' s'' -> store_evolves s s''.
Proof.
  intros (U & I & O & L) (U' & I' & O' & L').
  repeat split; try congruence.
  exact (ledger_grows_trans _ _ _ L L').
Qed.

Lemma tx_evolves_ret {A} (a : A) : tx_evolves (ret a).
Proof.
  intros s a' s' H. injection H as _ <-. apply store_evolves_refl.
Qed.

Lemma tx_evolves_throw {A} e : tx_evolves (@throw A e).
Proof. intros s a s' H. discriminate H. Qed.

Lemma tx_evolves_bind {A B} (m : Tx A) (k : A -> Tx B) :
  tx_evolves m -> (forall a, tx_evolves (k a)) -> tx_evolves (bind m k).
Proof.
  intros Hm Hk s b s'' H. unfold bind in H.
  destruct (m s) as [[a s']|e] eqn:E; [|discriminate].
  exact (store_evolves_trans _ _ _ (Hm _ _ _ E) (Hk a _ _ _ H)).
Qed.

Lemma tx_evolves_findByUserId u : tx_evolves (tx_wallet_findByUserId u).
Proof.
  intros s a s' H. injection H as _ <-. apply store_evolves_refl.
Qed.

Lemma tx_evolves_findById id : tx_evolves (tx_wallet_findById id).
Proof.
  intros s a s' H. injection H as _ <-. apply store_evolves_refl.
Qed.

Lemma tx_evolves_wallet_update {N : JsNumber} id data :
  tx_evolves (tx_wallet_update id data).
Proof.
  intros s a s' H. unfold tx_wallet_update in H.
  destruct (findWalletById s id) as [found|]; [|discriminate].
  destruct (new_balance data (wallet_balance found)) as [b|];
    [|discriminate].
  clear found.
  injection H as _ <-. unfold store_evolves, updateWalletRows.
  cbn [users wallets transactions]. rewrite !map_map.
  repeat split.
  - apply map_ext. intros x. apply updateWalletRow_id.
  - apply map_ext. intros x. apply updateWalletRow_userId.
  - apply ledger_grows_refl.
Qed.

Lemma tx_evolves_mark_reversed id :
  tx_evolves (tx_transaction_updateStatus id REVERSED).
Proof.
  intros s a s' H. unfold tx_transaction_updateStatus in H.
  destruct (findTransactionById s id) as [found|]; [|discriminate].
  clear found.
  injection H as _ <-. repeat split. cbn [transactions].
  exists (updateStatusRows id REVERSED (transactions s)), [].
  split; [now rewrite app_nil_r|].
  unfold updateStatusRows.
  induction (transactions s) as [|x xs IH]; constructor; [|exact IH].
  unfold row_kept, updateStatusRow. destruct (String.eqb _ _); auto.
Qed.

Lemma tx_evolves_amount_column {N : JsNumber} amount :
  tx_evolves (tx_amount_column amount).
Proof.
  intros s a s' H. unfold tx_amount_column in H.
  destruct (column_value "amount" (numeral amount)); [|discriminate].
  injection H as _ <-. apply store_evolves_refl.
Qed.

Lemma tx_evolves_create row : tx_evolves (tx_transaction_create row).
Proof.
  intros s a s' H. injection H as _ <-. repeat split. cbn [transactions].
  exists (transactions s), [row]. split; [reflexivity|].
  apply Forall2_row_kept_refl.
Qed.

Ltac evolves :=
  repeat first
    [ apply tx_evolves_ret
    | apply tx_evolves_throw
    | apply tx_evolves_findByUserId
    | apply tx_evolves_findById
    | apply tx_evolves_wallet_update
    | apply tx_evolves_amount_column
    | apply tx_evolves_mark_reversed
    | apply tx_evolves_create
    | apply tx_evolves_bind; [|intros ?]
    | match goal with
      | |- tx_evolves (match ?x with _ => _ end) => destruct x
      end ].

Section Evolution.

Context {N : JsNumber}.

Lemma deposit_unit_evolves userId dto newId createdAt now :
  tx_evolves (deposit_unit userId dto newId createdAt now).
Proof. unfold deposit_unit. cbv zeta. evolves. Qed.

Lemma transfer_unit_evolves userId toUser dto newId createdAt now :
  tx_evolves (transfer_unit userId toUser dto newId createdAt now).
Proof. unfold transfer_unit. cbv zeta. evolves. Qed.

Lemma reverse_unit_evolves userId transactionId t newId createdAt now :
  tx_evolves (reverse_unit userId transactionId t newId createdAt now).
Proof. unfold reverse_unit, reverse_balances. cbv zeta. evolves. Qed.

Lemma prisma_transaction_evolves {A} (fn : Tx A) s :
  tx_evolves fn -> store_evolves s (snd (prisma_transaction fn s)).
Proof.
  intros H. unfold prisma_transaction.
  destruct (fn s) as [[a s']|e] eqn:E; cbn [snd].
  - exact (H _ _ _ E).
  - apply store_evolves_refl.
Qed.

(** Whatever they are given and however they end, the three operations
    leave an evolved store. *)
Lemma operations_evolve userId newId createdAt now s :
  (forall dto, store_evolves s (snd (deposit userId dto newId createdAt now s)))
  /\ (forall pre dto,
         store_evolves s
           (snd (transfer_interleaved pre userId dto newId createdAt now s)))
  /\ (forall pre transactionId,
         store_evolves s
           (snd (reverseTransaction_interleaved pre userId transactionId
                   newId createdAt now s))).
Proof.
  split; [|split].
  - intros dto. apply prisma_transaction_evolves, deposit_unit_evolves.
  - intros pre dto. unfold transfer_interleaved.
    destruct (transfer_prechecks userId dto pre).
    + apply prisma_transaction_evolves, transfer_unit_evolves.
    + apply store_evolves_refl.
  - intros pre transactionId. unfold reverseTransaction_interleaved.
    destruct (findTransactionById pre transactionId) as [t|];
      [|apply store_evolves_refl].
    destruct (negb _); [apply store_evolves_refl|].
    destruct (TransactionStatus_eqb _ _); [apply store_evolves_refl|].
    destruct (TransactionType_eqb _ _); [apply store_evolves_refl|].
    apply prisma_transaction_evolves, reverse_unit_evolves.
Qed.

End Evolution.

Section NoPartialWrites.

Context {N : JsNumber}.

Variables (userId newId : string) (createdAt now : Z) (s : Store).

(** X9. No operation creates, removes, renames or re-owns a wallet, and
    none touches the users: after any deposit, transfer or reversal,
    however it ends, the users table is the same and the wallets table
    has the same ids and the same owners, row by row. Balances are all
    that can change there. *)
Theorem operations_keep_wallets_and_users :
  let kept (s' : Store) :=
    users s' = users s
    /\ map wallet_id (wallets s') = map wallet_id (wallets s)
    /\ map wallet_userId (wallets s') = map wallet_userId (wallets s) in
  (forall dto, kept (snd (deposit userId dto newId createdAt now s)))
  /\ (forall dto, kept (snd (transfer userId dto newId createdAt now s)))
  /\ (forall transactionId,
         kept (snd (reverseTransaction userId transactionId newId createdAt now s))).
Proof.
  destruct (operations_evolve userId newId createdAt now s) as (Hd & Ht & Hr).
  cbv zeta. split; [|split].
  - intros dto. destruct (Hd dto) as (U & I & O & _). auto.
  - intros dto. destruct (Ht s dto) as (U & I & O & _). auto.
  - intros transactionId. destruct (Hr s transactionId) as (U & I & O & _).
    auto.
Qed.

(** X10. The ledger is append-only: after any deposit, transfer or
    reversal, however it ends, every row that was there is still there,
    in place, with every field as it was except that its status may have
    become REVERSED; new rows come after the old ones. No row is ever
    deleted, reordered or rewritten. *)
Theorem ledger_is_append_only :
  (forall dto,
      ledger_grows (transactions s)
        (transactions (snd (deposit userId dto newId createdAt now s))))
  /\ (forall dto,
         ledger_grows (transactions s)
           (transactions (snd (transfer userId dto newId createdAt now s))))
  /\ (forall transactionId,
         ledger_grows (transactions s)
           (transactions
              (snd (reverseTransaction userId transactionId newId createdAt now s)))).
Proof.
  destruct (operations_evolve userId newId createdAt now s) as (Hd & Ht & Hr).
  split; [|split].
  - intros dto. apply (Hd dto).
  - intros dto. apply (Ht s dto).
  - intros transactionId. apply (Hr s transactionId).
Qed.

End NoPartialWrites.


(* ================================================================== *)
(** ** The columns stay in range *)
(* ================================================================== *)

Lemma tx_in_range_ret {A} (a : A) (Q : A -> Prop) :
  Q a -> tx_in_range (ret a) Q.
Proof. intros Ha s a' s' Hs H. injection H as <- <-. now split. Qed.

Lemma tx_in_range_throw {A} e (Q : A -> Prop) :
  tx_in_range (@throw A e) Q.
Proof. intros s a s' _ H. discriminate H. Qed.

Lemma tx_in_range_bind {A B} (m : Tx A) (k : A -> Tx B) Q R :
  tx_in_range m Q -> (forall a, Q a -> tx_in_range (k a) R) ->
  tx_in_range (bind m k) R.
Proof.
  intros Hm Hk s b s'' Hs H. unfold bind in H.
  destruct (m s) as [[a s']|e] eqn:E; [|discriminate].
  destruct (Hm _ _ _ Hs E) as [Hs' Ha].
  exact (Hk a Ha _ _ _ Hs' H).
Qed.

Lemma tx_in_range_findByUserId u :
  tx_in_range (tx_wallet_findByUserId u) (fun _ => True).
Proof. intros s a s' Hs H. injection H as _ <-. now split. Qed.

Lemma tx_in_range_findById id :
  tx_in_range (tx_wallet_findById id) (fun _ => True).
Proof. intros s a s' Hs H. injection H as _ <-. now split. Qed.

Lemma tx_in_range_wallet_update {N : JsNumber} id data :
  tx_in_range (tx_wallet_update id data) (fun _ => True).
Proof.
  intros s a s' [Hw Ht] H. unfold tx_wallet_update in H.
  destruct (findWalletById s id) as [found|]; [|discriminate].
  destruct (new_balance data (wallet_balance found)) as [b|] eqn:Hb;
    [|discriminate].
  apply new_balance_fits in Hb.
  injection H as _ <-. split; [|exact I]. split; [|exact Ht].
  cbn [wallets]. unfold updateWalletRows. apply Forall_map.
  eapply Forall_impl; [|exact Hw].
  intros w Hfits. unfold updateWalletRow.
  now destruct (String.eqb (wallet_id w) id).
Qed.

Lemma tx_in_range_updateStatus id st :
  tx_in_range (tx_transaction_updateStatus id st) (fun _ => True).
Proof.
  intros s a s' [Hw Ht] H. unfold tx_transaction_updateStatus in H.
  destruct (findTransactionById s id) as [found|]; [|discriminate].
  clear found.
  injection H as _ <-. split; [|exact I]. split; [exact Hw|].
  cbn [transactions]. unfold updateStatusRows. apply Forall_map.
  eapply Forall_impl; [|exact Ht].
  intros x Hfits. unfold updateStatusRow.
  now destruct (String.eqb (tx_id x) id).
Qed.

Lemma tx_in_range_amount_column {N : JsNumber} amount :
  tx_in_range (tx_amount_column amount) (fun a => fits_column a = true).
Proof.
  intros s a s' Hs H. unfold tx_amount_column in H.
  destruct (column_value "amount" (numeral amount)) as [a0|] eqn:Ha;
    [|discriminate].
  injection H as <- <-. split; [exact Hs|].
  exact (proj2 (column_value_returned _ _ _ Ha)).
Qed.

Lemma tx_in_range_create row :
  fits_column (tx_amount row) = true ->
  tx_in_range (tx_transaction_create row) (fun _ => True).
Proof.
  intros Hrow s a s' [Hw Ht] H. injection H as _ <-.
  split; [|exact I]. split; [exact Hw|].
  cbn [transactions]. apply Forall_app. split; [exact Ht|].
  now constructor.
Qed.

Ltac in_range :=
  repeat first
    [ apply tx_in_range_ret; exact I
    | apply tx_in_range_throw
    | apply tx_in_range_wallet_update
    | apply tx_in_range_updateStatus
    | apply tx_in_range_create; assumption
    | eapply tx_in_range_bind;
        [ first [ apply tx_in_range_findByUserId
                | apply tx_in_range_findById
                | apply tx_in_range_wallet_update
                | apply tx_in_range_updateStatus
                | apply tx_in_range_amount_column
                | apply tx_in_range_create; assumption ]
        | intros ? ? ]
    | match goal with
      | |- tx_in_range (match ?x with _ => _ end) _ => destruct x
      end ].

Section ColumnsInRange.

Context {N : JsNumber}.

Lemma deposit_unit_in_range userId dto newId createdAt now :
  tx_in_range (deposit_unit userId dto newId createdAt now)
    (fun _ => True).
Proof. unfold deposit_unit. cbv zeta. in_range. Qed.

Lemma transfer_unit_in_range userId toUser dto newId createdAt now :
  tx_in_range (transfer_unit userId toUser dto newId createdAt now)
    (fun _ => True).
Proof. unfold transfer_unit. cbv zeta. in_range. Qed.

Lemma reverse_balances_in_range t amount :
  tx_in_range (reverse_balances t amount) (fun _ => True).
Proof. unfold reverse_balances. in_range. Qed.

Lemma reverse_unit_in_range userId transactionId t newId createdAt now :
  fits_column (tx_amount t) = true ->
  tx_in_range (reverse_unit userId transactionId t newId createdAt now)
    (fun _ => True).
Proof.
  intros Ht. unfold reverse_unit. cbv zeta.
  eapply tx_in_range_bind; [apply reverse_balances_in_range|].
  intros ? ?. in_range.
Qed.

Lemma prisma_transaction_in_range {A} (fn : Tx A) Q s :
  tx_in_range fn Q -> store_in_range s ->
  store_in_range (snd (prisma_transaction fn s)).
Proof.
  intros H Hs. unfold prisma_transaction.
  destruct (fn s) as [[a s']|e] eqn:E; cbn [snd].
  - exact (proj1 (H _ _ _ Hs E)).
  - exact Hs.
Qed.

(** The values of the [DECIMAL(10,2)] columns never leave the range of
    the column: when every stored balance and amount is within
    99999999.99 of zero, so is every one after any deposit, transfer or
    reversal, however it ends. *)
Lemma operations_keep_columns_in_range userId newId createdAt now s :
  store_in_range s ->
  (forall dto,
      store_in_range (snd (deposit userId dto newId createdAt now s)))
  /\ (forall dto,
         store_in_range (snd (transfer userId dto newId createdAt now s)))
  /\ (forall transactionId,
         store_in_range
           (snd (reverseTransaction userId transactionId newId createdAt
                   now s))).
Proof.
  intros Hs. split; [|split].
  - intros dto.
    exact (prisma_transaction_in_range _ _ _
             (deposit_unit_in_range _ _ _ _ _) Hs).
  - intros dto. unfold transfer, transfer_interleaved.
    destruct (transfer_prechecks userId dto s); [|exact Hs].
    exact (prisma_transaction_in_range _ _ _
             (transfer_unit_in_range _ _ _ _ _ _) Hs).
  - intros transactionId.
    unfold reverseTransaction, reverseTransaction_interleaved.
    destruct (findTransactionById s transactionId) as [t|] eqn:Ht;
      [|exact Hs].
    destruct (negb _); [exact Hs|].
    destruct (TransactionStatus_eqb _ _); [exact Hs|].
    destruct (TransactionType_eqb _ _); [exact Hs|].
    apply (prisma_transaction_in_range _ (fun _ => True)); [|exact Hs].
    apply reverse_unit_in_range.
    apply find_some in Ht. destruct Ht as [Hin _].
    destruct Hs as [_ Hts]. rewrite Forall_forall in Hts.
    now apply Hts.
Qed.

End ColumnsInRange.
(* ================================================================== *)
(** ** Conservation of money *)
(* ================================================================== *)

Lemma updateWalletRows_absent id f ws :
  ~ In id (map wallet_id ws) -> updateWalletRows id f ws = ws.
Proof.
  unfold updateWalletRows. induction ws as [|x ws IH]; [reflexivity|].
  cbn [map In]. intros H.
  rewrite updateWalletRow_miss by tauto. rewrite IH by tauto. reflexivity.
Qed.

Lemma total_after_update id f ws w :
  NoDup (map wallet_id ws) ->
  find (fun x => String.eqb (wallet_id x) id) ws = Some w ->
  fold_right Z.add 0 (map wallet_balance (updateWalletRows id f ws))
  = fold_right Z.add 0 (map wallet_balance ws)
    - wallet_balance w + f (wallet_balance w).
Proof.
  induction ws as [|x ws IH]; [discriminate|].
  cbn [map find]. intros Hnd Hfind. inversion Hnd as [|? ? Hx Hnd']; subst.
  destruct (String.eqb_spec (wallet_id x) id) as [E | E].
  - injection Hfind as <-. subst id.
    unfold updateWalletRows in *. cbn [map fold_right].
    rewrite updateWalletRow_hit. cbn [set_balance wallet_balance].
    fold (updateWalletRows (wallet_id x) f ws).
    rewrite (updateWalletRows_absent _ f ws Hx). lia.
  - unfold updateWalletRows in *. cbn [map fold_right].
    rewrite updateWalletRow_miss by exact E.
    rewrite (IH Hnd' Hfind). lia.
Qed.

Lemma findWalletById_unique s w :
  NoDup (map wallet_id (wallets s)) ->
  In w (wallets s) ->
  findWalletById s (wallet_id w) = Some w.
Proof.
  unfold findWalletById. induction (wallets s) as [|x ws IH]; [easy|].
  cbn [map In find]. intros Hnd Hin.
  inversion Hnd as [|? ? Hx Hnd']; subst.
  destruct (String.eqb_spec (wallet_id x) (wallet_id w)) as [E | E].
  - destruct Hin as [-> | Hin]; [reflexivity|].
    exfalso. apply Hx. rewrite E. now apply in_map.
  - destruct Hin as [-> | Hin]; [contradiction|]. now apply IH.
Qed.

Lemma updateWalletRows_ids id f ws :
  map wallet_id (updateWalletRows id f ws) = map wallet_id ws.
Proof.
  unfold updateWalletRows. rewrite map_map. apply map_ext.
  intros x. apply updateWalletRow_id.
Qed.

(** The total after two balance updates on distinct wallets. *)
Lemma total_after_two_updates s us ts id1 f1 id2 f2 w1 w2 :
  NoDup (map wallet_id (wallets s)) ->
  findWalletById s id1 = Some w1 ->
  findWalletById s id2 = Some w2 ->
  id1 <> id2 ->
  total_balance
    (mkStore us
       (updateWalletRows id2 f2 (updateWalletRows id1 f1 (wallets s))) ts)
  = total_balance s
    - wallet_balance w1 + f1 (wallet_balance w1)
    - wallet_balance w2 + f2 (wallet_balance w2).
Proof.
  intros Hnd H1 H2 Hne. unfold total_balance. cbn [wallets].
  rewrite (total_after_update id2 f2 _ w2).
  - rewrite (total_after_update id1 f1 _ w1 Hnd H1). lia.
  - now rewrite updateWalletRows_ids.
  - unfold findWalletById in H2. unfold updateWalletRows.
    rewrite find_map_preserving
      by (intros x; now rewrite updateWalletRow_id).
    rewrite H2. cbn [option_map]. f_equal.
    apply updateWalletRow_miss.
    apply find_some in H2. destruct H2 as [_ H2].
    apply String.eqb_eq in H2. congruence.
Qed.

Section Conservation.

Context {N : JsNumber}.

(** X11. Reversing a transfer moves money and makes none: when the
    wallet ids are unique, the stored amount reads back as itself and
    both new balances are within the range of the column, a reversal of
    a transfer returns and leaves the sum of all balances exactly as it
    was (both updates are the store's, by the same amount). *)
Theorem transfer_reversal_conserves_total
  (userId transactionId newId : string) (createdAt now : Z) (s : Store)
  (t : Transaction) (f : string) (wf wt : Wallet) :
  NoDup (map wallet_id (wallets s)) ->
  findTransactionById s transactionId = Some t ->
  isOwner s t userId = true ->
  TransactionStatus_eqb (tx_status t) REVERSED = false ->
  tx_type t = TRANSFER ->
  tx_fromWalletId t = Some f ->
  falsy f = false ->
  falsy (tx_toWalletId t) = false ->
  f <> tx_toWalletId t ->
  findWalletById s f = Some wf ->
  findWalletById s (tx_toWalletId t) = Some wt ->
  num_ltb (toNumber (wallet_balance wt)) (toNumber (tx_amount t)) = false ->
  amount_in_cents (toNumber (tx_amount t)) (tx_amount t) = true ->
  fits_column (wallet_balance wf + tx_amount t) = true ->
  fits_column (wallet_balance wt - tx_amount t) = true ->
  exists r s',
    reverseTransaction userId transactionId newId createdAt now s
    = (Return r, s')
    /\ total_balance s' = total_balance s.
Proof.
  intros Hnd Ht Hown Hst Hty Hfrom Hf Hto Hne Hwf Hwt Hlt Ha Hff Hft.
  destruct (isOwner_has_wallet _ _ _ Hown) as [uw Huw].
  pose proof (reverse_transfer_outcome userId transactionId newId
                createdAt now s t Ht Hown Hst f wf wt uw Hty Hfrom Hf Hto
                Hne Hwf Hwt Huw) as Hrun.
  rewrite Hlt in Hrun.
  rewrite (new_balance_increment_cents _ _ _ Ha Hff) in Hrun.
  rewrite (new_balance_decrement_cents _ _ _ Ha Hft) in Hrun.
  eexists. eexists. split; [exact Hrun|].
  unfold with_balances.
  rewrite (total_after_two_updates s _ _ f _ (tx_toWalletId t) _ wf wt
             Hnd Hwf Hwt Hne).
  lia.
Qed.

(** X12. A transfer that returns changes the sum of all balances by the
    two roundings: the sender's new balance [b1] is the rounding of the
    difference computed on [number], the recipient's [b2] the rounding
    of the sum computed by the store, and the sum of all balances moves
    by [(b1 - B1) + (b2 - B2)]. Money is conserved exactly when the
    sender's wallet lost what the recipient's gained; it is for an
    amount of [a] hundredths whose difference on [number] reaches the
    column as [B1 - a]. *)
Theorem transfer_total
  (userId : string) (dto : TransferDto) (newId : string)
  (createdAt now : Z) (s : Store) (toUser : User)
  (fromWallet toWallet : Wallet) :
  NoDup (map wallet_id (wallets s)) ->
  transfer_prechecks userId dto s = Return toUser ->
  findWalletByUserId s userId = Some fromWallet ->
  findWalletByUserId s (user_id toUser) = Some toWallet ->
  wallet_id fromWallet <> wallet_id toWallet ->
  let B1 := wallet_balance fromWallet in
  let B2 := wallet_balance toWallet in
  let A := transfer_amount dto in
  num_ltb (toNumber B1) A = false ->
  (forall b1 b2 a,
      column_value "balance" (numeral (num_sub (toNumber B1) A))
      = Return b1 ->
      new_balance (balance_increment A) B2 = Return b2 ->
      column_value "amount" (numeral A) = Return a ->
      exists r s',
        transfer userId dto newId createdAt now s = (Return r, s')
        /\ total_balance s' = total_balance s + (b1 - B1) + (b2 - B2)
        /\ (total_balance s' = total_balance s <-> B1 - b1 = b2 - B2))
  /\ (forall a,
         amount_in_cents A a = true ->
         coerces_to (num_sub (toNumber B1) A) (B1 - a) = true ->
         fits_column (B1 - a) = true ->
         fits_column (B2 + a) = true ->
         fits_column a = true ->
         exists r s',
           transfer userId dto newId createdAt now s = (Return r, s')
           /\ total_balance s' = total_balance s).
Proof.
  intros Hnd Hpre Hfrom Hto Hne B1 B2 A Hlt.
  assert (H1 : findWalletById s (wallet_id fromWallet) = Some fromWallet).
  { apply findWalletById_unique; [exact Hnd|].
    apply find_some in Hfrom. tauto. }
  assert (H2 : findWalletById s (wallet_id toWallet) = Some toWallet).
  { apply findWalletById_unique; [exact Hnd|].
    apply find_some in Hto. tauto. }
  pose proof (transfer_outcome userId dto newId createdAt now s toUser
                fromWallet toWallet Hpre Hfrom Hto H2 Hne Hlt) as Hrun.
  cbv zeta in Hrun. fold B1 B2 A in Hrun.
  assert (Hreturns : forall b1 b2 a,
             column_value "balance" (numeral (num_sub (toNumber B1) A))
             = Return b1 ->
             new_balance (balance_increment A) B2 = Return b2 ->
             column_value "amount" (numeral A) = Return a ->
             exists r s',
               transfer userId dto newId createdAt now s = (Return r, s')
               /\ total_balance s'
                  = total_balance s + (b1 - B1) + (b2 - B2)).
  { intros b1 b2 a Hb1 Hb2 Ha. rewrite Hb1, Hb2, Ha in Hrun.
    eexists. eexists. split; [exact Hrun|].
    unfold with_balances.
    rewrite (total_after_two_updates s _ _ _ _ _ _ _ _ Hnd H1 H2 Hne).
    fold B1 B2. lia. }
  split.
  - intros b1 b2 a Hb1 Hb2 Ha.
    destruct (Hreturns b1 b2 a Hb1 Hb2 Ha) as (r & s' & H & Htot).
    exists r, s'. split; [exact H|]. split; [exact Htot|]. lia.
  - intros a Ha Hdiff Hf1 Hf2 Hfa.
    destruct (Hreturns (B1 - a) (B2 + a) a) as (r & s' & H & Htot).
    + now apply column_value_coerces.
    + now apply new_balance_increment_cents.
    + now apply column_value_cents.
    + exists r, s'. split; [exact H|]. lia.
Qed.

End Conservation.

Lemma seed_wallet_ids_unique : NoDup (map wallet_id (wallets seed_store)).
Proof. repeat constructor; simpl; intuition discriminate. Qed.

Lemma scenario_wallet_ids_unique :
  NoDup (map wallet_id (wallets scenario_store)).
Proof. repeat constructor; simpl; intuition discriminate. Qed.

(** Ana reverses her transfer, on doubles: 100.50 are in the two wallets
    before and after. *)
Lemma transfer_reversal_conserves_total_witness :
  exists r s',
    reverseTransaction (N := Binary64) "user-1" "tx-transfer" "tx-rev" 3 3
      scenario_store
    = (Return r, s')
    /\ total_balance s' = 10050.
Proof.
  destruct (transfer_reversal_conserves_total (N := Binary64)
              "user-1" "tx-transfer" "tx-rev" 3 3 scenario_store
              tx_transfer
              "wallet-1" (mkWallet "wallet-1" 5050 "user-1")
              (mkWallet "wallet-2" 5000 "user-2")
              scenario_wallet_ids_unique
              eq_refl eq_refl eq_refl eq_refl eq_refl eq_refl eq_refl
              ltac:(discriminate) eq_refl eq_refl eq_refl eq_refl eq_refl
              eq_refl)
    as (r & s' & H & Htot).
  exists r, s'. split; [exact H | exact Htot].
Defined.

(** Ana sends 50.00 of her 200.00 to Bruno, on doubles: 200 - 50 is
    exact, and the 270.00 in the three wallets stay 270.00. *)
Lemma transfer_total_witness :
  exists r s',
    transfer (N := Binary64) "user-1"
      (mkTransferDto (N := Binary64) "987.654.321-00" (b64_of_Z 50) None)
      "tx-transfer" 2 2 seed_store
    = (Return r, s')
    /\ total_balance s' = 27000.
Proof.
  destruct (proj2 (transfer_total (N := Binary64) "user-1"
                     (mkTransferDto (N := Binary64) "987.654.321-00"
                        (b64_of_Z 50) None)
                     "tx-transfer" 2 2 seed_store bruno
                     (mkWallet "wallet-1" 20000 "user-1")
                     (mkWallet "wallet-2" 12000 "user-2")
                     seed_wallet_ids_unique eq_refl eq_refl eq_refl
                     ltac:(discriminate) eq_refl)
              5000 eq_refl eq_refl eq_refl eq_refl eq_refl)
    as (r & s' & H & Htot).
  exists r, s'. split; [exact H | exact Htot].
Defined.

(** Ana sends 0.125 to Bruno, on doubles: her wallet goes from 200.00
    to 199.88, his from 120.00 to 120.13, and the three wallets hold
    270.01. *)
Example transfer_makes_a_cent :
  let s' := snd (transfer (N := Binary64) "user-1"
                   (mkTransferDto (N := Binary64) "987.654.321-00"
                      (b64_thousandths 125) None)
                   "tx-transfer" 2 2 seed_store) in
  findWalletById s' "wallet-1" = Some (mkWallet "wallet-1" 19988 "user-1")
  /\ findWalletById s' "wallet-2"
     = Some (mkWallet "wallet-2" 12013 "user-2")
  /\ total_balance seed_store = 27000
  /\ total_balance s' = 27001.
Proof. vm_compute. repeat split. Qed.
(* ================================================================== *)
(** ** An operation and its reversal *)
(* ================================================================== *)

Lemma find_app_none {A} (p : A -> bool) (l l' : list A) :
  find p l = None -> find p (l ++ l') = find p l'.
Proof.
  induction l as [|y l IH]; simpl; [reflexivity|].
  destruct (p y); [discriminate | exact IH].
Qed.

Lemma findTransactionById_appended s s' row :
  findTransactionById s (tx_id row) = None ->
  transactions s' = (transactions s ++ [row])%list ->
  findTransactionById s' (tx_id row) = Some row.
Proof.
  unfold findTransactionById. intros Hnone ->.
  rewrite (find_app_none _ _ _ Hnone). cbn [find].
  now rewrite String.eqb_refl.
Qed.

Lemma set_balance_same w : set_balance w (wallet_balance w) = w.
Proof. now destruct w. Qed.

Lemma findWalletByUserId_owner s u w :
  findWalletByUserId s u = Some w -> wallet_userId w = u.
Proof.
  intros H. apply find_some in H. destruct H as [_ H].
  now apply String.eqb_eq.
Qed.

Section DepositThenReverse.

Context {N : JsNumber}.

Variables (userId : string) (dto : DepositDto) (newId : string).
Variables (createdAt now : Z).
Variables (newId' : string) (createdAt' now' : Z).
Variable s : Store.
Variable wallet : Wallet.

Hypothesis actor_wallet : findWalletByUserId s userId = Some wallet.
Hypothesis wallet_by_id : findWalletById s (wallet_id wallet) = Some wallet.
Hypothesis wallet_id_nonempty : falsy (wallet_id wallet) = false.
Hypothesis fresh_id : findTransactionById s newId = None.

Let B : Decimal := wallet_balance wallet.
Let A : number := deposit_amount dto.

(** X13. A deposit can be taken back by its owner at once. When the
    columns accept the new balance [stored] and the amount [a] of the
    deposit, and then the balance [final] the store computes by
    subtracting the amount read back from the new row, the deposit
    returns, its reversal (by the new row's id) returns, the wallet
    ends at [final] and the deposit row is left REVERSED. When the
    amount is a whole number of hundredths that reads back as itself and
    the deposit's sum was exact, the wallet is exactly as before the
    deposit. *)
Theorem deposit_then_reverse (stored a final : Decimal) :
  column_value "balance" (numeral (num_add (toNumber B) A))
  = Return stored ->
  column_value "amount" (numeral A) = Return a ->
  new_balance (balance_decrement (toNumber a)) stored = Return final ->
  exists r1 s1 r2 s2,
    deposit userId dto newId createdAt now s = (Return r1, s1)
    /\ reverseTransaction userId newId newId' createdAt' now' s1
       = (Return r2, s2)
    /\ findWalletById s2 (wallet_id wallet)
       = Some (set_balance wallet final)
    /\ (stored = B + a -> amount_in_cents (toNumber a) a = true ->
        findWalletById s2 (wallet_id wallet) = Some wallet)
    /\ status_reversed s2 newId
    /\ findTransactionById s2 newId
       = Some (set_status (dr_transaction r1) REVERSED)
    /\ tx_reversedTransactionId (rr_reversalTransaction r2) = Some newId.
Proof.
  intros Hstored Ha Hfinal.
  set (row := deposit_row wallet (deposit_description dto) a newId
                createdAt now).
  set (s1 := with_balance s (wallet_id wallet) stored
               (transactions s ++ [row])).
  assert (Hdep : deposit userId dto newId createdAt now s
                 = (Return
                      (mkDepositResult row (toNumber a)
                         (num_add (toNumber B) A) (toNumber B)), s1)).
  { rewrite (deposit_outcome userId dto newId createdAt now s wallet
               actor_wallet).
    cbv zeta. fold B A. now rewrite Hstored, Ha. }
  assert (Hrow : findTransactionById s1 newId = Some row)
    by exact (findTransactionById_appended s s1 row fresh_id eq_refl).
  assert (Hw1 : findWalletById s1 (wallet_id wallet)
                = Some (set_balance wallet stored)).
  { rewrite (findWalletById_update s s1 (wallet_id wallet)
               (fun _ => stored)) by reflexivity.
    rewrite wallet_by_id. cbn [option_map].
    now rewrite updateWalletRow_hit. }
  assert (Hown : isOwner s1 row userId = true).
  { unfold isOwner, walletOwnerId. cbn [row deposit_row tx_toWalletId].
    rewrite Hw1. cbn [option_map set_balance wallet_userId opt_string_eqb].
    rewrite (findWalletByUserId_owner _ _ _ actor_wallet).
    now rewrite String.eqb_refl. }
  destruct (reverse_deposit_returns userId newId newId' createdAt' now'
              s1 row Hrow Hown eq_refl (set_balance wallet stored) final
              eq_refl wallet_id_nonempty Hw1 Hfinal)
    as (r2 & s2 & Hrev & Hbal & _ & Hrec & _).
  exists (mkDepositResult row (toNumber a)
            (num_add (toNumber B) A) (toNumber B)), s1, r2, s2.
  split; [exact Hdep|]. split; [exact Hrev|].
  assert (Hbal' : findWalletById s2 (wallet_id wallet)
                  = Some (set_balance wallet final))
    by exact Hbal.
  destruct Hrec as ((t' & Ht' & Hst & Hrest) & _ & _ & _ & _ & _ & Href & _).
  split; [exact Hbal'|]. split; [|split; [|split]].
  - intros E1 E2. rewrite Hbal'. f_equal.
    transitivity (set_balance wallet (wallet_balance wallet));
      [|apply set_balance_same].
    f_equal.
    pose proof (new_balance_decrement_returned _ _ _ _ E2 Hfinal) as E3.
    cbn [set_balance wallet_balance] in E3. unfold B in E1. lia.
  - exists t'. split; [exact Ht' | exact Hst].
  - cbn [dr_transaction].
    change (findTransactionById s2 newId = Some t') in Ht'.
    rewrite Ht'. f_equal.
    pose proof (findTransactionById_id _ _ _ Ht') as Hid.
    destruct t'. cbn in Hid, Hst, Hrest.
    destruct Hrest as (-> & -> & -> & -> & -> & -> & -> & ->).
    now subst.
  - exact Href.
Qed.

End DepositThenReverse.

(** Carla owes 50.00, deposits 200.00 and takes it back, on doubles. *)
Lemma deposit_then_reverse_witness :
  exists r1 s1 r2 s2,
    deposit (N := Binary64) "user-3"
      (mkDepositDto (N := Binary64) (b64_of_Z 200) None) "tx-dep" 1 1
      seed_store
    = (Return r1, s1)
    /\ reverseTransaction (N := Binary64) "user-3" "tx-dep" "tx-rev" 2 2 s1
       = (Return r2, s2)
    /\ findWalletById s2 "wallet-3"
       = Some (mkWallet "wallet-3" (-5000) "user-3")
    /\ status_reversed s2 "tx-dep".
Proof.
  destruct (deposit_then_reverse (N := Binary64) "user-3"
              (mkDepositDto (N := Binary64) (b64_of_Z 200) None) "tx-dep"
              1 1 "tx-rev" 2 2 seed_store
              (mkWallet "wallet-3" (-5000) "user-3")
              eq_refl eq_refl eq_refl eq_refl
              15000 20000 (-5000) eq_refl eq_refl eq_refl)
    as (r1 & s1 & r2 & s2 & H1 & H2 & H3 & _ & H4 & _).
  exists r1, s1, r2, s2. split; [exact H1|]. split; [exact H2|].
  split; [exact H3 | exact H4].
Defined.

Section TransferThenReverse.

Context {N : JsNumber}.

Variables (userId : string) (dto : TransferDto) (newId : string).
Variables (createdAt now : Z).
Variables (newId' : string) (createdAt' now' : Z).
Variable s : Store.
Variables (toUser : User) (fromWallet toWallet : Wallet).

Hypothesis prechecks_pass : transfer_prechecks userId dto s = Return toUser.
Hypothesis sender_wallet : findWalletByUserId s userId = Some fromWallet.
Hypothesis recipient_wallet :
  findWalletByUserId s (user_id toUser) = Some toWallet.
Hypothesis sender_by_id :
  findWalletById s (wallet_id fromWallet) = Some fromWallet.
Hypothesis recipient_by_id :
  findWalletById s (wallet_id toWallet) = Some toWallet.
Hypothesis distinct_wallets : wallet_id fromWallet <> wallet_id toWallet.
Hypothesis sender_id_nonempty : falsy (wallet_id fromWallet) = false.
Hypothesis recipient_id_nonempty : falsy (wallet_id toWallet) = false.
Hypothesis fresh_id : findTransactionById s newId = None.
Hypothesis funded :
  num_ltb (toNumber (wallet_balance fromWallet)) (transfer_amount dto)
  = false.

Let B1 : Decimal := wallet_balance fromWallet.
Let B2 : Decimal := wallet_balance toWallet.
Let A : number := transfer_amount dto.

(** The balances and the amount of the transfer, as the columns take
    them. *)
Variables (b1 b2 a : Decimal).

Hypothesis sender_balance :
  column_value "balance" (numeral (num_sub (toNumber B1) A)) = Return b1.
Hypothesis recipient_balance :
  new_balance (balance_increment A) B2 = Return b2.
Hypothesis amount_stored : column_value "amount" (numeral A) = Return a.

(** X14. A transfer and its immediate reversal by the sender. The
    transfer returns, leaving the sender at [b1] and the recipient at
    [b2]. The reversal reads the amount back from the new row and tests
    it against [b2]: if that is smaller (a recipient who was in debt)
    the reversal is refused and the transfer stands; otherwise, when
    the column accepts the two balances [c1] and [c2] the store
    computes, the sender ends at [c1], the recipient at [c2] and the
    transfer row is left REVERSED. These are [B1] and [B2] when the
    amount is a whole number of hundredths that reads back as itself
    and the sender's subtraction was exact. *)
Theorem transfer_then_reverse :
  exists r1 s1,
    transfer userId dto newId createdAt now s = (Return r1, s1)
    /\ findWalletById s1 (wallet_id fromWallet)
       = Some (set_balance fromWallet b1)
    /\ findWalletById s1 (wallet_id toWallet)
       = Some (set_balance toWallet b2)
    /\ (num_ltb (toNumber b2) (toNumber a) = true ->
        reverseTransaction userId newId newId' createdAt' now' s1
        = (Throw (BadRequestException
                    "Destinatário não tem saldo suficiente para reversão"),
           s1))
    /\ (num_ltb (toNumber b2) (toNumber a) = false ->
        forall c1 c2,
          new_balance (balance_increment (toNumber a)) b1 = Return c1 ->
          new_balance (balance_decrement (toNumber a)) b2 = Return c2 ->
          exists r2 s2,
            reverseTransaction userId newId newId' createdAt' now' s1
            = (Return r2, s2)
            /\ findWalletById s2 (wallet_id fromWallet)
               = Some (set_balance fromWallet c1)
            /\ findWalletById s2 (wallet_id toWallet)
               = Some (set_balance toWallet c2)
            /\ (amount_in_cents A a = true ->
                amount_in_cents (toNumber a) a = true ->
                findWalletById s2 (wallet_id toWallet) = Some toWallet)
            /\ (amount_in_cents (toNumber a) a = true ->
                b1 = B1 - a ->
                findWalletById s2 (wallet_id fromWallet)
                = Some fromWallet)
            /\ status_reversed s2 newId
            /\ findTransactionById s2 newId
               = Some (set_status (tr_transaction r1) REVERSED)).
Proof.
  set (row := transfer_row fromWallet toWallet (transfer_description dto)
                a newId createdAt now).
  set (s1 := with_balances s (wallet_id fromWallet) b1
               (wallet_id toWallet) b2 (transactions s ++ [row])).
  assert (Hrun : transfer userId dto newId createdAt now s
                 = (Return
                      (mkTransferResult row (toNumber a)
                         (num_sub (toNumber B1) A) (toNumber B1)
                         (user_id toUser) (user_name toUser)), s1)).
  { rewrite (transfer_outcome userId dto newId createdAt now s toUser
               fromWallet toWallet prechecks_pass sender_wallet
               recipient_wallet recipient_by_id distinct_wallets funded).
    fold B1 B2 A. now rewrite sender_balance, recipient_balance,
                    amount_stored. }
  set (s0 := with_balance s (wallet_id fromWallet) b1 (transactions s)).
  assert (Hw1 : findWalletById s1 (wallet_id fromWallet)
                = Some (set_balance fromWallet b1)).
  { rewrite (findWalletById_update s0 s1 (wallet_id toWallet)
               (fun _ => b2)) by reflexivity.
    rewrite (findWalletById_update s s0 (wallet_id fromWallet)
               (fun _ => b1)) by reflexivity.
    rewrite sender_by_id. cbn [option_map]. rewrite updateWalletRow_hit.
    now rewrite updateWalletRow_miss by exact distinct_wallets. }
  assert (Hw2 : findWalletById s1 (wallet_id toWallet)
                = Some (set_balance toWallet b2)).
  { rewrite (findWalletById_update s0 s1 (wallet_id toWallet)
               (fun _ => b2)) by reflexivity.
    rewrite (findWalletById_update s s0 (wallet_id fromWallet)
               (fun _ => b1)) by reflexivity.
    rewrite recipient_by_id. cbn [option_map].
    rewrite (updateWalletRow_miss (wallet_id fromWallet)) by congruence.
    now rewrite updateWalletRow_hit. }
  assert (Hrow : findTransactionById s1 newId = Some row)
    by exact (findTransactionById_appended s s1 row fresh_id eq_refl).
  assert (Hown : isOwner s1 row userId = true).
  { unfold isOwner, walletOwnerId.
    cbn [row transfer_row tx_toWalletId tx_fromWalletId].
    rewrite Hw1, Hw2.
    cbn [option_map set_balance wallet_userId opt_string_eqb].
    rewrite (findWalletByUserId_owner _ _ _ sender_wallet).
    now rewrite String.eqb_refl, orb_true_r. }
  eexists. exists s1. split; [exact Hrun|].
  split; [exact Hw1|]. split; [exact Hw2|]. split.
  - intros Hlt.
    exact (reverse_transfer_insufficient userId newId newId' createdAt'
             now' s1 row Hrow Hown eq_refl (wallet_id fromWallet)
             (set_balance fromWallet b1) (set_balance toWallet b2)
             eq_refl eq_refl sender_id_nonempty recipient_id_nonempty
             distinct_wallets Hw1 Hw2 Hlt).
  - intros Hlt c1 c2 Hc1 Hc2.
    destruct (reverse_transfer_returns userId newId newId' createdAt'
                now' s1 row Hrow Hown eq_refl (wallet_id fromWallet)
                (set_balance fromWallet b1) (set_balance toWallet b2)
                eq_refl eq_refl sender_id_nonempty
                recipient_id_nonempty distinct_wallets Hw1 Hw2 c1 c2 Hlt
                Hc1 Hc2)
      as (r2 & s2 & Hrev & Hb1 & Hb2 & _
          & ((t' & Ht' & Hst & Hrest) & _) & _).
    assert (Hb1' : findWalletById s2 (wallet_id fromWallet)
                   = Some (set_balance fromWallet c1))
      by exact Hb1.
    assert (Hb2' : findWalletById s2 (wallet_id toWallet)
                   = Some (set_balance toWallet c2))
      by exact Hb2.
    exists r2, s2. split; [exact Hrev|].
    split; [exact Hb1'|]. split; [exact Hb2'|].
    split; [|split; [|split]].
    + intros E1 E2. rewrite Hb2'. f_equal.
      transitivity (set_balance toWallet (wallet_balance toWallet));
        [|apply set_balance_same].
      f_equal.
      pose proof (new_balance_increment_returned _ _ _ _ E1
                    recipient_balance) as E3.
      pose proof (new_balance_decrement_returned _ _ _ _ E2 Hc2) as E4.
      unfold B2 in E3. lia.
    + intros E1 E2. rewrite Hb1'. f_equal.
      transitivity (set_balance fromWallet (wallet_balance fromWallet));
        [|apply set_balance_same].
      f_equal.
      pose proof (new_balance_increment_returned _ _ _ _ E1 Hc1) as E3.
      unfold B1 in E2. lia.
    + exists t'. split; [exact Ht' | exact Hst].
    + cbn [tr_transaction].
      change (findTransactionById s2 newId = Some t') in Ht'.
      rewrite Ht'. f_equal.
      pose proof (findTransactionById_id _ _ _ Ht') as Hid.
      destruct t'. cbn in Hid, Hst, Hrest.
      destruct Hrest as (-> & -> & -> & -> & -> & -> & -> & ->).
      now subst.
Qed.

End TransferThenReverse.

(** On doubles. Ana sends 30.00 to Carla, who owes 50.00: Carla then
    holds -20.00, less than the 30.00 a reversal would take back, so
    Ana's reversal of her own transfer is refused. Ana sends 50.00 to
    Bruno and takes it back: both wallets are as before. *)
Lemma transfer_then_reverse_witness :
  (exists r1 s1,
      transfer (N := Binary64) "user-1"
        (mkTransferDto (N := Binary64) "111.444.777-35" (b64_of_Z 30)
           None)
        "tx-transfer" 1 1 seed_store
      = (Return r1, s1)
      /\ findWalletById s1 "wallet-3"
         = Some (mkWallet "wallet-3" (-2000) "user-3")
      /\ reverseTransaction (N := Binary64) "user-1" "tx-transfer"
           "tx-rev" 2 2 s1
         = (Throw (BadRequestException
                     "Destinatário não tem saldo suficiente para reversão"),
            s1))
  /\ (exists r1 s1 r2 s2,
         transfer (N := Binary64) "user-1"
           (mkTransferDto (N := Binary64) "987.654.321-00" (b64_of_Z 50)
              None)
           "tx-transfer" 1 1 seed_store
         = (Return r1, s1)
         /\ reverseTransaction (N := Binary64) "user-1" "tx-transfer"
              "tx-rev" 2 2 s1
            = (Return r2, s2)
         /\ findWalletById s2 "wallet-1"
            = Some (mkWallet "wallet-1" 20000 "user-1")
         /\ findWalletById s2 "wallet-2"
            = Some (mkWallet "wallet-2" 12000 "user-2")
         /\ status_reversed s2 "tx-transfer").
Proof.
  split.
  - destruct (transfer_then_reverse (N := Binary64) "user-1"
                (mkTransferDto (N := Binary64) "111.444.777-35"
                   (b64_of_Z 30) None)
                "tx-transfer" 1 1 "tx-rev" 2 2 seed_store carla
                (mkWallet "wallet-1" 20000 "user-1")
                (mkWallet "wallet-3" (-5000) "user-3")
                eq_refl eq_refl eq_refl eq_refl eq_refl
                ltac:(discriminate) eq_refl eq_refl eq_refl eq_refl
                17000 (-2000) 3000 eq_refl eq_refl eq_refl)
      as (r1 & s1 & H1 & _ & Hw & H2 & _).
    exists r1, s1. split; [exact H1|]. split; [exact Hw|].
    exact (H2 eq_refl).
  - destruct (transfer_then_reverse (N := Binary64) "user-1"
                (mkTransferDto (N := Binary64) "987.654.321-00"
                   (b64_of_Z 50) None)
                "tx-transfer" 1 1 "tx-rev" 2 2 seed_store bruno
                (mkWallet "wallet-1" 20000 "user-1")
                (mkWallet "wallet-2" 12000 "user-2")
                eq_refl eq_refl eq_refl eq_refl eq_refl
                ltac:(discriminate) eq_refl eq_refl eq_refl eq_refl
                15000 17000 5000 eq_refl eq_refl eq_refl)
      as (r1 & s1 & H1 & _ & _ & _ & H2).
    destruct (H2 eq_refl 20000 12000 eq_refl eq_refl)
      as (r2 & s2 & Hrev & Hw1 & Hw2 & _ & _ & Hst & _).
    exists r1, s1, r2, s2. repeat split; assumption.
Defined.
(* ================================================================== *)
(** ** Guards read before the atomic unit *)
(* ================================================================== *)

Section StaleGuards.

Context {N : JsNumber}.

(** With nothing in between, the guards see the store the unit runs on. *)
Lemma reverseTransaction_not_interleaved userId transactionId newId
  createdAt now s :
  reverseTransaction_interleaved s userId transactionId newId createdAt
    now s
  = reverseTransaction userId transactionId newId createdAt now s.
Proof. reflexivity. Qed.

(** The unit on a deposit row [t] read earlier, whatever the row under
    [transactionId] has become in [s]. *)
Lemma reverse_unit_deposit_run userId transactionId t newId createdAt now
  s t0 w uw b :
  findTransactionById s transactionId = Some t0 ->
  tx_type t = DEPOSIT ->
  falsy (tx_toWalletId t) = false ->
  findWalletById s (tx_toWalletId t) = Some w ->
  findWalletByUserId s userId = Some uw ->
  new_balance (balance_decrement (toNumber (tx_amount t)))
    (wallet_balance w) = Return b ->
  reverse_unit userId transactionId t newId createdAt now s
  = Return
      (mkReverseResult "Transação revertida com sucesso"
         (reversal_row newId createdAt now t None (tx_toWalletId t))
         (toNumber (tx_amount t))
         (toNumber
            (wallet_balance
               (updateWalletRow (tx_toWalletId t) (fun _ => b) uw))),
       with_balance s (tx_toWalletId t) b
         (updateStatusRows transactionId REVERSED (transactions s)
            ++ [reversal_row newId createdAt now t None
                  (tx_toWalletId t)])).
Proof.
  intros Ht0 Hty Hto Hw Huw Hb.
  unfold reverse_unit.
  unfold bind at 1. unfold reverse_balances. rewrite Hty, Hto.
  rewrite (tx_wallet_update_run _ _ _ _ _ Hw Hb).
  cbv iota beta zeta.
  unfold bind at 1.
  erewrite tx_transaction_updateStatus_run by exact Ht0.
  unfold bind, tx_transaction_create, tx_wallet_findByUserId.
  cbv beta iota delta [wallets users transactions with_balance].
  match goal with
  | |- context [findWalletByUserId ?x userId] =>
      rewrite (findWalletByUserId_update s x (tx_toWalletId t)
                 (fun _ => b) userId eq_refl)
  end.
  rewrite Huw. reflexivity.
Qed.

Variables (userId transactionId id1 id2 : string).
Variables (createdAt1 now1 createdAt2 now2 : Z).
Variable s : Store.
Variables (t : Transaction) (w : Wallet).

Hypothesis target : findTransactionById s transactionId = Some t.
Hypothesis authorized : isOwner s t userId = true.
Hypothesis not_reversed : TransactionStatus_eqb (tx_status t) REVERSED = false.
Hypothesis is_deposit : tx_type t = DEPOSIT.
Hypothesis wallet_id_nonempty : falsy (tx_toWalletId t) = false.
Hypothesis credited : findWalletById s (tx_toWalletId t) = Some w.
Hypothesis fresh_id : id1 <> transactionId.

Let A : number := toNumber (tx_amount t).

(** The balance after one debit and after two, as the column takes
    them. *)
Variables (c1 c2 : Decimal).

Hypothesis first_debit :
  new_balance (balance_decrement A) (wallet_balance w) = Return c1.
Hypothesis second_debit :
  new_balance (balance_decrement A) c1 = Return c2.

(** X15. The lookup of the transaction and the guards come before the
    atomic unit, which never reads the row again. Two requests to
    reverse the same deposit, both within the range of the balance
    column: run one after the other, the second is refused; but when
    the second has passed its guards before the first commits, its unit
    also runs: the wallet is debited twice (by twice the amount, when
    the stored amount reads back as itself) and the deposit has two
    reversal rows. *)
Theorem stale_guards_reverse_twice :
  exists r1 s1 r2 s2,
    reverseTransaction userId transactionId id1 createdAt1 now1 s
    = (Return r1, s1)
    /\ findWalletById s1 (tx_toWalletId t) = Some (set_balance w c1)
    /\ reverseTransaction userId transactionId id2 createdAt2 now2 s1
       = (Throw (BadRequestException "Esta transação já foi revertida"), s1)
    /\ reverseTransaction_interleaved s userId transactionId id2
         createdAt2 now2 s1
       = (Return r2, s2)
    /\ findWalletById s2 (tx_toWalletId t) = Some (set_balance w c2)
    /\ (amount_in_cents A (tx_amount t) = true ->
        c2 = wallet_balance w - tx_amount t - tx_amount t)
    /\ transactions s2
       = (updateStatusRows transactionId REVERSED (transactions s)
            ++ [reversal_row id1 createdAt1 now1 t None (tx_toWalletId t);
                reversal_row id2 createdAt2 now2 t None
                  (tx_toWalletId t)])%list.
Proof.
  destruct (isOwner_has_wallet _ _ _ authorized) as [uw Huw].
  pose proof (reverse_deposit_outcome userId transactionId id1 createdAt1
                now1 s t target authorized not_reversed w uw is_deposit
                wallet_id_nonempty credited Huw) as H1.
  fold A in H1. rewrite first_debit in H1. cbv zeta in H1.
  set (row1 := reversal_row id1 createdAt1 now1 t None (tx_toWalletId t))
    in *.
  match type of H1 with _ = (Return ?r, ?x) => set (r1 := r) in *;
                                              set (s1 := x) in * end.
  assert (Hid : tx_id t = transactionId)
    by exact (findTransactionById_id _ _ _ target).
  assert (Ht1 : findTransactionById s1 transactionId
                = Some (set_status t REVERSED)).
  { destruct (reverseTransaction_returned _ _ _ _ _ _ _ _ H1)
      as (t' & Ht' & _ & Hst & _).
    rewrite target in Ht'. now injection Ht' as <-. }
  assert (Hown1 : isOwner s1 (set_status t REVERSED) userId = true).
  { destruct (reverseTransaction_returned _ _ _ _ _ _ _ _ H1)
      as (t' & Ht' & _ & _ & Hown).
    rewrite target in Ht'. now injection Ht' as <-. }
  assert (Hw1 : findWalletById s1 (tx_toWalletId t)
                = Some (set_balance w c1)).
  { unfold s1.
    rewrite (findWalletById_update s _ (tx_toWalletId t)
               (fun _ => c1)) by reflexivity.
    rewrite credited. cbn [option_map].
    now rewrite (updateWalletRow_at _ _ _
                   (findWalletById_id _ _ _ credited)). }
  assert (Huw1 : findWalletByUserId s1 userId
                 = Some (updateWalletRow (tx_toWalletId t)
                           (fun _ => c1) uw)).
  { unfold s1.
    rewrite (findWalletByUserId_update s _ (tx_toWalletId t)
               (fun _ => c1)) by reflexivity.
    now rewrite Huw. }
  pose proof (reverse_unit_deposit_run userId transactionId t id2
                createdAt2 now2 s1 _ _ _ c2 Ht1 is_deposit
                wallet_id_nonempty Hw1 Huw1 second_debit) as H2.
  exists r1, s1. eexists. eexists.
  split; [exact H1|]. split; [exact Hw1|].
  split; [|split; [|split; [|split]]].
  - unfold reverseTransaction, reverseTransaction_interleaved.
    rewrite Ht1, Hown1. reflexivity.
  - unfold reverseTransaction_interleaved.
    rewrite target, authorized, not_reversed, is_deposit.
    cbn [negb TransactionType_eqb]. unfold prisma_transaction.
    rewrite H2. reflexivity.
  - match goal with
    | |- findWalletById ?x _ = _ =>
        rewrite (findWalletById_update s1 x (tx_toWalletId t)
                   (fun _ => c2)) by reflexivity
    end.
    rewrite Hw1. cbn [option_map].
    rewrite (updateWalletRow_at (tx_toWalletId t) _ (set_balance w _))
      by (cbn [set_balance wallet_id];
          exact (findWalletById_id _ _ _ credited)).
    reflexivity.
  - intros Ha.
    pose proof (new_balance_decrement_returned _ _ _ _ Ha first_debit).
    pose proof (new_balance_decrement_returned _ _ _ _ Ha second_debit).
    lia.
  - change ((updateStatusRows transactionId REVERSED
               (updateStatusRows transactionId REVERSED (transactions s)
                  ++ [row1])
             ++ [reversal_row id2 createdAt2 now2 t None
                   (tx_toWalletId t)])%list
            = (updateStatusRows transactionId REVERSED (transactions s)
                 ++ [row1;
                     reversal_row id2 createdAt2 now2 t None
                       (tx_toWalletId t)])%list).
    unfold updateStatusRows at 1. rewrite map_app.
    change (map (updateStatusRow transactionId REVERSED)
              (updateStatusRows transactionId REVERSED (transactions s)))
      with (updateStatusRows transactionId REVERSED
              (updateStatusRows transactionId REVERSED (transactions s))).
    rewrite updateStatusRows_twice. rewrite <- app_assoc.
    f_equal. cbn [map app]. f_equal.
    unfold updateStatusRow, row1. cbn [reversal_row tx_id].
    apply String.eqb_neq in fresh_id. now rewrite fresh_id.
Qed.

End StaleGuards.

(** Ana reverses her deposit of 100.50 twice at once, on doubles: her
    50.50 become -150.50. *)
Lemma stale_guards_reverse_twice_witness :
  exists r1 s1 r2 s2,
    reverseTransaction (N := Binary64) "user-1" "tx-dep" "tx-rev-1" 3 3
      scenario_store
    = (Return r1, s1)
    /\ reverseTransaction_interleaved (N := Binary64) scenario_store
         "user-1" "tx-dep" "tx-rev-2" 4 4 s1
       = (Return r2, s2)
    /\ findWalletById s2 "wallet-1"
       = Some (mkWallet "wallet-1" (-15050) "user-1").
Proof.
  destruct (stale_guards_reverse_twice (N := Binary64) "user-1" "tx-dep"
              "tx-rev-1" "tx-rev-2" 3 3 4 4 scenario_store tx_dep
              (mkWallet "wallet-1" 5050 "user-1")
              eq_refl eq_refl eq_refl eq_refl eq_refl eq_refl
              ltac:(discriminate) (-5000) (-15050) eq_refl eq_refl)
    as (r1 & s1 & r2 & s2 & H1 & _ & _ & H2 & H3 & _).
  exists r1, s1, r2, s2. split; [exact H1|]. split; [exact H2|].
  exact H3.
Defined.
(* ================================================================== *)
(** ** A transfer in the history of both parties *)
(* ================================================================== *)

Section TransferHistory.

Context {N : JsNumber}.

Lemma with_balances_wallets_by_id s fromWallet toWallet b1 b2 rows :
  findWalletById s (wallet_id fromWallet) = Some fromWallet ->
  findWalletById s (wallet_id toWallet) = Some toWallet ->
  wallet_id fromWallet <> wallet_id toWallet ->
  let s1 := with_balances s (wallet_id fromWallet) b1
              (wallet_id toWallet) b2 rows in
  findWalletById s1 (wallet_id fromWallet)
  = Some (set_balance fromWallet b1)
  /\ findWalletById s1 (wallet_id toWallet)
     = Some (set_balance toWallet b2).
Proof.
  intros Hf Ht Hne s1.
  set (s0 := with_balance s (wallet_id fromWallet) b1 (transactions s)).
  split.
  - rewrite (findWalletById_update s0 s1 (wallet_id toWallet)
               (fun _ => b2)) by reflexivity.
    rewrite (findWalletById_update s s0 (wallet_id fromWallet)
               (fun _ => b1)) by reflexivity.
    rewrite Hf. cbn [option_map]. rewrite updateWalletRow_hit.
    now rewrite updateWalletRow_miss by exact Hne.
  - rewrite (findWalletById_update s0 s1 (wallet_id toWallet)
               (fun _ => b2)) by reflexivity.
    rewrite (findWalletById_update s s0 (wallet_id fromWallet)
               (fun _ => b1)) by reflexivity.
    rewrite Ht. cbn [option_map].
    rewrite (updateWalletRow_miss (wallet_id fromWallet)) by congruence.
    now rewrite updateWalletRow_hit.
Qed.

Lemma findUserById_id s id u :
  findUserById s id = Some u -> user_id u = id.
Proof.
  intros H. apply find_some in H. destruct H as [_ H].
  now apply String.eqb_eq.
Qed.

Lemma getHistory_lists s userId wallet t :
  findWalletByUserId s userId = Some wallet ->
  In t (transactions s) ->
  involvesWallet (wallet_id wallet) t = true ->
  exists h, getHistory userId s = Return h
            /\ In (historyEntry s wallet t) h.
Proof.
  intros Hw Hin Hinv. unfold getHistory. rewrite Hw.
  eexists. split; [reflexivity|]. apply in_map.
  destruct (findManyTransactions_spec s (wallet_id wallet)) as [Hperm _].
  apply (Permutation_in _ (Permutation_sym Hperm)).
  apply filter_In. now split.
Qed.

Variables (userId : string) (dto : TransferDto) (newId : string).
Variables (createdAt now : Z).
Variable s : Store.
Variables (fromUser toUser : User) (fromWallet toWallet : Wallet).

Hypothesis prechecks_pass : transfer_prechecks userId dto s = Return toUser.
Hypothesis sender : findUserById s userId = Some fromUser.
Hypothesis recipient : findUserById s (user_id toUser) = Some toUser.
Hypothesis sender_wallet : findWalletByUserId s userId = Some fromWallet.
Hypothesis recipient_wallet :
  findWalletByUserId s (user_id toUser) = Some toWallet.
Hypothesis sender_by_id :
  findWalletById s (wallet_id fromWallet) = Some fromWallet.
Hypothesis recipient_by_id :
  findWalletById s (wallet_id toWallet) = Some toWallet.
Hypothesis distinct_wallets : wallet_id fromWallet <> wallet_id toWallet.
Hypothesis funded :
  num_ltb (toNumber (wallet_balance fromWallet)) (transfer_amount dto)
  = false.

(** The balances and the amount of the transfer, as the columns take
    them. *)
Variables (b1 b2 a : Decimal).

Hypothesis sender_balance :
  column_value "balance"
    (numeral (num_sub (toNumber (wallet_balance fromWallet))
                (transfer_amount dto)))
  = Return b1.
Hypothesis recipient_balance :
  new_balance (balance_increment (transfer_amount dto))
    (wallet_balance toWallet)
  = Return b2.
Hypothesis amount_stored :
  column_value "amount" (numeral (transfer_amount dto)) = Return a.

(** The entry both histories show, up to direction and other party:
    created when the store says, processed when the service says. *)
Let entry (d : Direction) (other : User) : HistoryEntry :=
  mkHistoryEntry newId TRANSFER (toNumber a) COMPLETED
    (Some (or_default (transfer_description dto) "Transferência"))
    createdAt (Some now) d
    (Some (Some (user_id other), Some (user_name other))).

(** X16. After a transfer the columns accepted, both histories list
    it, with the amount as stored: the sender's as "sent" with the
    recipient as other party, the recipient's as "received" with the
    sender as other party. *)
Theorem transfer_in_both_histories :
  exists r s1 hs hr,
    transfer userId dto newId createdAt now s = (Return r, s1)
    /\ getHistory userId s1 = Return hs
    /\ getHistory (user_id toUser) s1 = Return hr
    /\ In (entry sent toUser) hs
    /\ In (entry received fromUser) hr.
Proof.
  set (row := transfer_row fromWallet toWallet (transfer_description dto)
                a newId createdAt now).
  set (s1 := with_balances s (wallet_id fromWallet) b1
               (wallet_id toWallet) b2 (transactions s ++ [row])).
  assert (Hrun : transfer userId dto newId createdAt now s
                 = (Return
                      (mkTransferResult row (toNumber a)
                         (num_sub (toNumber (wallet_balance fromWallet))
                            (transfer_amount dto))
                         (toNumber (wallet_balance fromWallet))
                         (user_id toUser) (user_name toUser)), s1)).
  { rewrite (transfer_outcome userId dto newId createdAt now s toUser
               fromWallet toWallet prechecks_pass sender_wallet
               recipient_wallet recipient_by_id distinct_wallets funded).
    now rewrite sender_balance, recipient_balance, amount_stored. }
  destruct (with_balances_wallets_by_id s fromWallet toWallet b1 b2
              (transactions s ++ [row]) sender_by_id recipient_by_id
              distinct_wallets)
    as [Hw1 Hw2].
  fold s1 in Hw1, Hw2.
  destruct (with_balances_wallets userId s toUser fromWallet toWallet
              sender_wallet recipient_wallet distinct_wallets b1 b2
              (transactions s ++ [row])) as (Hu1 & Hu2 & _).
  fold s1 in Hu1, Hu2.
  assert (Hin : In row (transactions s1))
    by (apply in_or_app; right; now left).
  assert (Hfu : wallet_userId fromWallet = userId)
    by exact (findWalletByUserId_owner _ _ _ sender_wallet).
  assert (Htu : wallet_userId toWallet = user_id toUser)
    by exact (findWalletByUserId_owner _ _ _ recipient_wallet).
  assert (Hne : String.eqb (wallet_id toWallet) (wallet_id fromWallet)
                = false)
    by (apply String.eqb_neq; congruence).
  destruct (getHistory_lists s1 userId _ row Hu1 Hin) as (hs & Hhs & Hs).
  { unfold involvesWallet.
    cbn [row transfer_row tx_fromWalletId set_balance wallet_id
           opt_string_eqb].
    now rewrite String.eqb_refl. }
  destruct (getHistory_lists s1 (user_id toUser) _ row Hu2 Hin)
    as (hr & Hhr & Hr).
  { unfold involvesWallet.
    cbn [row transfer_row tx_toWalletId set_balance wallet_id].
    now rewrite String.eqb_refl, orb_true_r. }
  eexists. exists s1, hs, hr.
  split; [exact Hrun|]. split; [exact Hhs|]. split; [exact Hhr|].
  split.
  - replace (entry sent toUser)
      with (historyEntry s1 (set_balance fromWallet b1) row);
      [exact Hs|].
    unfold historyEntry, entry, walletOwnerName, walletOwnerId.
    cbn [row transfer_row tx_id tx_type tx_amount tx_status tx_description
           tx_createdAt tx_processedAt tx_toWalletId tx_fromWalletId
           set_balance wallet_id TransactionType_eqb].
    rewrite Hne, Hw2.
    cbn [option_map set_balance wallet_userId]. rewrite Htu.
    change (findUserById s1 (user_id toUser))
      with (findUserById s (user_id toUser)).
    now rewrite recipient.
  - replace (entry received fromUser)
      with (historyEntry s1 (set_balance toWallet b2) row);
      [exact Hr|].
    unfold historyEntry, entry, walletOwnerName, walletOwnerId.
    cbn [row transfer_row tx_id tx_type tx_amount tx_status tx_description
           tx_createdAt tx_processedAt tx_toWalletId tx_fromWalletId
           set_balance wallet_id TransactionType_eqb].
    rewrite String.eqb_refl, Hw1.
    cbn [option_map set_balance wallet_userId]. rewrite Hfu.
    change (findUserById s1 userId) with (findUserById s userId).
    rewrite sender.
    cbn [option_map].
    now rewrite (findUserById_id _ _ _ sender).
Qed.

End TransferHistory.

(** Ana sends 50.00 to Bruno, on doubles: her history shows it sent to
    Bruno, his shows it received from Ana. *)
Lemma transfer_in_both_histories_witness :
  exists r s1 hs hr,
    transfer (N := Binary64) "user-1"
      (mkTransferDto (N := Binary64) "987.654.321-00" (b64_of_Z 50) None)
      "tx-transfer" 2 3 seed_store
    = (Return r, s1)
    /\ getHistory (N := Binary64) "user-1" s1 = Return hs
    /\ getHistory (N := Binary64) "user-2" s1 = Return hr
    /\ In (mkHistoryEntry (N := Binary64) "tx-transfer" TRANSFER
             (b64_toNumber 5000) COMPLETED (Some "Transferência") 2
             (Some 3) sent (Some (Some "user-2", Some (user_name bruno))))
         hs
    /\ In (mkHistoryEntry (N := Binary64) "tx-transfer" TRANSFER
             (b64_toNumber 5000) COMPLETED (Some "Transferência") 2
             (Some 3) received (Some (Some "user-1", Some (user_name ana))))
         hr.
Proof.
  exact (transfer_in_both_histories (N := Binary64) "user-1"
           (mkTransferDto (N := Binary64) "987.654.321-00" (b64_of_Z 50)
              None)
           "tx-transfer" 2 3 seed_store ana bruno
           (mkWallet "wallet-1" 20000 "user-1")
           (mkWallet "wallet-2" 12000 "user-2")
           eq_refl eq_refl eq_refl eq_refl eq_refl eq_refl eq_refl
           ltac:(discriminate) eq_refl
           15000 17000 5000 eq_refl eq_refl eq_refl).
Defined.
(* ================================================================== *)
(** ** The body HttpExceptionFilter sends *)
(* ================================================================== *)

Lemma opt_string_eqb_eq o x : opt_string_eqb o x = true <-> o = Some x.
Proof.
  destruct o as [y|]; simpl.
  - rewrite String.eqb_eq. split; congruence.
  - split; discriminate.
Qed.

(** X17. Whatever is thrown, the status sent is the [statusCode] of the
    body and [message] is an array: one string, or, for an
    [HttpException] whose response object has an array under [message],
    that array as it is (its items are not looked at). Only an
    [HttpException] is answered with a status other than 500, its own. *)
Theorem catch_message_is_array (exception : Thrown)
  (request : HttpExceptionFilter.Request) (now : string)
  (NODE_ENV : option string) :
  let sent := HttpExceptionFilter.catch exception request now NODE_ENV in
  let body := snd sent in
  fst sent = HttpExceptionFilter.body_statusCode body
  /\ ((exists text,
          HttpExceptionFilter.body_message body = [JsString text])
      \/ (exists status fields stack,
             exception = ThrownHttpException status (JsObject fields) stack
             /\ js_get (JsObject fields) "message"
                = JsArray (HttpExceptionFilter.body_message body)))
  /\ (fst sent <> 500 ->
      exists response stack,
        exception = ThrownHttpException (fst sent) response stack).
Proof.
  cbv zeta. split; [reflexivity|]. split.
  - destruct exception as [status response stack|text stack|];
      [|left; eexists; reflexivity..].
    unfold HttpExceptionFilter.catch,
      HttpExceptionFilter.extractExceptionInfo.
    destruct response as [| |text|items|fields|];
      try (left; eexists; reflexivity).
    unfold HttpExceptionFilter.parseExceptionResponse,
      HttpExceptionFilter.extractMessage.
    destruct (js_has (JsObject fields) "message");
      [|left; eexists; reflexivity].
    cbn [negb].
    destruct (js_get (JsObject fields) "message") as [| |t|l|f|] eqn:E;
      try (left; eexists; reflexivity).
    right. exists status, fields, stack. split; [reflexivity|].
    rewrite E. reflexivity.
  - destruct exception as [status response stack|text stack|].
    + intros _. exists response, stack.
      unfold HttpExceptionFilter.catch,
        HttpExceptionFilter.extractExceptionInfo.
      now destruct (HttpExceptionFilter.parseExceptionResponse response).
    + intros H. now contradiction H.
    + intros H. now contradiction H.
Qed.

(** X18. What the body discloses. It has an [errors] property exactly
    for an [HttpException] whose response is an object with an [errors]
    property that is neither [null] nor [undefined], and it carries that
    value; it has a [stack] property exactly when [NODE_ENV] is
    "development" and the exception is an [Error], and it carries its
    stack. *)
Theorem catch_discloses (exception : Thrown)
  (request : HttpExceptionFilter.Request) (now : string)
  (NODE_ENV : option string) :
  let body :=
    snd (HttpExceptionFilter.catch exception request now NODE_ENV) in
  (forall v,
      HttpExceptionFilter.body_errors body = Some v
      <-> v <> JsNull /\ v <> JsUndefined
          /\ exists status fields stack,
               exception
               = ThrownHttpException status (JsObject fields) stack
               /\ js_has (JsObject fields) "errors" = true
               /\ js_get (JsObject fields) "errors" = v)
  /\ (forall st,
         HttpExceptionFilter.body_stack body = Some st
         <-> NODE_ENV = Some "development"
             /\ HttpExceptionFilter.error_stack exception = Some st).
Proof.
  cbv zeta. split.
  - intros v. split.
    + destruct exception as [status response stack|text stack|];
        [|discriminate..].
      unfold HttpExceptionFilter.catch,
        HttpExceptionFilter.extractExceptionInfo.
      destruct response as [| |text|items|fields|]; try discriminate.
      unfold HttpExceptionFilter.parseExceptionResponse.
      cbn [snd HttpExceptionFilter.body_errors HttpExceptionFilter.errors].
      destruct (js_has (JsObject fields) "errors") eqn:Hhas;
        [|discriminate].
      destruct (js_get (JsObject fields) "errors") as [| |t|l|f|] eqn:E;
        try discriminate;
        intros H; injection H as <-;
        (split; [discriminate|]); (split; [discriminate|]);
        exists status, fields, stack; now rewrite E.
    + intros (Hnull & Hundef & status & fields & stack & -> & Hhas & Hget).
      unfold HttpExceptionFilter.catch,
        HttpExceptionFilter.extractExceptionInfo,
        HttpExceptionFilter.parseExceptionResponse.
      cbn [snd HttpExceptionFilter.body_errors HttpExceptionFilter.errors].
      rewrite Hhas, Hget.
      destruct v; congruence.
  - intros st. unfold HttpExceptionFilter.catch.
    cbn [snd HttpExceptionFilter.body_stack].
    destruct (opt_string_eqb NODE_ENV "development") eqn:E.
    + apply opt_string_eqb_eq in E. tauto.
    + split; [discriminate|]. intros [H _].
      apply opt_string_eqb_eq in H. congruence.
Qed.

(* ================================================================== *)
(** ** The balance an operation reports and the balance read back *)
(* ================================================================== *)

Section ReportedBalance.

Context {N : JsNumber}.

(** X19. A deposit computes [newBalance] as a number, stores it and
    returns the number, not the stored value: [getBalance] before the
    deposit gives its [previousBalance], and [getBalance] after it gives
    its [newBalance] as it went through the column. A reversal reads
    the wallet again before it returns: its [newBalance] is what
    [getBalance] gives afterwards. *)
Theorem getBalance_after_operation (userId : string) (s : Store) :
  (forall dto newId createdAt now r s',
      deposit userId dto newId createdAt now s = (Return r, s') ->
      exists walletId,
        getBalance userId s
        = Return (mkBalanceResult (dr_previousBalance r) walletId)
        /\ getBalance userId s'
           = Return (mkBalanceResult
                       (toNumber (ofNumber (dr_newBalance r))) walletId))
  /\ (forall transactionId newId createdAt now r s',
         reverseTransaction userId transactionId newId createdAt now s
         = (Return r, s') ->
         exists walletId,
           getBalance userId s'
           = Return (mkBalanceResult (rr_newBalance r) walletId)).
Proof.
  split.
  - intros dto newId createdAt now r s' H.
    destruct (findWalletByUserId s userId) as [wallet|] eqn:Hw.
    + rewrite (deposit_outcome _ _ _ _ _ _ _ Hw) in H. cbv zeta in H.
      destruct (column_value "balance" _) as [b|] eqn:Hb;
        [|discriminate].
      destruct (column_value "amount" _) as [a|]; [|discriminate].
      injection H as <- <-.
      exists (wallet_id wallet). unfold getBalance. rewrite Hw.
      split; [reflexivity|].
      erewrite findWalletByUserId_update by reflexivity.
      rewrite Hw. cbn [option_map dr_newBalance].
      rewrite updateWalletRow_hit.
      cbn [set_balance wallet_balance wallet_id].
      now rewrite (proj1 (column_value_returned _ _ _ Hb)).
    + rewrite (deposit_no_wallet _ _ _ _ _ _ Hw) in H. discriminate H.
  - intros transactionId newId createdAt now r s'.
    unfold reverseTransaction, reverseTransaction_interleaved.
    destruct (findTransactionById s transactionId) as [t|];
      [|discriminate].
    destruct (negb (isOwner s t userId)); [discriminate|].
    destruct (TransactionStatus_eqb (tx_status t) REVERSED);
      [discriminate|].
    destruct (TransactionType_eqb (tx_type t) REVERSAL); [discriminate|].
    unfold prisma_transaction, reverse_unit. unfold bind at 1.
    destruct (reverse_balances t (toNumber (tx_amount t)) s)
      as [[[] s1]|]; [|discriminate].
    unfold bind at 1. unfold tx_transaction_updateStatus at 1.
    destruct (findTransactionById s1 transactionId); [|discriminate].
    match goal with
    | |- context [match ?o with Some _ => _ | None => throw _ end] =>
        destruct o as [reversalTo|]; [|discriminate]
    end.
    destruct (falsy reversalTo); [discriminate|].
    unfold bind, tx_transaction_create, tx_wallet_findByUserId.
    match goal with
    | |- context [findWalletByUserId ?s2 userId] =>
        destruct (findWalletByUserId s2 userId) as [uw|] eqn:Huw;
          [|discriminate]
    end.
    unfold ret. intros H. injection H as <- <-.
    exists (wallet_id uw). unfold getBalance.
    match type of Huw with
    | findWalletByUserId ?s2 _ = _ =>
        match goal with
        | |- context [findWalletByUserId ?s3 userId] =>
            change (findWalletByUserId s3 userId)
              with (findWalletByUserId s2 userId)
        end
    end.
    rewrite Huw. reflexivity.
Qed.

End ReportedBalance.

(* ================================================================== *)
(** ** The CPF between the seed, the validator and a transfer *)
(* ================================================================== *)

Section RecipientCpf.

Context {N : JsNumber}.

(** X20. A transfer reads only the digits of [recipientCpf]: two
    requests whose CPFs have the same digits, whatever else they hold,
    do the same, and so the recipient is found under the bare digits
    whether the CPF is sent bare or punctuated. *)
Theorem transfer_reads_digits_only (userId cpf cpf' : string)
  (amount : number) (description : option string) (newId : string)
  (createdAt now : Z) (s : Store) :
  removeNonDigits cpf = removeNonDigits cpf' ->
  transfer userId (mkTransferDto cpf amount description) newId createdAt
    now s
  = transfer userId (mkTransferDto cpf' amount description) newId
      createdAt now s.
Proof.
  intros E.
  unfold transfer, transfer_interleaved, transfer_prechecks.
  cbn [transfer_recipientCpf]. rewrite E.
  destruct (findUserById s userId) as [fromUser|]; [|reflexivity].
  destruct (String.eqb (user_cpf fromUser) (removeNonDigits cpf'));
    [reflexivity|].
  destruct (findUserByCpf s (removeNonDigits cpf')) as [toUser|];
    [|reflexivity].
  destruct (findWalletByUserId s (user_id toUser)); reflexivity.
Qed.

End RecipientCpf.

(** Bruno's CPF punctuated and bare. *)
Lemma transfer_reads_digits_only_witness :
  transfer (N := Binary64) "user-1"
    (mkTransferDto (N := Binary64) "987.654.321-00" (b64_of_Z 50) None)
    "tx-transfer" 2 2 seed_store
  = transfer (N := Binary64) "user-1"
      (mkTransferDto (N := Binary64) "98765432100" (b64_of_Z 50) None)
      "tx-transfer" 2 2 seed_store.
Proof.
  exact (transfer_reads_digits_only (N := Binary64) "user-1"
           "987.654.321-00" "98765432100" (b64_of_Z 50) None
           "tx-transfer" 2 2 seed_store eq_refl).
Defined.

(** X21. The seed stores [sanitizeCpf] of a generated CPF and later
    sends [formatCpf] of the stored value as [recipientCpf]. For nine
    decimal digits the generated CPF is already in that format: what is
    stored are its eleven digits, the nine drawn first, and formatting
    the stored value gives the generated string back. *)
Theorem generateValidCPF_canonical (random : list Z) :
  List.length random = 9%nat ->
  Forall is_decimal random ->
  let generated := generateValidCPF random in
  let stored := sanitizeCpf generated in
  String.length stored = 11%nat
  /\ all_digits stored = true
  /\ slice 0 9 stored = join_digits random
  /\ formatCpf stored = generated
  /\ sanitizeCpf (formatCpf stored) = stored.
Proof.
  intros Hlen Hds.
  destruct random as [|d0 [|d1 [|d2 [|d3 [|d4 [|d5 [|d6 [|d7 [|d8 [|]]]]]]]]]];
    try discriminate Hlen.
  remember (check_digit (digits_sum [d0; d1; d2; d3; d4; d5; d6; d7; d8] 10))
    as c1 eqn:E1.
  remember (check_digit
              (digits_sum [d0; d1; d2; d3; d4; d5; d6; d7; d8; c1] 11))
    as c2 eqn:E2.
  assert (Hall : Forall is_decimal
                   ([d0; d1; d2; d3; d4; d5; d6; d7; d8] ++ [c1; c2])).
  { apply Forall_app. split; [exact Hds|].
    subst c1 c2. repeat constructor; apply check_digit_decimal. }
  cbn [app] in Hall.
  set (ds := [d0; d1; d2; d3; d4; d5; d6; d7; d8; c1; c2]) in *.
  assert (Hgen : generateValidCPF [d0; d1; d2; d3; d4; d5; d6; d7; d8]
                 = slice 0 3 (join_digits ds) ++ "."
                     ++ slice 3 6 (join_digits ds) ++ "."
                     ++ slice 6 9 (join_digits ds) ++ "-"
                     ++ slice 9 11 (join_digits ds)).
  { unfold generateValidCPF. cbv zeta. cbn [app].
    rewrite <- E1. cbn [app]. rewrite <- E2. reflexivity. }
  assert (Hclean : sanitizeCpf
                     (generateValidCPF [d0; d1; d2; d3; d4; d5; d6; d7; d8])
                   = join_digits ds).
  { unfold sanitizeCpf. rewrite Hgen.
    apply dotted_clean; [now apply all_digits_join|].
    now rewrite length_join. }
  cbv zeta. rewrite Hclean.
  assert (Hfix : sanitizeCpf (join_digits ds) = join_digits ds)
    by (apply removeNonDigits_fixes_digits; now apply all_digits_join).
  split; [now rewrite length_join|].
  split; [now apply all_digits_join|].
  split; [reflexivity|].
  assert (Hfmt : formatCpf (join_digits ds)
                 = generateValidCPF [d0; d1; d2; d3; d4; d5; d6; d7; d8]).
  { unfold formatCpf. cbv zeta. rewrite Hfix. now rewrite Hgen. }
  split; [exact Hfmt|].
  now rewrite Hfmt.
Qed.

Lemma generateValidCPF_canonical_witness :
  formatCpf (sanitizeCpf (generateValidCPF [1; 1; 1; 4; 4; 4; 7; 7; 7]))
  = "111.444.777-35".
Proof.
  destruct (generateValidCPF_canonical [1; 1; 1; 4; 4; 4; 7; 7; 7] eq_refl)
    as (_ & _ & _ & H & _).
  { repeat constructor; unfold is_decimal; lia. }
  exact H.
Defined.

(* ================================================================== *)
(** ** Registration and login *)
(* ================================================================== *)

Lemma seed_database_store : storeOf seed_database = seed_store.
Proof. reflexivity. Qed.

Lemma NoDup_snoc {A} (l : list A) (x : A) :
  NoDup l -> ~ In x l -> NoDup (l ++ [x]).
Proof.
  intros Hl Hx.
  apply (Permutation_NoDup (Permutation_cons_append l x)).
  now constructor.
Qed.

Section Registration.

Context {N : JsNumber}.

Variable bcrypt_hash : string -> Z -> string -> string.
Variable bcrypt_compare : string -> string -> bool.
Variable jwt_sign : JwtPayload -> string.
Variable jwt_verify : string -> option JwtPayload.
Variable SALT_ROUNDS : Z.

Variables (registerDto : RegisterDto) (newUserId newWalletId salt : string).
Variable db : Database.

Let email : string := register_email registerDto.
Let cleanCpf : string := removeNonDigits (register_cpf registerDto).
Let user : UserRow :=
  registered_user bcrypt_hash SALT_ROUNDS registerDto newUserId salt.
Let wallet : Wallet := mkWallet newWalletId 0 newUserId.

(** The three ways [register] ends. *)
Lemma register_outcome :
  (exists u message,
      In u (db_users db)
      /\ AuthService.register bcrypt_hash SALT_ROUNDS registerDto newUserId
           newWalletId salt db
         = (AuthThrow (ConflictException message), db)
      /\ ((message = "Email já cadastrado" /\ row_email u = email)
          \/ (message = "CPF já cadastrado" /\ row_cpf u = cleanCpf
              /\ row_email u <> email)))
  \/ ((forall u, In u (db_users db) ->
                 row_email u <> email /\ row_cpf u <> cleanCpf)
      /\ fits_users (register_name registerDto) email cleanCpf = false
      /\ AuthService.register bcrypt_hash SALT_ROUNDS registerDto newUserId
           newWalletId salt db
         = (AuthThrow ValueTooLong, db))
  \/ ((forall u, In u (db_users db) ->
                 row_email u <> email /\ row_cpf u <> cleanCpf)
      /\ fits_users (register_name registerDto) email cleanCpf = true
      /\ AuthService.register bcrypt_hash SALT_ROUNDS registerDto newUserId
           newWalletId salt db
         = (AuthReturn (AuthService.userJson user (Some wallet)),
            registered_database user newWalletId db)).
Proof.
  unfold AuthService.register. cbv zeta. fold email cleanCpf.
  destruct (find (fun u => String.eqb (row_email u) email
                           || String.eqb (row_cpf u) cleanCpf)
              (db_users db)) as [u|] eqn:Hfind.
  - left. apply find_some in Hfind. destruct Hfind as [Hin Hcond].
    destruct (String.eqb_spec (row_email u) email) as [He|He].
    + exists u. eexists. split; [exact Hin|]. split; [reflexivity|].
      left. now split.
    + cbn [orb] in Hcond. rewrite Hcond. apply String.eqb_eq in Hcond.
      exists u. eexists. split; [exact Hin|]. split; [reflexivity|].
      right. now repeat split.
  - right.
    assert (Hnone : forall u, In u (db_users db) ->
                              row_email u <> email
                              /\ row_cpf u <> cleanCpf).
    { intros u Hin. pose proof (find_none _ _ Hfind u Hin) as Hcond.
      cbv beta in Hcond. apply orb_false_iff in Hcond.
      destruct Hcond as [He Hc].
      split; now apply String.eqb_neq. }
    destruct (fits_users (register_name registerDto) email cleanCpf);
      [right | left]; (split; [exact Hnone|]); split; reflexivity.
Qed.

(** X22. Registration keeps e-mails and CPFs unique: whether it is
    refused or adds a user, no two rows share an e-mail or a CPF
    afterwards if none did before. *)
Theorem register_keeps_unique (r : AuthResult AuthService.UserJson)
  (db' : Database) :
  NoDup (map row_email (db_users db)) ->
  NoDup (map row_cpf (db_users db)) ->
  AuthService.register bcrypt_hash SALT_ROUNDS registerDto newUserId
    newWalletId salt db
  = (r, db') ->
  NoDup (map row_email (db_users db'))
  /\ NoDup (map row_cpf (db_users db')).
Proof.
  intros He Hc H.
  destruct register_outcome
    as [(u & message & _ & E & _) | [(_ & _ & E) | (Hnone & _ & E)]];
    rewrite E in H; injection H as _ <-.
  - now split.
  - now split.
  - unfold registered_database. cbn [db_users]. rewrite !map_app.
    cbn [map].
    split; (apply NoDup_snoc; [assumption|]);
      intros Hin; apply in_map_iff in Hin;
      destruct Hin as (u & Hu & Hin);
      destruct (Hnone u Hin) as [H1 H2]; contradiction.
Qed.


Variables (registered : AuthService.UserJson) (db' : Database).

Hypothesis registered_now :
  AuthService.register bcrypt_hash SALT_ROUNDS registerDto newUserId
    newWalletId salt db
  = (AuthReturn registered, db').
Hypothesis fresh_user_id :
  forall u, In u (db_users db) -> row_id u <> newUserId.
Hypothesis fresh_wallet_owner : walletOfUser db newUserId = None.

Lemma registered_inv :
  registered = AuthService.userJson user (Some wallet)
  /\ db' = registered_database user newWalletId db
  /\ forall u, In u (db_users db) ->
               row_email u <> email /\ row_cpf u <> cleanCpf.
Proof.
  destruct register_outcome
    as [(u & message & _ & E & _) | [(_ & _ & E) | (Hnone & _ & E)]];
    rewrite registered_now in E; [discriminate E | discriminate E |].
  injection E as E1 E2.
  split; [now symmetry|]. split; [now symmetry | exact Hnone].
Qed.

Lemma find_snoc {A} (p : A -> bool) (l : list A) (x : A) :
  (forall y, In y l -> p y = false) -> p x = true ->
  find p (l ++ [x]) = Some x.
Proof.
  intros Hl Hx. rewrite find_app_none.
  - cbn [find]. now rewrite Hx.
  - destruct (find p l) as [y|] eqn:E; [|reflexivity].
    apply find_some in E. destruct E as [Hin Hy].
    now rewrite (Hl y Hin) in Hy.
Qed.

Lemma registered_by_email :
  find (fun u => String.eqb (row_email u) email) (db_users db')
  = Some user.
Proof.
  destruct registered_inv as (_ & -> & Hnone).
  apply find_snoc; [|apply String.eqb_refl].
  intros u Hin. apply String.eqb_neq. now apply Hnone.
Qed.

Lemma registered_by_id :
  find (fun u => String.eqb (row_id u) newUserId) (db_users db')
  = Some user.
Proof.
  destruct registered_inv as (_ & -> & _).
  apply find_snoc; [|apply String.eqb_refl].
  intros u Hin. apply String.eqb_neq. now apply fresh_user_id.
Qed.

Lemma registered_wallet : walletOfUser db' newUserId = Some wallet.
Proof.
  destruct registered_inv as (_ & -> & _).
  unfold walletOfUser, findWalletByUserId, registered_database, storeOf.
  cbn [wallets db_wallets].
  rewrite find_app_none by exact fresh_wallet_owner.
  cbn [find user registered_user row_id wallet_userId].
  now rewrite String.eqb_refl.
Qed.

(** X24. A user who has just registered can log in. [login] with the
    same e-mail and a password that bcrypt accepts against the stored
    hash returns the token signed for that e-mail and the new id, and
    the user as [register] returned it; a password bcrypt refuses gets
    the answer an unknown e-mail gets. When the JWT service verifies
    what it signed, [validateToken] gives that payload back, and
    [JwtStrategy.validate] on it finds the user with the wallet of 0. *)
Theorem register_then_login (password : string) :
  let hashed :=
    bcrypt_hash (register_password registerDto) SALT_ROUNDS salt in
  let payload := mkJwtPayload email newUserId in
  (bcrypt_compare password hashed = true ->
   AuthService.login bcrypt_compare jwt_sign (mkLoginDto email password)
     db'
   = AuthReturn (AuthService.mkLoginResult (jwt_sign payload) registered))
  /\ (bcrypt_compare password hashed = false ->
      AuthService.login bcrypt_compare jwt_sign (mkLoginDto email password)
        db'
      = AuthThrow (UnauthorizedException "Credenciais inválidas"))
  /\ (forall unknown,
         (forall u, In u (db_users db') -> row_email u <> unknown) ->
         AuthService.login bcrypt_compare jwt_sign
           (mkLoginDto unknown password) db'
         = AuthThrow (UnauthorizedException "Credenciais inválidas"))
  /\ (jwt_verify (jwt_sign payload) = Some payload ->
      AuthService.validateToken jwt_verify (jwt_sign payload)
      = AuthReturn payload)
  /\ JwtStrategy.validate payload db'
     = AuthReturn
         (mkAuthenticatedUser newUserId (register_name registerDto) email
            cleanCpf (Some (mkWallet newWalletId 0 newUserId))).
Proof.
  cbv zeta. destruct registered_inv as (Hr & _ & _).
  split; [|split; [|split; [|split]]].
  - intros Hok. unfold AuthService.login.
    cbn [login_email login_password]. rewrite registered_by_email.
    cbn [user registered_user row_password row_email row_id].
    rewrite Hok. cbn [negb].
    now rewrite registered_wallet, Hr.
  - intros Hno. unfold AuthService.login.
    cbn [login_email login_password]. rewrite registered_by_email.
    cbn [user registered_user row_password]. now rewrite Hno.
  - intros unknown Hun. unfold AuthService.login.
    cbn [login_email login_password].
    destruct (find (fun u => String.eqb (row_email u) unknown)
                (db_users db')) as [u|] eqn:E; [|reflexivity].
    apply find_some in E. destruct E as [Hin E].
    apply String.eqb_eq in E. now destruct (Hun u Hin).
  - intros Hv. unfold AuthService.validateToken. now rewrite Hv.
  - unfold JwtStrategy.validate. cbn [jwt_sub].
    rewrite registered_by_id.
    cbn [user registered_user row_id row_name row_email row_cpf].
    now rewrite registered_wallet.
Qed.

(** X25. A user who has just registered can use the wallet: the
    balance is 0, a deposit the columns accept is credited on that 0,
    and a transfer from any earlier user to the CPF they registered
    with, however it is punctuated, gets past the checks on the two
    parties. *)
Theorem registered_user_transacts :
  let s := storeOf db' in
  let recipient :=
    mkUser newUserId (register_name registerDto) cleanCpf in
  getBalance newUserId s
  = Return (mkBalanceResult (toNumber 0) newWalletId)
  /\ (forall dto newId createdAt now b a,
         column_value "balance"
           (numeral (num_add (toNumber 0) (deposit_amount dto)))
         = Return b ->
         column_value "amount" (numeral (deposit_amount dto)) = Return a ->
         exists r s',
           deposit newUserId dto newId createdAt now s = (Return r, s')
           /\ dr_previousBalance r = toNumber 0
           /\ dr_newBalance r = num_add (toNumber 0) (deposit_amount dto)
           /\ tx_toWalletId (dr_transaction r) = newWalletId
           /\ tx_amount (dr_transaction r) = a
           /\ findWalletByUserId s' newUserId
              = Some (mkWallet newWalletId b newUserId))
  /\ (forall senderId sender cpf amount description,
         findUserById (storeOf db) senderId = Some sender ->
         removeNonDigits cpf = cleanCpf ->
         transfer_prechecks senderId
           (mkTransferDto cpf amount description) s
         = Return recipient).
Proof.
  cbv zeta.
  assert (Hw : findWalletByUserId (storeOf db') newUserId = Some wallet)
    by exact registered_wallet.
  destruct registered_inv as (_ & Hdb & Hnone).
  split; [|split].
  - unfold getBalance. now rewrite Hw.
  - intros dto newId createdAt now b a Hb Ha. eexists. eexists.
    split.
    { rewrite (deposit_outcome _ _ _ _ _ _ _ Hw). cbv zeta.
      cbn [wallet wallet_balance]. rewrite Hb, Ha. reflexivity. }
    do 4 (split; [reflexivity|]).
    match goal with
    | |- findWalletByUserId ?s2 _ = _ =>
        exact (proj1 (wallets_after_set (storeOf db') s2 newUserId wallet
                        b Hw eq_refl))
    end.
  - intros senderId sender cpf amount description Hs Hcpf.
    unfold transfer_prechecks. cbn [transfer_recipientCpf]. rewrite Hcpf.
    assert (Hs' : findUserById (storeOf db') senderId = Some sender).
    { rewrite Hdb.
      unfold findUserById, storeOf, registered_database in *.
      cbn [users db_users] in *. rewrite map_app.
      now apply find_app_some. }
    rewrite Hs'.
    assert (Hin : exists u, In u (db_users db) /\ userOfRow u = sender).
    { unfold findUserById, storeOf in Hs. cbn [users] in Hs.
      apply find_some in Hs. destruct Hs as [Hin _].
      apply in_map_iff in Hin. destruct Hin as (u & E & Hin).
      now exists u. }
    destruct Hin as (u & Hin & <-).
    destruct (Hnone u Hin) as [_ Hc].
    cbn [userOfRow user_cpf].
    apply String.eqb_neq in Hc. rewrite Hc.
    assert (Hr : findUserByCpf (storeOf db') cleanCpf
                 = Some (userOfRow user)).
    { rewrite Hdb. unfold findUserByCpf, storeOf, registered_database.
      cbn [users db_users]. rewrite map_app.
      apply find_snoc; [|apply String.eqb_refl].
      intros y Hy. apply in_map_iff in Hy. destruct Hy as (v & <- & Hv).
      apply String.eqb_neq. now apply Hnone. }
    rewrite Hr.
    cbn [userOfRow user registered_user user_id row_id row_name row_cpf].
    now rewrite Hw.
Qed.

End Registration.


Lemma seed_user_ids_fresh :
  forall u, In u (db_users seed_database) -> row_id u <> "user-4".
Proof. intros u [<- | [<- | [<- | []]]]; discriminate. Qed.

(** Dora's e-mail and CPF are new among the seed's three. *)
Lemma register_keeps_unique_witness :
  NoDup (map row_email (db_users dora_database))
  /\ NoDup (map row_cpf (db_users dora_database)).
Proof.
  apply (register_keeps_unique (N := Binary64) spec_bcrypt_hash 10
           dora_dto "user-4" "wallet-4" "salt" seed_database
           (AuthReturn
              (AuthService.userJson
                 (registered_user spec_bcrypt_hash 10 dora_dto "user-4"
                    "salt")
                 (Some (mkWallet "wallet-4" 0 "user-4"))))
           dora_database).
  - repeat (constructor; [cbn; intuition discriminate|]). constructor.
  - repeat (constructor; [cbn; intuition discriminate|]). constructor.
  - reflexivity.
Defined.

(** Dora logs in with the password she registered with. *)
Lemma register_then_login_witness :
  exists r,
    AuthService.login (N := Binary64) spec_bcrypt_compare spec_jwt_sign
      (mkLoginDto "dora@example.com" "SenhaSegura!1") dora_database
    = AuthReturn (AuthService.mkLoginResult "signed-token" r)
    /\ AuthService.uj_id r = "user-4"
    /\ AuthService.validateToken spec_jwt_verify "signed-token"
       = AuthReturn (mkJwtPayload "dora@example.com" "user-4")
    /\ JwtStrategy.validate (mkJwtPayload "dora@example.com" "user-4")
         dora_database
       = AuthReturn
           (mkAuthenticatedUser "user-4" "Dora Alves" "dora@example.com"
              "52998224725" (Some (mkWallet "wallet-4" 0 "user-4"))).
Proof.
  destruct (register_then_login (N := Binary64) spec_bcrypt_hash
              spec_bcrypt_compare spec_jwt_sign spec_jwt_verify 10
              dora_dto "user-4" "wallet-4" "salt" seed_database _
              dora_database eq_refl seed_user_ids_fresh eq_refl
              "SenhaSegura!1")
    as (H1 & _ & _ & H3 & H4).
  eexists. split; [exact (H1 eq_refl)|].
  split; [reflexivity|]. split; [exact (H3 eq_refl) | exact H4].
Defined.

(** Dora's wallet is there for her first deposit, of 10.00 on doubles,
    and Ana can send to her CPF. *)
Lemma registered_user_transacts_witness :
  getBalance (N := Binary64) "user-4" (storeOf dora_database)
  = Return (mkBalanceResult (N := Binary64) (b64_toNumber 0) "wallet-4")
  /\ (exists r s',
         deposit (N := Binary64) "user-4"
           (mkDepositDto (N := Binary64) (b64_of_Z 10) None) "tx-dep" 1 1
           (storeOf dora_database)
         = (Return r, s')
         /\ findWalletByUserId s' "user-4"
            = Some (mkWallet "wallet-4" 1000 "user-4"))
  /\ transfer_prechecks (N := Binary64) "user-1"
       (mkTransferDto (N := Binary64) "52998224725" (b64_of_Z 10) None)
       (storeOf dora_database)
     = Return (mkUser "user-4" "Dora Alves" "52998224725").
Proof.
  destruct (registered_user_transacts (N := Binary64) spec_bcrypt_hash 10
              dora_dto "user-4" "wallet-4" "salt" seed_database _
              dora_database eq_refl eq_refl)
    as (H1 & H2 & H3).
  split; [exact H1|]. split.
  - destruct (H2 (mkDepositDto (N := Binary64) (b64_of_Z 10) None)
                "tx-dep" 1 1 1000 1000 eq_refl eq_refl)
      as (r & s' & H & _ & _ & _ & _ & Hw).
    exists r, s'. split; [exact H | exact Hw].
  - exact (H3 "user-1" ana "52998224725" (b64_of_Z 10) None eq_refl
             eq_refl).
Defined.

(** A name of 101 characters, with an e-mail and a CPF nobody has: the
    store refuses the row. *)
Example register_name_too_long :
  AuthService.register (N := Binary64) spec_bcrypt_hash 10 long_name_dto
    "user-5" "wallet-5" "salt" seed_database
  = (AuthThrow ValueTooLong, seed_database).
Proof. reflexivity. Qed.
